(** * TradeBridge wallet ledger: a shallow embedding of
      [backend/routes/wallet.js] and of the query helpers of
      [backend/config/database.js].

    Every route handler of the source is an [async] function whose only
    effects are the [await]ed calls of [getQuery], [allQuery] and [runQuery]
    (one SQL statement each) and the calls of [uuidv4].  A handler is
    embedded as a program [Prog Response]: a tree of store accesses whose
    continuations are the JavaScript that follows each [await].  The same
    program is then run to completion ([run]), run while recording every
    intermediate store ([trace]), or interleaved with another request at its
    suspension points ([interleave]).

    Conventions of the model.
    - Monetary values (the DECIMAL(15,2) columns and the JSON numbers of the
      requests) are exact integers counted in one fixed unit.  JavaScript
      computes with them as binary floating point numbers: the module
      [Doubles] embeds [router.post('/transactions')] with the amounts as
      IEEE 754 doubles, and what is stated of amounts outside that module
      is stated of the exact arithmetic.
    - A table is the list of its rows in rowid order; [INSERT] appends.
    - Every SQL statement succeeds (no I/O error, no constraint violation),
      except in [run_fault], which rejects one chosen statement.
    - [Joi] is modelled for request bodies whose fields, when present, have
      the JSON type the schema asks for.

    The later sections embed, in the same way and each over its own
    statements and store, the read routes of the wallet router, the route
    tables of the routers, the account routes of [routes/auth.js] with
    [authenticateToken] and [optionalAuth] of [middleware/auth.js], the
    notification routes and the shipment routes.  For the shipment routes a
    statement that would break the [UNIQUE] constraint on the tracking
    number fails instead of succeeding. *)

From Stdlib Require Import ZArith String Ascii Bool Lia DecimalString List.
From Stdlib Require Import Sorting.Sorted Sorting.Permutation.
From Stdlib Require Floats.
Import ListNotations.
Open Scope Z_scope.

Set Implicit Arguments.

(* ================================================================== *)
(** ** Values *)

(** JSON values, as far as the handlers build or store them. *)
Unset Elimination Schemes.
Inductive Json : Type :=
| JNull
| JNum (z : Z)
| JStr (s : string)
| JObj (fields : list (string * Json)).
Set Elimination Schemes.

(** Template literals print numbers in decimal. *)
Definition show_number (z : Z) : string := NilZero.string_of_int (Z.to_int z).

(** [c.toUpperCase()] on one ASCII character. *)
Definition toUpperCase_char (c : ascii) : ascii :=
  let n := nat_of_ascii c in
  if ((97 <=? n) && (n <=? 122))%nat then ascii_of_nat (n - 32) else c.

(** [type.charAt(0).toUpperCase() + type.slice(1)] *)
Definition capitalize (s : string) : string :=
  match s with
  | EmptyString => EmptyString
  | String c rest => String (toUpperCase_char c) rest
  end.

(* ================================================================== *)
(** ** Rows of the relational schema ([createTables]) *)

Record UserRow : Type := mkUser {
  u_id : Z;
  u_uuid : string;
  u_email : string;
  u_first_name : string;
  u_last_name : string;
  u_is_active : bool
}.

Record WalletRow : Type := mkWallet {
  w_id : Z;
  w_uuid : string;
  w_user_id : Z;
  w_currency : string;
  w_balance : Z;
  w_frozen_balance : Z;
  w_created_at : Z;
  w_updated_at : Z
}.

Record TransactionRow : Type := mkTransaction {
  t_id : Z;
  t_uuid : string;
  t_wallet_id : Z;
  t_user_id : Z;
  t_type : string;
  t_amount : Z;
  t_currency : string;
  t_description : option string;
  t_reference : option string;
  t_status : string;
  t_metadata : option Json;
  t_created_at : Z
}.

Record NotificationRow : Type := mkNotification {
  n_id : Z;
  n_uuid : string;
  n_user_id : Z;
  n_type : string;
  n_title : string;
  n_message : string;
  n_metadata : Json
}.

(** The store: the four tables the wallet routes touch, the wall clock that
    [CURRENT_TIMESTAMP] reads, and the randomness [uuidv4] consumes. *)
Record Db : Type := mkDb {
  users : list UserRow;
  wallets : list WalletRow;
  transactions : list TransactionRow;
  notifications : list NotificationRow;
  clock : Z;
  entropy : nat
}.

(** [{ id: this.lastID, changes: this.changes }] *)
Record RunResult : Type := mkRunResult { id : Z; changes : Z }.

(** Row of [SELECT type, COUNT( * ) as count, SUM(amount) as total ... GROUP BY type]. *)
Record StatRow : Type := mkStat { stat_type : string; stat_count : Z; stat_total : Z }.

(** Row of [SELECT type, amount, currency, description, created_at ...]. *)
Record RecentRow : Type := mkRecent {
  r_type : string;
  r_amount : Z;
  r_currency : string;
  r_description : option string;
  r_created_at : Z
}.

(* ================================================================== *)
(** ** The SQL statements of the wallet routes *)

Inductive Query : Type -> Type :=
(** [SELECT * FROM wallets WHERE user_id = ?] *)
| SelectWalletByUserId (user_id : Z) : Query (option WalletRow)
(** [SELECT id, uuid, email, first_name, last_name FROM users
     WHERE email = ? AND is_active = 1] *)
| SelectActiveUserByEmail (email : string) : Query (option UserRow)
(** [INSERT INTO transactions (uuid, wallet_id, user_id, type, amount,
     currency, description, reference, status, metadata) VALUES (...)] *)
| InsertTransaction (uuid : string) (wallet_id user_id : Z) (type : string)
    (amount : Z) (currency : string) (description reference : option string)
    (status : string) (metadata : option Json) : Query RunResult
(** [UPDATE wallets SET balance = ?, updated_at = CURRENT_TIMESTAMP WHERE id = ?] *)
| UpdateWalletBalance (balance : Z) (wallet_id : Z) : Query RunResult
(** [UPDATE transactions SET status = ? WHERE id = ?] *)
| UpdateTransactionStatus (status : string) (transaction_id : Z) : Query RunResult
(** [SELECT * FROM transactions WHERE id = ?] *)
| SelectTransactionById (transaction_id : Z) : Query (option TransactionRow)
(** [INSERT INTO notifications (uuid, user_id, type, title, message, metadata)
     VALUES (...)] *)
| InsertNotification (uuid : string) (user_id : Z) (type title message : string)
    (metadata : Json) : Query RunResult
(** [SELECT type, COUNT( * ) as count, SUM(amount) as total FROM transactions
     WHERE user_id = ? AND status = 'completed' GROUP BY type] *)
| SelectCompletedStatsByType (user_id : Z) : Query (list StatRow)
(** [SELECT type, amount, currency, description, created_at FROM transactions
     WHERE user_id = ? ORDER BY created_at DESC LIMIT 5] *)
| SelectRecentTransactions (user_id : Z) : Query (list RecentRow)
(** [uuidv4()].  The call is synchronous; counting it as a step of its own
    only adds schedules to [interleave]. *)
| Uuidv4 : Query string.

(** AUTOINCREMENT: one more than the largest rowid of the table. *)
Definition next_rowid {A} (key : A -> Z) (rows : list A) : Z :=
  fold_right Z.max 0 (map key rows) + 1.

Definition set_balance (b now : Z) (w : WalletRow) : WalletRow :=
  mkWallet (w_id w) (w_uuid w) (w_user_id w) (w_currency w) b
           (w_frozen_balance w) (w_created_at w) now.

Definition set_status (s : string) (t : TransactionRow) : TransactionRow :=
  mkTransaction (t_id t) (t_uuid t) (t_wallet_id t) (t_user_id t) (t_type t)
                (t_amount t) (t_currency t) (t_description t) (t_reference t)
                s (t_metadata t) (t_created_at t).

(** [UPDATE ... WHERE id = ?]: every row whose key matches is rewritten. *)
Definition update_where {A} (key : A -> Z) (k : Z) (f : A -> A) (rows : list A) : list A :=
  map (fun r => if key r =? k then f r else r) rows.

Definition count_where {A} (key : A -> Z) (k : Z) (rows : list A) : Z :=
  Z.of_nat (length (filter (fun r => key r =? k) rows)).

(** *** Grouping and ordering used by the statistics queries *)

Definition completed_of (uid : Z) (rows : list TransactionRow) : list TransactionRow :=
  filter (fun t => (t_user_id t =? uid) && (t_status t =? "completed")%string) rows.

Definition of_type (k : string) (rows : list TransactionRow) : list TransactionRow :=
  filter (fun t => (t_type t =? k)%string) rows.

Definition sum_amounts (rows : list TransactionRow) : Z :=
  fold_right (fun t acc => t_amount t + acc) 0 rows.

(** The distinct values of the grouping column, in order of first occurrence. *)
Fixpoint group_keys (seen : list string) (rows : list TransactionRow) : list string :=
  match rows with
  | [] => []
  | t :: rest =>
      if existsb (String.eqb (t_type t)) seen then group_keys seen rest
      else t_type t :: group_keys (t_type t :: seen) rest
  end.

Definition group_by_type (rows : list TransactionRow) : list StatRow :=
  map (fun k => mkStat k (Z.of_nat (length (of_type k rows))) (sum_amounts (of_type k rows)))
      (group_keys [] rows).

(** [ORDER BY created_at DESC]: insertion sort, newest first; rows with equal
    timestamps stay in rowid order (SQL leaves their order open). *)
Fixpoint insert_desc (t : TransactionRow) (sorted : list TransactionRow) : list TransactionRow :=
  match sorted with
  | [] => [t]
  | x :: rest =>
      if t_created_at x <=? t_created_at t then t :: x :: rest
      else x :: insert_desc t rest
  end.

Definition order_by_created_at_desc (rows : list TransactionRow) : list TransactionRow :=
  fold_right insert_desc [] rows.

Definition rows_of_user (uid : Z) (rows : list TransactionRow) : list TransactionRow :=
  filter (fun t => t_user_id t =? uid) rows.

Definition recent_rows (uid : Z) (rows : list TransactionRow) : list TransactionRow :=
  firstn 5 (order_by_created_at_desc (rows_of_user uid rows)).

Definition recent_columns (t : TransactionRow) : RecentRow :=
  mkRecent (t_type t) (t_amount t) (t_currency t) (t_description t) (t_created_at t).

(** *** Executing one statement against the store *)

Definition uuid_of (n : nat) : string :=
  ("uuid-" ++ NilZero.string_of_uint (Nat.to_uint n))%string.

Definition with_wallets (db : Db) (ws : list WalletRow) : Db :=
  mkDb (users db) ws (transactions db) (notifications db) (clock db) (entropy db).

Definition with_transactions (db : Db) (ts : list TransactionRow) : Db :=
  mkDb (users db) (wallets db) ts (notifications db) (clock db) (entropy db).

Definition with_notifications (db : Db) (ns : list NotificationRow) : Db :=
  mkDb (users db) (wallets db) (transactions db) ns (clock db) (entropy db).

Definition with_clock (db : Db) (now : Z) : Db :=
  mkDb (users db) (wallets db) (transactions db) (notifications db) now (entropy db).

(** [getQuery] resolves with the first matching row, or [undefined]. *)
Definition wallet_of_user (uid : Z) (rows : list WalletRow) : option WalletRow :=
  find (fun w => w_user_id w =? uid) rows.

Definition active_user_by_email (email : string) (rows : list UserRow) : option UserRow :=
  find (fun u => (u_email u =? email)%string && u_is_active u) rows.

Definition transaction_by_id (tid : Z) (rows : list TransactionRow) : option TransactionRow :=
  find (fun t => t_id t =? tid) rows.

Definition exec {A} (q : Query A) (db : Db) : A * Db :=
  match q in Query T return T * Db with
  | SelectWalletByUserId uid => (wallet_of_user uid (wallets db), db)
  | SelectActiveUserByEmail email => (active_user_by_email email (users db), db)
  | InsertTransaction uuid wid uid type amount currency description reference status metadata =>
      let rowid := next_rowid t_id (transactions db) in
      (mkRunResult rowid 1,
       with_transactions db
         (transactions db ++
          [mkTransaction rowid uuid wid uid type amount currency description
                         reference status metadata (clock db)]))
  | UpdateWalletBalance b wid =>
      (mkRunResult 0 (count_where w_id wid (wallets db)),
       with_wallets db (update_where w_id wid (set_balance b (clock db)) (wallets db)))
  | UpdateTransactionStatus s tid =>
      (mkRunResult 0 (count_where t_id tid (transactions db)),
       with_transactions db (update_where t_id tid (set_status s) (transactions db)))
  | SelectTransactionById tid => (transaction_by_id tid (transactions db), db)
  | InsertNotification uuid uid type title message metadata =>
      let rowid := next_rowid n_id (notifications db) in
      (mkRunResult rowid 1,
       with_notifications db
         (notifications db ++ [mkNotification rowid uuid uid type title message metadata]))
  | SelectCompletedStatsByType uid =>
      (group_by_type (completed_of uid (transactions db)), db)
  | SelectRecentTransactions uid =>
      (map recent_columns (recent_rows uid (transactions db)), db)
  | Uuidv4 =>
      (uuid_of (entropy db),
       mkDb (users db) (wallets db) (transactions db) (notifications db) (clock db)
            (S (entropy db)))
  end.

(* ================================================================== *)
(** ** Programs: a handler is a tree of awaited statements *)

Inductive Prog (R : Type) : Type :=
| Ret (r : R)
| Await (A : Type) (q : Query A) (k : A -> Prog R).

Arguments Ret {R} r.
Arguments Await {R A} q k.

Notation "x <- q ;; k" := (Await q (fun x => k))
  (at level 61, q at next level, right associativity).

(** Run to completion, every statement succeeding. *)
Fixpoint run {R} (p : Prog R) (db : Db) : R * Db :=
  match p with
  | Ret r => (r, db)
  | Await q k => let (a, db') := exec q db in run (k a) db'
  end.

(** The store after each statement of the run, in order. *)
Fixpoint trace {R} (p : Prog R) (db : Db) : list Db :=
  match p with
  | Ret _ => []
  | Await q k => let (a, db') := exec q db in db' :: trace (k a) db'
  end.

(** One suspension point: the statement runs, the continuation is ready. *)
Definition step {R} (p : Prog R) (db : Db) : Prog R * Db :=
  match p with
  | Ret r => (Ret r, db)
  | Await q k => let (a, db') := exec q db in (k a, db')
  end.

(** Two requests in flight; the schedule says whose statement runs next
    ([true]: the first request). *)
Fixpoint interleave {R} (schedule : list bool) (p1 p2 : Prog R) (db : Db)
  : Prog R * Prog R * Db :=
  match schedule with
  | [] => (p1, p2, db)
  | true :: rest => let (p1', db') := step p1 db in interleave rest p1' p2 db'
  | false :: rest => let (p2', db') := step p2 db in interleave rest p1 p2' db'
  end.

(** The [n]-th statement (counting from 0) rejects: the handler's
    [catch] block answers [on_error] and nothing further is executed. *)
Fixpoint run_fault {R} (on_error : R) (n : nat) (p : Prog R) (db : Db) : R * Db :=
  match p with
  | Ret r => (r, db)
  | Await q k =>
      match n with
      | O => (on_error, db)
      | S n' => let (a, db') := exec q db in run_fault on_error n' (k a) db'
      end
  end.

(* ================================================================== *)
(** ** Requests and responses *)

(** [req.user], set by [authenticateToken]. *)
Record ReqUser : Type := mkReqUser {
  req_id : Z;
  req_uuid : string;
  req_email : string;
  req_firstName : string;
  req_lastName : string
}.

(** Body of [POST /transactions]; [None] is an absent key. *)
Record TransactionBody : Type := mkTransactionBody {
  tb_type : option string;
  tb_amount : option Z;
  tb_currency : option string;
  tb_description : option string;
  tb_reference : option string;
  tb_metadata : option (list (string * Json))
}.

(** Body of [POST /transfer]. *)
Record TransferBody : Type := mkTransferBody {
  fb_recipientEmail : option string;
  fb_amount : option Z;
  fb_currency : option string;
  fb_description : option string
}.

(** [error.details[0]]: the offending key and the rule it broke. *)
Record JoiError : Type := mkJoiError { key : string; rule : string }.

(** The validated [value] of [createTransactionSchema], defaults applied. *)
Record TransactionValue : Type := mkTransactionValue {
  type : string;
  amount : Z;
  currency : string;
  description : option string;
  reference : option string;
  metadata : option (list (string * Json))
}.

(** The validated [value] of [transferSchema]. *)
Record TransferValue : Type := mkTransferValue {
  recipientEmail : string;
  transfer_amount : Z;
  transfer_currency : string;
  transfer_description : option string
}.

Record TransactionView : Type := mkTransactionView {
  tv_id : Z;
  tv_uuid : string;
  tv_type : string;
  tv_amount : Z;
  tv_currency : string;
  tv_description : option string;
  tv_reference : option string;
  tv_status : string;
  tv_metadata : option Json;
  tv_createdAt : Z
}.

Record TransferView : Type := mkTransferView {
  fv_uuid : string;
  fv_amount : Z;
  fv_currency : string;
  fv_recipientEmail : string;
  fv_recipientName : string;
  fv_description : option string
}.

Record BalanceView : Type := mkBalanceView {
  bv_id : Z;
  bv_uuid : string;
  bv_currency : string;
  bv_balance : Z;
  bv_frozenBalance : Z;
  bv_availableBalance : Z;
  bv_createdAt : Z;
  bv_updatedAt : Z
}.

Record StatsWallet : Type := mkStatsWallet {
  sw_balance : Z;
  sw_frozenBalance : Z;
  sw_availableBalance : Z;
  sw_currency : string
}.

(** [{ count, total }], one per key of [stats.transactionTypes]. *)
Record TypeStat : Type := mkTypeStat { count : Z; total : Z }.

Record Stats : Type := mkStats {
  totalTransactions : Z;
  transactionTypes : list (string * TypeStat)
}.

Inductive Body : Type :=
| ErrorBody (error code : string)
| ValidationErrorBody (error : JoiError) (code : string)
| InsufficientBalanceBody (error code : string) (availableBalance : Z)
| TransactionCreatedBody (message : string) (transaction : TransactionView) (newBalance : Z)
| TransferCompletedBody (message : string) (transfer : TransferView) (newBalance : Z)
| BalanceBody (wallet : BalanceView)
| StatsBody (wallet : StatsWallet) (stats : Stats) (recentTransactions : list RecentRow).

Record Response : Type := mkResponse { status : Z; json : Body }.

(** The [code] field of an error body. *)
Definition error_code (r : Response) : option string :=
  match json r with
  | ErrorBody _ c | ValidationErrorBody _ c | InsufficientBalanceBody _ c _ => Some c
  | _ => None
  end.

(* ================================================================== *)
(** ** Joi schemas *)

(** [Joi.string().max(n).optional()] *)
Definition joi_optional_string (k : string) (n : nat) (v : option string)
  : JoiError + option string :=
  match v with
  | None => inr None
  | Some s =>
      if (s =? "")%string then inl (mkJoiError k "string.empty")
      else if (n <? String.length s)%nat then inl (mkJoiError k "string.max")
      else inr (Some s)
  end.

(** [Joi.number().positive().required()]; a number beyond
    [Number.MAX_SAFE_INTEGER] is refused before the rule is looked at. *)
Definition joi_positive_number (k : string) (v : option Z) : JoiError + Z :=
  match v with
  | None => inl (mkJoiError k "any.required")
  | Some a =>
      if Z.abs a <=? 9007199254740991
      then if 0 <? a then inr a else inl (mkJoiError k "number.positive")
      else inl (mkJoiError k "number.unsafe")
  end.

(** [Joi.string().length(3).default('USD')] *)
Definition joi_currency (k : string) (v : option string) : JoiError + string :=
  match v with
  | None => inr "USD"%string
  | Some s =>
      if (s =? "")%string then inl (mkJoiError k "string.empty")
      else if (String.length s =? 3)%nat then inr s
      else inl (mkJoiError k "string.length")
  end.

Definition transaction_types : list string :=
  ["credit"; "debit"; "transfer"; "payment"]%string.

(** [Joi.string().valid('credit', 'debit', 'transfer', 'payment').required()] *)
Definition joi_type (k : string) (v : option string) : JoiError + string :=
  match v with
  | None => inl (mkJoiError k "any.required")
  | Some s =>
      if existsb (String.eqb s) transaction_types then inr s
      else inl (mkJoiError k "any.only")
  end.

(** [createTransactionSchema.validate(req.body)]: keys are checked in schema
    order and the first failure is reported. *)
Definition createTransactionSchema (body : TransactionBody) : JoiError + TransactionValue :=
  match joi_type "type" (tb_type body) with
  | inl e => inl e
  | inr type =>
  match joi_positive_number "amount" (tb_amount body) with
  | inl e => inl e
  | inr amount =>
  match joi_currency "currency" (tb_currency body) with
  | inl e => inl e
  | inr currency =>
  match joi_optional_string "description" 200 (tb_description body) with
  | inl e => inl e
  | inr description =>
  match joi_optional_string "reference" 100 (tb_reference body) with
  | inl e => inl e
  | inr reference =>
      inr (mkTransactionValue type amount currency description reference (tb_metadata body))
  end end end end end.

(* ================================================================== *)
(** ** The route handlers *)

(** [acc[k] = v] on a plain object: a present key keeps its place and takes
    the new value, a new key goes last. *)
Fixpoint object_set {V} (k : string) (v : V) (acc : list (string * V)) : list (string * V) :=
  match acc with
  | [] => [(k, v)]
  | (k', v') :: rest =>
      if (k' =? k)%string then (k', v) :: rest else (k', v') :: object_set k v rest
  end.

(** [obj[k]] *)
Fixpoint object_get {V} (k : string) (obj : list (string * V)) : option V :=
  match obj with
  | [] => None
  | (k', v) :: rest => if (k' =? k)%string then Some v else object_get k rest
  end.

Definition is_debit_type (type : string) : bool :=
  ((type =? "debit") || (type =? "transfer") || (type =? "payment"))%string.

Definition transaction_view (t : TransactionRow) : TransactionView :=
  mkTransactionView (t_id t) (t_uuid t) (t_type t) (t_amount t) (t_currency t)
                    (t_description t) (t_reference t) (t_status t) (t_metadata t)
                    (t_created_at t).

(** [router.get('/balance')] *)
Definition getBalance (user : ReqUser) : Prog Response :=
  wallet <- SelectWalletByUserId (req_id user) ;;
  match wallet with
  | None => Ret (mkResponse 404 (ErrorBody "Wallet not found" "WALLET_NOT_FOUND"))
  | Some wallet =>
      Ret (mkResponse 200 (BalanceBody
        (mkBalanceView (w_id wallet) (w_uuid wallet) (w_currency wallet)
                       (w_balance wallet) (w_frozen_balance wallet)
                       (w_balance wallet - w_frozen_balance wallet)
                       (w_created_at wallet) (w_updated_at wallet))))
  end.

(** The [catch] block of [router.post('/transactions')]. *)
Definition create_error : Response :=
  mkResponse 500 (ErrorBody "Failed to create transaction" "CREATE_ERROR").

(** [router.post('/transactions')] *)
Definition recordTransaction (user : ReqUser) (body : TransactionBody) : Prog Response :=
  match createTransactionSchema body with
  | inl error => Ret (mkResponse 400 (ValidationErrorBody error "VALIDATION_ERROR"))
  | inr value =>
      let type := type value in
      let amount := amount value in
      let currency := currency value in
      wallet <- SelectWalletByUserId (req_id user) ;;
      match wallet with
      | None => Ret (mkResponse 404 (ErrorBody "Wallet not found" "WALLET_NOT_FOUND"))
      | Some wallet =>
          let proceed :=
            transactionUuid <- Uuidv4 ;;
            result <- InsertTransaction transactionUuid (w_id wallet) (req_id user)
                        type amount currency (description value) (reference value)
                        "pending" (option_map JObj (metadata value)) ;;
            let newBalance :=
              if (type =? "credit")%string then w_balance wallet + amount
              else if is_debit_type type then w_balance wallet - amount
              else w_balance wallet in
            _ <- UpdateWalletBalance newBalance (w_id wallet) ;;
            _ <- UpdateTransactionStatus "completed" (id result) ;;
            transaction <- SelectTransactionById (id result) ;;
            match transaction with
            | None => Ret create_error
            | Some transaction =>
                notificationUuid <- Uuidv4 ;;
                _ <- InsertNotification notificationUuid (req_id user) "payment"
                       "Transaction Completed"
                       (capitalize type ++ " transaction of " ++ currency ++ " "
                          ++ show_number amount ++ " completed")
                       (JObj [("transactionId", JNum (t_id transaction));
                              ("transactionUuid", JStr transactionUuid);
                              ("type", JStr type);
                              ("amount", JNum amount);
                              ("currency", JStr currency)]%string) ;;
                Ret (mkResponse 201
                       (TransactionCreatedBody "Transaction created successfully"
                          (transaction_view transaction) newBalance))
            end in
          if is_debit_type type then
            let availableBalance := w_balance wallet - w_frozen_balance wallet in
            if availableBalance <? amount then
              Ret (mkResponse 400
                     (InsufficientBalanceBody "Insufficient balance" "INSUFFICIENT_BALANCE"
                                              availableBalance))
            else proceed
          else proceed
      end
  end.

(** [router.get('/stats')] *)
Definition getStats (user : ReqUser) : Prog Response :=
  wallet <- SelectWalletByUserId (req_id user) ;;
  match wallet with
  | None => Ret (mkResponse 404 (ErrorBody "Wallet not found" "WALLET_NOT_FOUND"))
  | Some wallet =>
      transactionStats <- SelectCompletedStatsByType (req_id user) ;;
      recentTransactions <- SelectRecentTransactions (req_id user) ;;
      Ret (mkResponse 200
             (StatsBody
                (mkStatsWallet (w_balance wallet) (w_frozen_balance wallet)
                               (w_balance wallet - w_frozen_balance wallet)
                               (w_currency wallet))
                (mkStats
                   (fold_left (fun sum stat => sum + stat_count stat) transactionStats 0)
                   (fold_left (fun acc stat =>
                                 object_set (stat_type stat)
                                            (mkTypeStat (stat_count stat) (stat_total stat)) acc)
                              transactionStats []))
                (map (fun t => mkRecent (r_type t) (r_amount t) (r_currency t)
                                        (r_description t) (r_created_at t))
                     recentTransactions)))
  end.

Section TransferRoute.

(** [Joi]'s e-mail syntax check is a library routine; the route only needs its
    verdict. *)
Variable is_email : string -> bool.

(** [Joi.string().email().required()] *)
Definition joi_email (k : string) (v : option string) : JoiError + string :=
  match v with
  | None => inl (mkJoiError k "any.required")
  | Some s =>
      if (s =? "")%string then inl (mkJoiError k "string.empty")
      else if is_email s then inr s
      else inl (mkJoiError k "string.email")
  end.

(** [transferSchema.validate(req.body)] *)
Definition transferSchema (body : TransferBody) : JoiError + TransferValue :=
  match joi_email "recipientEmail" (fb_recipientEmail body) with
  | inl e => inl e
  | inr recipientEmail =>
  match joi_positive_number "amount" (fb_amount body) with
  | inl e => inl e
  | inr amount =>
  match joi_currency "currency" (fb_currency body) with
  | inl e => inl e
  | inr currency =>
  match joi_optional_string "description" 200 (fb_description body) with
  | inl e => inl e
  | inr description => inr (mkTransferValue recipientEmail amount currency description)
  end end end end.

(** The [catch] block of [router.post('/transfer')]. *)
Definition transfer_error : Response :=
  mkResponse 500 (ErrorBody "Failed to process transfer" "TRANSFER_ERROR").

(** [router.post('/transfer')] *)
Definition transferFunds (user : ReqUser) (body : TransferBody) : Prog Response :=
  match transferSchema body with
  | inl error => Ret (mkResponse 400 (ValidationErrorBody error "VALIDATION_ERROR"))
  | inr value =>
      let recipientEmail := recipientEmail value in
      let amount := transfer_amount value in
      let currency := transfer_currency value in
      senderWallet <- SelectWalletByUserId (req_id user) ;;
      match senderWallet with
      | None =>
          Ret (mkResponse 404 (ErrorBody "Sender wallet not found" "SENDER_WALLET_NOT_FOUND"))
      | Some senderWallet =>
          let availableBalance := w_balance senderWallet - w_frozen_balance senderWallet in
          if availableBalance <? amount then
            Ret (mkResponse 400
                   (InsufficientBalanceBody "Insufficient balance" "INSUFFICIENT_BALANCE"
                                            availableBalance))
          else
            recipient <- SelectActiveUserByEmail recipientEmail ;;
            match recipient with
            | None =>
                Ret (mkResponse 404 (ErrorBody "Recipient not found" "RECIPIENT_NOT_FOUND"))
            | Some recipient =>
                recipientWallet <- SelectWalletByUserId (u_id recipient) ;;
                match recipientWallet with
                | None =>
                    Ret (mkResponse 404 (ErrorBody "Recipient wallet not found"
                                                   "RECIPIENT_WALLET_NOT_FOUND"))
                | Some recipientWallet =>
                    transferUuid <- Uuidv4 ;;
                    senderLegUuid <- Uuidv4 ;;
                    senderTransaction <-
                      InsertTransaction senderLegUuid (w_id senderWallet) (req_id user)
                        "transfer" amount currency
                        (Some ("Transfer to " ++ recipientEmail)%string)
                        (Some transferUuid) "completed"
                        (Some (JObj [("recipientEmail", JStr recipientEmail);
                                     ("recipientId", JNum (u_id recipient));
                                     ("transferType", JStr "outgoing")]%string)) ;;
                    recipientLegUuid <- Uuidv4 ;;
                    recipientTransaction <-
                      InsertTransaction recipientLegUuid (w_id recipientWallet) (u_id recipient)
                        "credit" amount currency
                        (Some ("Transfer from " ++ req_email user)%string)
                        (Some transferUuid) "completed"
                        (Some (JObj [("senderEmail", JStr (req_email user));
                                     ("senderId", JNum (req_id user));
                                     ("transferType", JStr "incoming")]%string)) ;;
                    _ <- UpdateWalletBalance (w_balance senderWallet - amount)
                                             (w_id senderWallet) ;;
                    _ <- UpdateWalletBalance (w_balance recipientWallet + amount)
                                             (w_id recipientWallet) ;;
                    sentUuid <- Uuidv4 ;;
                    _ <- InsertNotification sentUuid (req_id user) "payment" "Transfer Sent"
                           ("Transfer of " ++ currency ++ " " ++ show_number amount
                              ++ " sent to " ++ recipientEmail)
                           (JObj [("transactionId", JNum (id senderTransaction));
                                  ("transferUuid", JStr transferUuid);
                                  ("amount", JNum amount);
                                  ("currency", JStr currency)]%string) ;;
                    receivedUuid <- Uuidv4 ;;
                    _ <- InsertNotification receivedUuid (u_id recipient) "payment"
                           "Transfer Received"
                           ("Transfer of " ++ currency ++ " " ++ show_number amount
                              ++ " received from " ++ req_email user)
                           (JObj [("transactionId", JNum (id recipientTransaction));
                                  ("transferUuid", JStr transferUuid);
                                  ("amount", JNum amount);
                                  ("currency", JStr currency)]%string) ;;
                    Ret (mkResponse 200
                           (TransferCompletedBody "Transfer completed successfully"
                              (mkTransferView transferUuid amount currency recipientEmail
                                 (u_first_name recipient ++ " " ++ u_last_name recipient)
                                 (transfer_description value))
                              (w_balance senderWallet - amount)))
                end
            end
      end
  end.

(** *** Requests served one after the other *)

Inductive Request : Type :=
| RecordTransaction (body : TransactionBody)
| TransferFunds (body : TransferBody)
| GetBalance
| GetStats.

(** A call: who asks, what, and the wall-clock time at which it is served. *)
Record Call : Type := mkCall { at_time : Z; caller : ReqUser; request : Request }.

Definition handler (c : Call) : Prog Response :=
  match request c with
  | RecordTransaction body => recordTransaction (caller c) body
  | TransferFunds body => transferFunds (caller c) body
  | GetBalance => getBalance (caller c)
  | GetStats => getStats (caller c)
  end.

Definition serve (c : Call) (db : Db) : Response * Db :=
  run (handler c) (with_clock db (at_time c)).

(** The store after each call of the sequence. *)
Fixpoint serve_all (calls : list Call) (db : Db) : list Db :=
  match calls with
  | [] => []
  | c :: rest => let db' := snd (serve c db) in db' :: serve_all rest db'
  end.

End TransferRoute.

(* ================================================================== *)
(** ** The ledger invariant and the spec-side vocabulary *)

Definition availableBalance (w : WalletRow) : Z := w_balance w - w_frozen_balance w.

(** [availableBalance = balance - frozenBalance >= 0] *)
Definition wallet_invariant (w : WalletRow) : Prop := 0 <= availableBalance w.

Definition ledger_invariant (db : Db) : Prop := Forall wallet_invariant (wallets db).

(** [id INTEGER PRIMARY KEY] on [wallets]. *)
Definition wallets_primary_key (db : Db) : Prop := NoDup (map w_id (wallets db)).

(** The stored balance of the wallet the routes pick for a user. *)
Definition stored_balance (uid : Z) (db : Db) : option Z :=
  option_map w_balance (wallet_of_user uid (wallets db)).

(** The status of the transaction with a given id, if the row exists. *)
Definition status_of (tid : Z) (db : Db) : option string :=
  option_map t_status (transaction_by_id tid (transactions db)).

(** The balance [router.post('/transactions')] writes back. *)
Definition newBalance_of (type : string) (amount : Z) (w : WalletRow) : Z :=
  if (type =? "credit")%string then w_balance w + amount
  else if is_debit_type type then w_balance w - amount
  else w_balance w.

(** *** The failures of a transfer, in the words of the specification *)

Inductive TransferFailure : Type :=
| ValidationError (detail : JoiError)
| NotFound
| InsufficientBalance (available : Z)
| RecipientNotFound
| RecipientWalletNotFound.

(** The specification's steps 1 to 3 of [transferFunds], preceded by input
    validation: the first check that fails, in the order in which the
    specification lists them, or [None] when all pass. *)
Definition transfer_first_failure (is_email : string -> bool) (user : ReqUser)
           (body : TransferBody) (db : Db) : option TransferFailure :=
  match transferSchema is_email body with
  | inl e => Some (ValidationError e)
  | inr value =>
      match wallet_of_user (req_id user) (wallets db) with
      | None => Some NotFound
      | Some sender =>
          if availableBalance sender <? transfer_amount value
          then Some (InsufficientBalance (availableBalance sender))
          else
            match active_user_by_email (recipientEmail value) (users db) with
            | None => Some RecipientNotFound
            | Some recipient =>
                match wallet_of_user (u_id recipient) (wallets db) with
                | None => Some RecipientWalletNotFound
                | Some _ => None
                end
            end
      end
  end.

(** The typed error each failure is reported as. *)
Definition failure_response (f : TransferFailure) : Response :=
  match f with
  | ValidationError e => mkResponse 400 (ValidationErrorBody e "VALIDATION_ERROR")
  | NotFound =>
      mkResponse 404 (ErrorBody "Sender wallet not found" "SENDER_WALLET_NOT_FOUND")
  | InsufficientBalance available =>
      mkResponse 400 (InsufficientBalanceBody "Insufficient balance" "INSUFFICIENT_BALANCE"
                                              available)
  | RecipientNotFound =>
      mkResponse 404 (ErrorBody "Recipient not found" "RECIPIENT_NOT_FOUND")
  | RecipientWalletNotFound =>
      mkResponse 404 (ErrorBody "Recipient wallet not found" "RECIPIENT_WALLET_NOT_FOUND")
  end.

(** *** Sample data used by the concrete runs *)

(** A stand-in for [Joi]'s e-mail check in concrete runs: an [@] must occur. *)
Fixpoint has_at (s : string) : bool :=
  match s with
  | EmptyString => false
  | String c rest => (c =? "@")%char || has_at rest
  end.

Definition alice : ReqUser := mkReqUser 1 "u-alice" "alice@trade.io" "Alice" "Abara".
Definition bob : ReqUser := mkReqUser 2 "u-bob" "bob@trade.io" "Bob" "Bello".

(** Two active users, one wallet each: Alice holds 1000 and Bob 200, nothing
    frozen, no transaction yet. *)
Definition sample_db : Db :=
  mkDb [mkUser 1 "u-alice" "alice@trade.io" "Alice" "Abara" true;
        mkUser 2 "u-bob" "bob@trade.io" "Bob" "Bello" true]
       [mkWallet 1 "w-alice" 1 "USD" 1000 0 0 0;
        mkWallet 2 "w-bob" 2 "USD" 200 0 0 0]
       [] [] 50 0.

Definition debit_body (a : Z) : TransactionBody :=
  mkTransactionBody (Some "debit"%string) (Some a) None None None None.

Definition credit_body (a : Z) : TransactionBody :=
  mkTransactionBody (Some "credit"%string) (Some a) None None None None.

Definition transfer_body (to : string) (a : Z) : TransferBody :=
  mkTransferBody (Some to) (Some a) None None.

(** *** Relabelling currencies *)





(** *** The row an accepted [recordTransaction] call files *)

Definition filed_row (user : ReqUser) (value : TransactionValue) (w : WalletRow)
           (status : string) (db : Db) : TransactionRow :=
  mkTransaction (next_rowid t_id (transactions db)) (uuid_of (entropy db)) (w_id w)
                (req_id user) (type value) (amount value) (currency value)
                (description value) (reference value) status
                (option_map JObj (metadata value)) (clock db).

(** *** Histories along a run *)

(** The status of row [tid] in the store before the run and after each of
    its statements. *)
Definition status_history (tid : Z) (p : Prog Response) (db : Db) : list (option string) :=
  map (status_of tid) (db :: trace p db).

(** The stored balance of a user's wallet, likewise. *)
Definition balance_history (uid : Z) (p : Prog Response) (db : Db) : list (option Z) :=
  map (stored_balance uid) (db :: trace p db).

(** The status a row has in the first store of a list in which it exists. *)
Fixpoint first_status (tid : Z) (dbs : list Db) : option string :=
  match dbs with
  | [] => None
  | db :: rest =>
      match status_of tid db with
      | Some s => Some s
      | None => first_status tid rest
      end
  end.

(** "Created in status pending": a row absent before the run either stays
    absent or first shows up as [pending]. *)
Definition created_pending (p : Prog Response) (db : Db) (tid : Z) : Prop :=
  status_of tid db = None ->
  first_status tid (trace p db) = None \/
  first_status tid (trace p db) = Some "pending"%string.

(** [db'] holds every transaction row of [db], unchanged and in place,
    followed by new rows that are [pending] or [completed]. *)
Definition extends_log (db db' : Db) : Prop :=
  exists new,
    transactions db' = transactions db ++ new /\
    Forall (fun t => t_status t = "pending"%string \/ t_status t = "completed"%string) new.

(** *** Vocabulary for the statistics view *)

(** [a] was created no earlier than [b]. *)
Definition not_older (a b : TransactionRow) : Prop := t_created_at b <= t_created_at a.

(** The entry of [stats.transactionTypes] for kind [k] computed from a list
    of rows: absent when no row has that kind. *)
Definition type_stat_of (k : string) (rows : list TransactionRow) : option TypeStat :=
  match of_type k rows with
  | [] => None
  | _ :: _ => Some (mkTypeStat (Z.of_nat (length (of_type k rows)))
                               (sum_amounts (of_type k rows)))
  end.

(** The store of [sample_db] with one transaction of Alice left [pending]. *)
Definition pending_db : Db :=
  with_transactions sample_db
    [mkTransaction 1 "t-1" 1 1 "debit" 40 "USD" None None "pending" None 10].

(** *** Two requests in flight *)

(** The outcomes of every schedule of two requests: both responses and the
    final store.  A request that has answered takes no further step.  [None]
    when [fuel] statements do not suffice on some schedule. *)
Fixpoint outcomes {R} (fuel : nat) (p1 p2 : Prog R) (db : Db) : option (list (R * R * Db)) :=
  match fuel with
  | O => None
  | S fuel' =>
      match p1, p2 with
      | Ret r1, Ret r2 => Some [(r1, r2, db)]
      | Ret _, Await _ _ =>
          let (p2', db') := step p2 db in outcomes fuel' p1 p2' db'
      | Await _ _, Ret _ =>
          let (p1', db') := step p1 db in outcomes fuel' p1' p2 db'
      | Await _ _, Await _ _ =>
          match (let (p1', db') := step p1 db in outcomes fuel' p1' p2 db'),
                (let (p2', db') := step p2 db in outcomes fuel' p1 p2' db') with
          | Some first, Some second => Some (first ++ second)
          | _, _ => None
          end
      end
  end.

(** Both requests read the wallet before either writes, then each runs on. *)
Definition racing_schedule : list bool :=
  [true; false] ++ repeat true 7 ++ repeat false 7.

(** The first request runs to its answer before the second starts. *)
Definition serial_schedule : list bool := repeat true 8 ++ repeat false 8.

(** What a client sees of an outcome: both status codes, both error codes,
    and the balance stored for the user at the end. *)
Definition observe (uid : Z) (o : Response * Response * Db)
  : Z * option string * (Z * option string) * option Z :=
  let '(r1, r2, db) := o in
  (status r1, error_code r1, (status r2, error_code r2), stored_balance uid db).

(** A day at the ledger: a credit, a refused debit, a transfer to Bob, a
    transfer of Alice to herself, and a read. *)
Definition sample_calls : list Call :=
  [mkCall 60 alice (RecordTransaction (credit_body 500));
   mkCall 61 alice (RecordTransaction (debit_body 2000));
   mkCall 62 alice (TransferFunds (transfer_body "bob@trade.io" 300));
   mkCall 63 alice (TransferFunds (transfer_body "alice@trade.io" 100));
   mkCall 64 bob GetStats].

Definition alice_row : UserRow := mkUser 1 "u-alice" "alice@trade.io" "Alice" "Abara" true.
Definition alice_wallet : WalletRow := mkWallet 1 "w-alice" 1 "USD" 1000 0 0 0.

(* ================================================================== *)
(** ** The read routes of the wallet router *)

(** Handlers of the other routes are trees of awaited statements too, each
    family over its own statements [Q] and store. *)
Inductive Script (Q : Type -> Type) (R : Type) : Type :=
| Done (r : R)
| Ask (A : Type) (q : Q A) (k : A -> Script Q R).

Arguments Done {Q R} r.
Arguments Ask {Q R A} q k.

Notation "x <~ q ;; k" := (Ask q (fun x => k))
  (at level 61, q at next level, right associativity).

Fixpoint run_script {Q : Type -> Type} {S R : Type}
         (exec_q : forall A, Q A -> S -> A * S) (p : Script Q R) (s : S) : R * S :=
  match p with
  | Done r => (r, s)
  | Ask q k => let (a, s') := exec_q _ q s in run_script exec_q (k a) s'
  end.

(** [req.query] of [GET /transactions].  [None] is an absent key; [page] and
    [limit], when present, are decimal integer literals. *)
Record TransactionsQuery : Type := mkTransactionsQuery {
  q_page : option Z;
  q_limit : option Z;
  q_type : option string;
  q_currency : option string
}.

(** [if (s)] on a query-string value: absent and empty are falsy. *)
Definition truthy_string (s : option string) : option string :=
  match s with
  | Some v => if (v =? "")%string then None else Some v
  | None => None
  end.

Inductive ReadQuery : Type -> Type :=
(** [SELECT t.*, w.currency as wallet_currency FROM transactions t
     JOIN wallets w ON t.wallet_id = w.id
     WHERE t.user_id = ? (AND t.type = ?) (AND t.currency = ?)
     ORDER BY t.created_at DESC LIMIT ? OFFSET ?] *)
| SelectTransactionsPage (user_id : Z) (type currency : option string)
    (limit offset : Z) : ReadQuery (list (TransactionRow * string))
(** [SELECT COUNT( * ) as total FROM transactions t
     JOIN wallets w ON t.wallet_id = w.id WHERE ...], same conditions *)
| CountTransactions (user_id : Z) (type currency : option string) : ReadQuery Z
(** [SELECT t.*, w.currency as wallet_currency FROM transactions t
     JOIN wallets w ON t.wallet_id = w.id WHERE t.id = ? AND t.user_id = ?] *)
| SelectTransactionOfUser (transaction_id user_id : Z)
  : ReadQuery (option (TransactionRow * string)).

(** The [WHERE] clause built by [GET /transactions]. *)
Definition where_matches (uid : Z) (type currency : option string)
           (t : TransactionRow) : bool :=
  (t_user_id t =? uid)
  && match type with Some k => (t_type t =? k)%string | None => true end
  && match currency with Some c => (t_currency t =? c)%string | None => true end.

(** [transactions t JOIN wallets w ON t.wallet_id = w.id]: a transaction
    once for each wallet row it refers to. *)
Definition join_wallets (ws : list WalletRow) (ts : list TransactionRow)
  : list (TransactionRow * string) :=
  flat_map (fun t => map (fun w => (t, w_currency w))
                         (filter (fun w => w_id w =? t_wallet_id t) ws)) ts.

(** The joined rows that satisfy the conditions, newest first. *)
Definition matching_rows (uid : Z) (type currency : option string) (db : Db)
  : list (TransactionRow * string) :=
  join_wallets (wallets db)
    (order_by_created_at_desc (filter (where_matches uid type currency) (transactions db))).

(** [LIMIT l OFFSET o]: a negative offset counts as 0, a negative limit as
    no limit. *)
Definition sql_limit {A} (l o : Z) (rows : list A) : list A :=
  let rest := skipn (Z.to_nat o) rows in
  if l <? 0 then rest else firstn (Z.to_nat l) rest.

Definition exec_read {A} (q : ReadQuery A) (db : Db) : A * Db :=
  match q in ReadQuery T return T * Db with
  | SelectTransactionsPage uid type currency limit offset =>
      (sql_limit limit offset (matching_rows uid type currency db), db)
  | CountTransactions uid type currency =>
      (Z.of_nat (length (matching_rows uid type currency db)), db)
  | SelectTransactionOfUser tid uid =>
      (find (fun r => (t_id (fst r) =? tid) && (t_user_id (fst r) =? uid))
            (join_wallets (wallets db) (transactions db)), db)
  end.

(** [pagination] of the list response; [pages] is [null] in the JSON when
    [Math.ceil(total / limit)] is not a finite number. *)
Record Pagination : Type := mkPagination {
  pg_page : Z;
  pg_limit : Z;
  pg_total : Z;
  pg_pages : option Z
}.

Inductive ReadBody : Type :=
| ReadErrorBody (error code : string)
| TransactionsListBody (transactions : list TransactionView) (pagination : Pagination)
| TransactionItemBody (transaction : TransactionView).

Record ReadResponse : Type := mkReadResponse { read_status : Z; read_json : ReadBody }.

(** [Math.ceil(total / limit)] on integers; dividing by 0 gives [Infinity]
    or [NaN]. *)
Definition ceil_div (total limit : Z) : option Z :=
  if limit =? 0 then None else Some (- ((- total) / limit)).

(** [router.get('/transactions')] *)
Definition listTransactions (user : ReqUser) (query : TransactionsQuery)
  : Script ReadQuery ReadResponse :=
  let page := match q_page query with Some p => p | None => 1 end in
  let limit := match q_limit query with Some l => l | None => 20 end in
  let offset := (page - 1) * limit in
  let type := truthy_string (q_type query) in
  let currency := truthy_string (q_currency query) in
  transactions <~ SelectTransactionsPage (req_id user) type currency limit offset ;;
  totalResult <~ CountTransactions (req_id user) type currency ;;
  Done (mkReadResponse 200
          (TransactionsListBody
             (map (fun transaction => transaction_view (fst transaction)) transactions)
             (mkPagination page limit totalResult (ceil_div totalResult limit)))).

(** [router.get('/transactions/:id')]; the route parameter is a decimal
    integer literal. *)
Definition getTransaction (user : ReqUser) (id : Z) : Script ReadQuery ReadResponse :=
  transaction <~ SelectTransactionOfUser id (req_id user) ;;
  match transaction with
  | None => Done (mkReadResponse 404 (ReadErrorBody "Transaction not found" "NOT_FOUND"))
  | Some transaction =>
      Done (mkReadResponse 200 (TransactionItemBody (transaction_view (fst transaction))))
  end.

Definition run_read {R} (p : Script ReadQuery R) (db : Db) : R * Db :=
  run_script (@exec_read) p db.

(** The defaults of [const { page = 1, limit = 20, ... } = req.query]. *)
Definition page_of (query : TransactionsQuery) : Z :=
  match q_page query with Some p => p | None => 1 end.

Definition limit_of (query : TransactionsQuery) : Z :=
  match q_limit query with Some l => l | None => 20 end.

(** The transactions a list response carries. *)
Definition listed (r : ReadResponse) : list TransactionView :=
  match read_json r with
  | TransactionsListBody ts _ => ts
  | _ => []
  end.

Definition list_page (user : ReqUser) (query : TransactionsQuery) (db : Db) (p : Z)
  : list TransactionView :=
  listed (fst (run_read
                 (listTransactions user
                    (mkTransactionsQuery (Some p) (q_limit query) (q_type query)
                                         (q_currency query))) db)).

(** All the views a list request can page through, in order. *)
Definition all_listed (user : ReqUser) (query : TransactionsQuery) (db : Db)
  : list TransactionView :=
  map (fun r => transaction_view (fst r))
      (matching_rows (req_id user) (truthy_string (q_type query))
                     (truthy_string (q_currency query)) db).

(** The [pagination] object of a list response. *)
Definition pagination_of (r : ReadResponse) : option Pagination :=
  match read_json r with
  | TransactionsListBody _ pg => Some pg
  | _ => None
  end.

(** The same request for another page. *)
Definition with_page (p : Z) (query : TransactionsQuery) : TransactionsQuery :=
  mkTransactionsQuery (Some p) (q_limit query) (q_type query) (q_currency query).

(* ================================================================== *)
(** ** Route tables *)

(** The routers are created with [express.Router()] and no options: a path
    is matched without regard to letter case, one trailing slash is
    optional, a [:name] piece stands for one non-empty path segment, and the
    routes are tried in the order of their declaration. *)

Inductive Method : Type := GET | POST | PUT | DELETE.

Definition method_eqb (a b : Method) : bool :=
  match a, b with
  | GET, GET | POST, POST | PUT, PUT | DELETE, DELETE => true
  | _, _ => false
  end.

Inductive Piece : Type :=
| Lit (name : string)
| Param (name : string).

Record Route (H : Type) : Type := mkRoute {
  route_method : Method;
  route_pattern : list Piece;
  route_handler : H
}.

Arguments mkRoute {H} _ _ _.

Definition toLowerCase_char (c : ascii) : ascii :=
  let n := nat_of_ascii c in
  if ((65 <=? n) && (n <=? 90))%nat then ascii_of_nat (n + 32) else c.

Fixpoint toLowerCase (s : string) : string :=
  match s with
  | EmptyString => EmptyString
  | String c rest => String (toLowerCase_char c) (toLowerCase rest)
  end.

(** [path.split('/')] *)
Fixpoint split_slash (s cur : string) : list string :=
  match s with
  | EmptyString => [cur]
  | String c rest =>
      if (c =? "/")%char then cur :: split_slash rest ""
      else split_slash rest (cur ++ String c "")
  end.

(** The segments of a request path: the pieces after the leading slash, one
    trailing empty piece dropped. *)
Definition path_segments (path : string) : option (list string) :=
  match split_slash path "" with
  | first :: rest =>
      if (first =? "")%string then
        Some match rev rest with
             | last :: before => if (last =? "")%string then rev before else rest
             | [] => rest
             end
      else None
  | [] => None
  end.

Fixpoint pieces_match (pattern : list Piece) (segments : list string) : bool :=
  match pattern, segments with
  | [], [] => true
  | Lit name :: pattern', s :: segments' =>
      (toLowerCase s =? toLowerCase name)%string && pieces_match pattern' segments'
  | Param _ :: pattern', s :: segments' =>
      negb (s =? "")%string && pieces_match pattern' segments'
  | _, _ => false
  end.

Definition route_matches {H} (m : Method) (path : string) (r : Route H) : bool :=
  method_eqb (route_method r) m
  && match path_segments path with
     | Some segments => pieces_match (route_pattern r) segments
     | None => false
     end.

(** The handler a router runs: that of the first route that matches. *)
Definition dispatch {H} (routes : list (Route H)) (m : Method) (path : string) : option H :=
  option_map (@route_handler H) (find (route_matches m path) routes).

Inductive WalletHandler : Type :=
| HBalance | HListTransactions | HCreateTransaction | HTransfer | HGetTransaction | HStats.

(** [routes/wallet.js], in declaration order. *)
Definition wallet_routes : list (Route WalletHandler) :=
  [mkRoute GET [Lit "balance"] HBalance;
   mkRoute GET [Lit "transactions"] HListTransactions;
   mkRoute POST [Lit "transactions"] HCreateTransaction;
   mkRoute POST [Lit "transfer"] HTransfer;
   mkRoute GET [Lit "transactions"; Param "id"] HGetTransaction;
   mkRoute GET [Lit "stats"] HStats].

Inductive ShipmentHandler : Type :=
| HCreateShipment | HListShipments | HGetShipment | HUpdateShipment | HDeleteShipment
| HTrackShipment.

(** [routes/shipments.js], in declaration order. *)
Definition shipment_routes : list (Route ShipmentHandler) :=
  [mkRoute POST [] HCreateShipment;
   mkRoute GET [] HListShipments;
   mkRoute GET [Param "id"] HGetShipment;
   mkRoute PUT [Param "id"] HUpdateShipment;
   mkRoute DELETE [Param "id"] HDeleteShipment;
   mkRoute GET [Lit "track"; Param "trackingNumber"] HTrackShipment].

Inductive NotificationHandler : Type :=
| HListNotifications | HGetNotification | HMarkRead | HMarkAllRead | HDeleteNotification
| HDeleteAllNotifications | HCreateNotification | HNotificationStats.

(** [routes/notifications.js], in declaration order. *)
Definition notification_routes : list (Route NotificationHandler) :=
  [mkRoute GET [] HListNotifications;
   mkRoute GET [Param "id"] HGetNotification;
   mkRoute PUT [Param "id"; Lit "read"] HMarkRead;
   mkRoute PUT [Lit "read-all"] HMarkAllRead;
   mkRoute DELETE [Param "id"] HDeleteNotification;
   mkRoute DELETE [] HDeleteAllNotifications;
   mkRoute POST [] HCreateNotification;
   mkRoute GET [Lit "stats"] HNotificationStats].

(** No route declared before the [n]-th one catches a request the [n]-th
    one matches. *)
Definition unshadowed {H} (routes : list (Route H)) : Prop :=
  forall (m : Method) (path : string) (r : Route H),
    In r routes -> route_matches m path r = true ->
    dispatch routes m path = Some (route_handler r).

(* ================================================================== *)
(** ** Accounts: [routes/auth.js] and [authenticateToken] *)

(** The columns of [users] that the wallet routes never read.  The columns
    no auth route reads or writes after the insert keep their defaults and
    are left out. *)
Record UserExtra : Type := mkUserExtra {
  x_password_hash : string;
  x_company : option string;
  x_phone : option string;
  x_country : string;
  x_verification_status : string;
  x_last_login : option Z
}.

Record SessionRow : Type := mkSession {
  ses_id : Z;
  ses_user_id : Z;
  ses_token_hash : string;
  ses_expires_at : Z
}.

(** The whole store: a row of [users] is a [UserRow] with its remaining
    columns, [user_sessions] joins the tables of [Db]. *)
Record Backend : Type := mkBackend {
  accounts : list (UserRow * UserExtra);
  b_wallets : list WalletRow;
  b_transactions : list TransactionRow;
  b_notifications : list NotificationRow;
  b_sessions : list SessionRow;
  b_clock : Z;
  b_entropy : nat
}.

(** What the wallet routes see of the store, and their effect put back. *)
Definition ledger_of (b : Backend) : Db :=
  mkDb (map fst (accounts b)) (b_wallets b) (b_transactions b) (b_notifications b)
       (b_clock b) (b_entropy b).

Definition store_ledger (b : Backend) (db : Db) : Backend :=
  mkBackend (accounts b) (wallets db) (transactions db) (notifications db)
            (b_sessions b) (clock db) (entropy db).

(** A wallet route served on the whole store. *)
Definition run_ledger {R} (p : Prog R) (b : Backend) : R * Backend :=
  let (r, db') := run p (ledger_of b) in (r, store_ledger b db').

(** The payload and options given to [jwt.sign]. *)
Record JwtClaims : Type := mkJwtClaims {
  jwt_userId : Z;
  jwt_email : option string;
  jwt_type : option string;
  jwt_iat : Z;
  jwt_expiresIn : Z
}.

(** What [jwt.verify] does with a token. *)
Inductive JwtVerdict : Type :=
| Verified (claims : JwtClaims)
| JsonWebTokenError
| TokenExpiredError.

Record AuthUserView : Type := mkAuthUserView {
  av_id : Z;
  av_uuid : string;
  av_email : string;
  av_firstName : string;
  av_lastName : string;
  av_company : option string;
  av_phone : option string;
  av_country : string;
  av_verificationStatus : string
}.

Inductive AuthBody : Type :=
| AuthErrorBody (error code : string)
| AuthValidationBody (error : JoiError) (code : string)
| AuthSuccessBody (message : string) (user : AuthUserView) (token refreshToken : string).

Record AuthResponse : Type := mkAuthResponse { auth_status : Z; auth_json : AuthBody }.

(** Body of [POST /register]. *)
Record RegisterBody : Type := mkRegisterBody {
  rb_email : option string;
  rb_password : option string;
  rb_firstName : option string;
  rb_lastName : option string;
  rb_company : option string;
  rb_phone : option string;
  rb_country : option string
}.

Record RegisterValue : Type := mkRegisterValue {
  rv_email : string;
  rv_password : string;
  rv_firstName : string;
  rv_lastName : string;
  rv_company : option string;
  rv_phone : option string;
  rv_country : string
}.

(** Body of [POST /login]. *)
Record LoginBody : Type := mkLoginBody {
  lb_email : option string;
  lb_password : option string
}.

(** [Joi.string().min(lo).max(hi).required()]; [hi = None] when the schema
    sets no maximum. *)
Definition joi_required_string (k : string) (lo : nat) (hi : option nat)
           (v : option string) : JoiError + string :=
  match v with
  | None => inl (mkJoiError k "any.required")
  | Some s =>
      if (s =? "")%string then inl (mkJoiError k "string.empty")
      else if (String.length s <? lo)%nat then inl (mkJoiError k "string.min")
      else match hi with
           | Some n => if (n <? String.length s)%nat then inl (mkJoiError k "string.max")
                       else inr s
           | None => inr s
           end
  end.

(** [Joi.string().max(50).default('Nigeria')] *)
Definition joi_country (k : string) (v : option string) : JoiError + string :=
  match v with
  | None => inr "Nigeria"%string
  | Some s =>
      if (s =? "")%string then inl (mkJoiError k "string.empty")
      else if (50 <? String.length s)%nat then inl (mkJoiError k "string.max")
      else inr s
  end.

Inductive AuthQuery : Type -> Type :=
(** [SELECT id FROM users WHERE email = ?] *)
| SelectUserIdByEmail (email : string) : AuthQuery (option Z)
(** [SELECT id, uuid, email, password_hash, first_name, last_name, company,
     phone, country, verification_status, is_active FROM users WHERE email = ?]
    (for [/demo-login], the same without [password_hash] and [is_active]) *)
| SelectUserByEmail (email : string) : AuthQuery (option (UserRow * UserExtra))
(** [SELECT id, uuid, email, first_name, last_name, is_active FROM users
     WHERE id = ? AND is_active = 1] *)
| SelectActiveUserById (user_id : Z) : AuthQuery (option UserRow)
(** [INSERT INTO users (uuid, email, password_hash, first_name, last_name,
     company, phone, country, verification_status) VALUES (...)] *)
| InsertUser (uuid email password_hash first_name last_name : string)
    (company phone : option string) (country verification_status : string)
  : AuthQuery RunResult
(** [INSERT INTO wallets (uuid, user_id, currency, balance) VALUES (...)] *)
| InsertWallet (uuid : string) (user_id : Z) (currency : string) (balance : Z)
  : AuthQuery RunResult
(** [INSERT INTO user_sessions (user_id, token_hash, expires_at) VALUES (...)] *)
| InsertSession (user_id : Z) (token_hash : string) (expires_at : Z) : AuthQuery RunResult
(** [UPDATE users SET last_login = CURRENT_TIMESTAMP WHERE id = ?] *)
| UpdateLastLogin (user_id : Z) : AuthQuery RunResult
(** [bcrypt.hash(password, saltRounds)], with a fresh salt *)
| BcryptHash (password : string) : AuthQuery string
(** [bcrypt.compare(password, hash)] *)
| BcryptCompare (password hash : string) : AuthQuery bool
(** [uuidv4()] *)
| AuthUuidv4 : AuthQuery string
(** [Date.now()], in milliseconds *)
| DateNow : AuthQuery Z.

Definition set_last_login (now : Z) (a : UserRow * UserExtra) : UserRow * UserExtra :=
  (fst a,
   mkUserExtra (x_password_hash (snd a)) (x_company (snd a)) (x_phone (snd a))
               (x_country (snd a)) (x_verification_status (snd a)) (Some now)).

Section AuthRoutes.

(** Library routines: [Joi]'s e-mail check, [bcrypt] and [jsonwebtoken]. *)
Variable is_email : string -> bool.
Variable bcrypt_hash : string -> nat -> string.
Variable bcrypt_compare : string -> string -> bool.
Variable jwt_sign : JwtClaims -> string.
Variable jwt_verify : string -> Z -> JwtVerdict.

Definition exec_auth {A} (q : AuthQuery A) (b : Backend) : A * Backend :=
  match q in AuthQuery T return T * Backend with
  | SelectUserIdByEmail email =>
      (option_map (fun a => u_id (fst a))
                  (find (fun a => (u_email (fst a) =? email)%string) (accounts b)), b)
  | SelectUserByEmail email =>
      (find (fun a => (u_email (fst a) =? email)%string) (accounts b), b)
  | SelectActiveUserById uid =>
      (option_map fst
                  (find (fun a => (u_id (fst a) =? uid) && u_is_active (fst a)) (accounts b)),
       b)
  | InsertUser uuid email password_hash first_name last_name company phone country
               verification_status =>
      let rowid := next_rowid (fun a => u_id (fst a)) (accounts b) in
      (mkRunResult rowid 1,
       mkBackend
         (accounts b ++
          [(mkUser rowid uuid email first_name last_name true,
            mkUserExtra password_hash company phone country verification_status None)])
         (b_wallets b) (b_transactions b) (b_notifications b) (b_sessions b)
         (b_clock b) (b_entropy b))
  | InsertWallet uuid uid currency balance =>
      let rowid := next_rowid w_id (b_wallets b) in
      (mkRunResult rowid 1,
       mkBackend (accounts b)
         (b_wallets b ++ [mkWallet rowid uuid uid currency balance 0 (b_clock b) (b_clock b)])
         (b_transactions b) (b_notifications b) (b_sessions b) (b_clock b) (b_entropy b))
  | InsertSession uid token_hash expires_at =>
      let rowid := next_rowid ses_id (b_sessions b) in
      (mkRunResult rowid 1,
       mkBackend (accounts b) (b_wallets b) (b_transactions b) (b_notifications b)
         (b_sessions b ++ [mkSession rowid uid token_hash expires_at])
         (b_clock b) (b_entropy b))
  | UpdateLastLogin uid =>
      (mkRunResult 0 (count_where (fun a => u_id (fst a)) uid (accounts b)),
       mkBackend
         (update_where (fun a => u_id (fst a)) uid (set_last_login (b_clock b)) (accounts b))
         (b_wallets b) (b_transactions b) (b_notifications b) (b_sessions b)
         (b_clock b) (b_entropy b))
  | BcryptHash password =>
      (bcrypt_hash password (b_entropy b),
       mkBackend (accounts b) (b_wallets b) (b_transactions b) (b_notifications b)
         (b_sessions b) (b_clock b) (S (b_entropy b)))
  | BcryptCompare password hash => (bcrypt_compare password hash, b)
  | AuthUuidv4 =>
      (uuid_of (b_entropy b),
       mkBackend (accounts b) (b_wallets b) (b_transactions b) (b_notifications b)
         (b_sessions b) (b_clock b) (S (b_entropy b)))
  | DateNow => (1000 * b_clock b, b)
  end.

Definition run_auth {R} (p : Script AuthQuery R) (b : Backend) : R * Backend :=
  run_script (@exec_auth) p b.

(** [generateToken(userId, email)], given the value of [Date.now()] *)
Definition generateToken (userId : Z) (email : string) (now_ms : Z) : string :=
  jwt_sign (mkJwtClaims userId (Some email) None (now_ms / 1000) (24 * 60 * 60)).

(** [generateRefreshToken(userId)] *)
Definition generateRefreshToken (userId : Z) (now_ms : Z) : string :=
  jwt_sign (mkJwtClaims userId None (Some "refresh"%string) (now_ms / 1000)
                        (7 * 24 * 60 * 60)).

(** [registerSchema.validate(req.body)] *)
Definition registerSchema (body : RegisterBody) : JoiError + RegisterValue :=
  match joi_email is_email "email" (rb_email body) with
  | inl e => inl e
  | inr email =>
  match joi_required_string "password" 6 None (rb_password body) with
  | inl e => inl e
  | inr password =>
  match joi_required_string "firstName" 2 (Some 50%nat) (rb_firstName body) with
  | inl e => inl e
  | inr firstName =>
  match joi_required_string "lastName" 2 (Some 50%nat) (rb_lastName body) with
  | inl e => inl e
  | inr lastName =>
  match joi_optional_string "company" 100 (rb_company body) with
  | inl e => inl e
  | inr company =>
  match joi_optional_string "phone" 20 (rb_phone body) with
  | inl e => inl e
  | inr phone =>
  match joi_country "country" (rb_country body) with
  | inl e => inl e
  | inr country =>
      inr (mkRegisterValue email password firstName lastName company phone country)
  end end end end end end end.

(** [loginSchema.validate(req.body)] *)
Definition loginSchema (body : LoginBody) : JoiError + (string * string) :=
  match joi_email is_email "email" (lb_email body) with
  | inl e => inl e
  | inr email =>
  match joi_required_string "password" 0 None (lb_password body) with
  | inl e => inl e
  | inr password => inr (email, password)
  end end.

(** [router.post('/register')] *)
Definition register (body : RegisterBody) : Script AuthQuery AuthResponse :=
  match registerSchema body with
  | inl error => Done (mkAuthResponse 400 (AuthValidationBody error "VALIDATION_ERROR"))
  | inr value =>
      let email := rv_email value in
      existingUser <~ SelectUserIdByEmail email ;;
      match existingUser with
      | Some _ =>
          Done (mkAuthResponse 409
                  (AuthErrorBody "User with this email already exists" "USER_EXISTS"))
      | None =>
          passwordHash <~ BcryptHash (rv_password value) ;;
          userUuid <~ AuthUuidv4 ;;
          result <~ InsertUser userUuid email passwordHash (rv_firstName value)
                      (rv_lastName value) (rv_company value) (rv_phone value)
                      (rv_country value) "pending" ;;
          walletUuid <~ AuthUuidv4 ;;
          _ <~ InsertWallet walletUuid (id result) "USD" 0 ;;
          tokenNow <~ DateNow ;;
          let token := generateToken (id result) email tokenNow in
          refreshNow <~ DateNow ;;
          let refreshToken := generateRefreshToken (id result) refreshNow in
          expiryNow <~ DateNow ;;
          _ <~ InsertSession (id result) refreshToken
                 (expiryNow + 7 * 24 * 60 * 60 * 1000) ;;
          Done (mkAuthResponse 201
                  (AuthSuccessBody "User registered successfully"
                     (mkAuthUserView (id result) userUuid email (rv_firstName value)
                        (rv_lastName value) (rv_company value) (rv_phone value)
                        (rv_country value) "pending")
                     token refreshToken))
      end
  end.

(** [router.post('/login')] *)
Definition login (body : LoginBody) : Script AuthQuery AuthResponse :=
  match loginSchema body with
  | inl error => Done (mkAuthResponse 400 (AuthValidationBody error "VALIDATION_ERROR"))
  | inr (email, password) =>
      user <~ SelectUserByEmail email ;;
      match user with
      | None =>
          Done (mkAuthResponse 401
                  (AuthErrorBody "Invalid email or password" "INVALID_CREDENTIALS"))
      | Some user =>
          if negb (u_is_active (fst user)) then
            Done (mkAuthResponse 401
                    (AuthErrorBody "Account is deactivated" "ACCOUNT_DEACTIVATED"))
          else
            isValidPassword <~ BcryptCompare password (x_password_hash (snd user)) ;;
            if negb isValidPassword then
              Done (mkAuthResponse 401
                      (AuthErrorBody "Invalid email or password" "INVALID_CREDENTIALS"))
            else
              _ <~ UpdateLastLogin (u_id (fst user)) ;;
              tokenNow <~ DateNow ;;
              let token := generateToken (u_id (fst user)) (u_email (fst user)) tokenNow in
              refreshNow <~ DateNow ;;
              let refreshToken := generateRefreshToken (u_id (fst user)) refreshNow in
              expiryNow <~ DateNow ;;
              _ <~ InsertSession (u_id (fst user)) refreshToken
                     (expiryNow + 7 * 24 * 60 * 60 * 1000) ;;
              Done (mkAuthResponse 200
                      (AuthSuccessBody "Login successful"
                         (mkAuthUserView (u_id (fst user)) (u_uuid (fst user))
                            (u_email (fst user)) (u_first_name (fst user))
                            (u_last_name (fst user)) (x_company (snd user))
                            (x_phone (snd user)) (x_country (snd user))
                            (x_verification_status (snd user)))
                         token refreshToken))
      end
  end.

(** [router.post('/demo-login')], for a body whose [email] is a string.  The
    body is not validated. *)
Definition demoLogin (email : string) : Script AuthQuery AuthResponse :=
  found <~ SelectUserByEmail email ;;
  let finish (user : AuthUserView) :=
    tokenNow <~ DateNow ;;
    let token := generateToken (av_id user) (av_email user) tokenNow in
    refreshNow <~ DateNow ;;
    let refreshToken := generateRefreshToken (av_id user) refreshNow in
    Done (mkAuthResponse 200
            (AuthSuccessBody "Demo login successful" user token refreshToken)) in
  match found with
  | Some user =>
      finish (mkAuthUserView (u_id (fst user)) (u_uuid (fst user)) (u_email (fst user))
                (u_first_name (fst user)) (u_last_name (fst user))
                (x_company (snd user)) (x_phone (snd user)) (x_country (snd user))
                (x_verification_status (snd user)))
  | None =>
      userUuid <~ AuthUuidv4 ;;
      passwordHash <~ BcryptHash "demo123" ;;
      result <~ InsertUser userUuid email passwordHash "Demo" "User"
                  (Some "Demo Company"%string) (Some "+234-000-000-0000"%string)
                  "Nigeria" "verified" ;;
      walletUuid <~ AuthUuidv4 ;;
      _ <~ InsertWallet walletUuid (id result) "USD" 10000 ;;
      finish (mkAuthUserView (id result) userUuid email "Demo" "User"
                (Some "Demo Company"%string) (Some "+234-000-000-0000"%string)
                "Nigeria" "verified")
  end.

(** [authHeader.split(' ')] *)
Fixpoint split_space (s cur : string) : list string :=
  match s with
  | EmptyString => [cur]
  | String c rest =>
      if (c =? " ")%char then cur :: split_space rest ""
      else split_space rest (cur ++ String c "")
  end.

(** [authHeader && authHeader.split(' ')[1]], [None] when falsy. *)
Definition bearer_token (authHeader : option string) : option string :=
  match authHeader with
  | None => None
  | Some h =>
      if (h =? "")%string then None
      else match nth_error (split_space h "") 1 with
           | Some t => if (t =? "")%string then None else Some t
           | None => None
           end
  end.

(** [authenticateToken]: either a response, or [req.user] and [next()].
    [jwt.verify] reads the clock to check the expiry. *)
Definition authenticateToken (authHeader : option string)
  : Script AuthQuery (AuthResponse + ReqUser) :=
  match bearer_token authHeader with
  | None => Done (inl (mkAuthResponse 401 (AuthErrorBody "Access token required" "NO_TOKEN")))
  | Some token =>
      now <~ DateNow ;;
      match jwt_verify token now with
      | JsonWebTokenError =>
          Done (inl (mkAuthResponse 401 (AuthErrorBody "Invalid token" "INVALID_TOKEN")))
      | TokenExpiredError =>
          Done (inl (mkAuthResponse 401 (AuthErrorBody "Token expired" "TOKEN_EXPIRED")))
      | Verified decoded =>
          user <~ SelectActiveUserById (jwt_userId decoded) ;;
          match user with
          | None =>
              Done (inl (mkAuthResponse 401
                           (AuthErrorBody "Invalid or expired token" "INVALID_TOKEN")))
          | Some user =>
              Done (inr (mkReqUser (u_id user) (u_uuid user) (u_email user)
                                   (u_first_name user) (u_last_name user)))
          end
      end
  end.

End AuthRoutes.

(** *** Health of the whole store *)

(** Every user row has a wallet the wallet routes can find. *)
Definition provisioned (b : Backend) : Prop :=
  forall a, In a (accounts b) -> wallet_of_user (u_id (fst a)) (b_wallets b) <> None.

(** [FOREIGN KEY (user_id) REFERENCES users (id)] on [wallets]. *)
Definition wallets_reference_users (b : Backend) : Prop :=
  forall w, In w (b_wallets b) -> exists a, In a (accounts b) /\ u_id (fst a) = w_user_id w.

(** The keys and references of the schema on [users] and [wallets]:
    distinct wallet ids, user ids and e-mail addresses, a wallet for every
    user and a user for every wallet.  Nothing is said about amounts. *)
Definition healthy (b : Backend) : Prop :=
  NoDup (map w_id (b_wallets b)) /\
  NoDup (map (fun a => u_id (fst a)) (accounts b)) /\
  NoDup (map (fun a => u_email (fst a)) (accounts b)) /\
  provisioned b /\
  wallets_reference_users b.

Definition empty_backend : Backend := mkBackend [] [] [] [] [] 0 0.

(** The requests that change users or wallets, each with the time at which
    it is served. *)
Inductive BackendRequest : Type :=
| BRegister (body : RegisterBody)
| BLogin (body : LoginBody)
| BDemoLogin (email : string)
| BLedger (caller : ReqUser) (request : Request).

Definition with_b_clock (b : Backend) (now : Z) : Backend :=
  mkBackend (accounts b) (b_wallets b) (b_transactions b) (b_notifications b)
            (b_sessions b) now (b_entropy b).

Section BackendCalls.

Variable is_email : string -> bool.
Variable bcrypt_hash : string -> nat -> string.
Variable bcrypt_compare : string -> string -> bool.
Variable jwt_sign : JwtClaims -> string.

Definition serve_backend (at_time : Z) (r : BackendRequest) (b : Backend) : Backend :=
  let b0 := with_b_clock b at_time in
  match r with
  | BRegister body =>
      snd (run_auth bcrypt_hash bcrypt_compare (register is_email jwt_sign body) b0)
  | BLogin body =>
      snd (run_auth bcrypt_hash bcrypt_compare (login is_email jwt_sign body) b0)
  | BDemoLogin email =>
      snd (run_auth bcrypt_hash bcrypt_compare (demoLogin jwt_sign email) b0)
  | BLedger caller request =>
      snd (run_ledger (handler is_email (mkCall at_time caller request)) b0)
  end.

(** The store after each request of a sequence. *)
Fixpoint serve_backend_all (calls : list (Z * BackendRequest)) (b : Backend)
  : list Backend :=
  match calls with
  | [] => []
  | (t, r) :: rest => let b' := serve_backend t r b in b' :: serve_backend_all rest b'
  end.

End BackendCalls.

(** A string without a space character. *)
Fixpoint spaceless (s : string) : bool :=
  match s with
  | EmptyString => true
  | String c rest => negb (c =? " ")%char && spaceless rest
  end.

(** The [user] object the auth routes put in their response for a row. *)
Definition auth_view (a : UserRow * UserExtra) : AuthUserView :=
  mkAuthUserView (u_id (fst a)) (u_uuid (fst a)) (u_email (fst a))
                 (u_first_name (fst a)) (u_last_name (fst a))
                 (x_company (snd a)) (x_phone (snd a)) (x_country (snd a))
                 (x_verification_status (snd a)).

(** [req.user] as [authenticateToken] builds it from a row. *)
Definition req_user_of (u : UserRow) : ReqUser :=
  mkReqUser (u_id u) (u_uuid u) (u_email u) (u_first_name u) (u_last_name u).

Section OptionalAuth.

Variable jwt_verify : string -> Z -> JwtVerdict.

(** [optionalAuth]: [req.user] when it was set, and [next()] in every case;
    whatever [jwt.verify] or the query throws is swallowed. *)
Definition optionalAuth (authHeader : option string) : Script AuthQuery (option ReqUser) :=
  match bearer_token authHeader with
  | None => Done None
  | Some token =>
      now <~ DateNow ;;
      match jwt_verify token now with
      | Verified decoded =>
          user <~ SelectActiveUserById (jwt_userId decoded) ;;
          match user with
          | Some user => Done (Some (req_user_of user))
          | None => Done None
          end
      | JsonWebTokenError => Done None
      | TokenExpiredError => Done None
      end
  end.

End OptionalAuth.

(* ================================================================== *)
(** ** The notification routes ([routes/notifications.js]) *)

(** A row of [notifications]: the columns the wallet routes write, and the
    two they leave to their defaults. *)
Record InboxRow : Type := mkInboxRow {
  in_row : NotificationRow;
  in_is_read : Z;
  in_created_at : Z
}.

Definition in_id (r : InboxRow) : Z := n_id (in_row r).
Definition in_user_id (r : InboxRow) : Z := n_user_id (in_row r).

Record Inbox : Type := mkInbox {
  inbox_rows : list InboxRow;
  inbox_clock : Z;
  inbox_entropy : nat
}.

(** [req.query] of [GET /]; [page] and [limit] are decimal integer
    literals when present. *)
Record NotificationsQuery : Type := mkNotificationsQuery {
  nq_page : option Z;
  nq_limit : option Z;
  nq_type : option string;
  nq_unreadOnly : option string
}.

(** Body of [POST /]. *)
Record NotificationBody : Type := mkNotificationBody {
  nb_type : option string;
  nb_title : option string;
  nb_message : option string;
  nb_metadata : option Json
}.

Record NotificationValue : Type := mkNotificationValue {
  nval_type : string;
  nval_title : string;
  nval_message : string;
  nval_metadata : option Json
}.

Definition set_read (r : InboxRow) : InboxRow :=
  mkInboxRow (in_row r) 1 (in_created_at r).

(** [WHERE user_id = ? [AND type = ?] [AND is_read = 0]] *)
Definition inbox_where (uid : Z) (type : option string) (unread_only : bool)
           (r : InboxRow) : bool :=
  (in_user_id r =? uid)
  && match type with Some t => (n_type (in_row r) =? t)%string | None => true end
  && (if unread_only then in_is_read r =? 0 else true).

(** [ORDER BY created_at DESC], rows with equal timestamps in rowid order. *)
Fixpoint insert_newest (r : InboxRow) (sorted : list InboxRow) : list InboxRow :=
  match sorted with
  | [] => [r]
  | x :: rest =>
      if in_created_at x <=? in_created_at r then r :: x :: rest
      else x :: insert_newest r rest
  end.

Definition newest_first (rows : list InboxRow) : list InboxRow :=
  fold_right insert_newest [] rows.

Inductive InboxQuery : Type -> Type :=
(** [SELECT * FROM notifications <where> ORDER BY created_at DESC LIMIT ? OFFSET ?] *)
| SelectNotificationsPage (user_id : Z) (type : option string) (unread_only : bool)
    (limit offset : Z) : InboxQuery (list InboxRow)
(** [SELECT COUNT( * ) as total FROM notifications <where>] *)
| CountNotifications (user_id : Z) (type : option string) (unread_only : bool)
  : InboxQuery Z
(** [SELECT COUNT( * ) as unread FROM notifications WHERE user_id = ? AND is_read = 0] *)
| CountUnread (user_id : Z) : InboxQuery Z
(** [SELECT * FROM notifications WHERE id = ? AND user_id = ?] *)
| SelectNotificationOfUser (notification_id user_id : Z) : InboxQuery (option InboxRow)
(** [SELECT * FROM notifications WHERE id = ?] *)
| SelectNotificationById (notification_id : Z) : InboxQuery (option InboxRow)
(** [UPDATE notifications SET is_read = 1 WHERE id = ?] *)
| MarkRead (notification_id : Z) : InboxQuery RunResult
(** [UPDATE notifications SET is_read = 1 WHERE user_id = ? AND is_read = 0] *)
| MarkAllRead (user_id : Z) : InboxQuery RunResult
(** [DELETE FROM notifications WHERE id = ?] *)
| DeleteNotification (notification_id : Z) : InboxQuery RunResult
(** [DELETE FROM notifications WHERE user_id = ?] *)
| DeleteNotificationsOfUser (user_id : Z) : InboxQuery RunResult
(** [INSERT INTO notifications (uuid, user_id, type, title, message, metadata)
     VALUES (...)] *)
| InsertInboxRow (uuid : string) (user_id : Z) (type title message : string)
    (metadata : Json) : InboxQuery RunResult
(** [uuidv4()] *)
| InboxUuidv4 : InboxQuery string.

Definition with_inbox_rows (ib : Inbox) (rows : list InboxRow) : Inbox :=
  mkInbox rows (inbox_clock ib) (inbox_entropy ib).

Definition exec_inbox {A} (q : InboxQuery A) (ib : Inbox) : A * Inbox :=
  match q in InboxQuery T return T * Inbox with
  | SelectNotificationsPage uid type unread_only limit offset =>
      (sql_limit limit offset
         (newest_first (filter (inbox_where uid type unread_only) (inbox_rows ib))), ib)
  | CountNotifications uid type unread_only =>
      (Z.of_nat (length (filter (inbox_where uid type unread_only) (inbox_rows ib))), ib)
  | CountUnread uid =>
      (Z.of_nat (length (filter (inbox_where uid None true) (inbox_rows ib))), ib)
  | SelectNotificationOfUser nid uid =>
      (find (fun r => (in_id r =? nid) && (in_user_id r =? uid)) (inbox_rows ib), ib)
  | SelectNotificationById nid =>
      (find (fun r => in_id r =? nid) (inbox_rows ib), ib)
  | MarkRead nid =>
      (mkRunResult 0 (count_where in_id nid (inbox_rows ib)),
       with_inbox_rows ib (update_where in_id nid set_read (inbox_rows ib)))
  | MarkAllRead uid =>
      (mkRunResult 0 (Z.of_nat (length (filter (inbox_where uid None true) (inbox_rows ib)))),
       with_inbox_rows ib
         (map (fun r => if inbox_where uid None true r then set_read r else r)
              (inbox_rows ib)))
  | DeleteNotification nid =>
      (mkRunResult 0 (count_where in_id nid (inbox_rows ib)),
       with_inbox_rows ib (filter (fun r => negb (in_id r =? nid)) (inbox_rows ib)))
  | DeleteNotificationsOfUser uid =>
      (mkRunResult 0 (count_where in_user_id uid (inbox_rows ib)),
       with_inbox_rows ib (filter (fun r => negb (in_user_id r =? uid)) (inbox_rows ib)))
  | InsertInboxRow uuid uid type title message metadata =>
      let rowid := next_rowid in_id (inbox_rows ib) in
      (mkRunResult rowid 1,
       with_inbox_rows ib
         (inbox_rows ib ++
          [mkInboxRow (mkNotification rowid uuid uid type title message metadata)
                      0 (inbox_clock ib)]))
  | InboxUuidv4 =>
      (uuid_of (inbox_entropy ib),
       mkInbox (inbox_rows ib) (inbox_clock ib) (S (inbox_entropy ib)))
  end.

Definition run_inbox {R} (p : Script InboxQuery R) (ib : Inbox) : R * Inbox :=
  run_script (@exec_inbox) p ib.

Record NotificationView : Type := mkNotificationView {
  nv_id : Z;
  nv_uuid : string;
  nv_type : string;
  nv_title : string;
  nv_message : string;
  nv_isRead : bool;
  nv_metadata : Json;
  nv_createdAt : Z
}.

Inductive InboxBody : Type :=
| InboxErrorBody (error code : string)
| InboxValidationBody (error : JoiError) (code : string)
| InboxMessageBody (message : string)
| InboxListBody (notifications : list NotificationView) (pagination : Pagination)
    (unreadCount : Z)
| InboxItemBody (notification : NotificationView)
| InboxCreatedBody (message : string) (notification : NotificationView).

Record InboxResponse : Type := mkInboxResponse { inbox_status : Z; inbox_json : InboxBody }.

(** The object the routes build from a row.  [metadata] is stored as the
    JSON text of the object and parsed back; [null] stays [null]. *)
Definition notification_view (r : InboxRow) : NotificationView :=
  mkNotificationView (in_id r) (n_uuid (in_row r)) (n_type (in_row r))
                     (n_title (in_row r)) (n_message (in_row r))
                     (in_is_read r =? 1) (n_metadata (in_row r)) (in_created_at r).

Definition notification_types : list string :=
  ["trade"; "shipment"; "payment"; "system"; "invoice"]%string.

(** [createNotificationSchema.validate(req.body)] *)
Definition createNotificationSchema (body : NotificationBody)
  : JoiError + NotificationValue :=
  match nb_type body with
  | None => inl (mkJoiError "type" "any.required")
  | Some type =>
  if negb (existsb (String.eqb type) notification_types)
  then inl (mkJoiError "type" "any.only") else
  match joi_required_string "title" 3 (Some 100%nat) (nb_title body) with
  | inl e => inl e
  | inr title =>
  match joi_required_string "message" 10 (Some 500%nat) (nb_message body) with
  | inl e => inl e
  | inr message =>
  match nb_metadata body with
  | None => inr (mkNotificationValue type title message None)
  | Some (JObj fields) => inr (mkNotificationValue type title message (Some (JObj fields)))
  | Some _ => inl (mkJoiError "metadata" "object.base")
  end end end end.

(** [router.get('/')] *)
Definition listNotifications (user : ReqUser) (query : NotificationsQuery)
  : Script InboxQuery InboxResponse :=
  let page := match nq_page query with Some p => p | None => 1 end in
  let limit := match nq_limit query with Some l => l | None => 20 end in
  let offset := (page - 1) * limit in
  let type := truthy_string (nq_type query) in
  let unread_only :=
    match nq_unreadOnly query with Some s => (s =? "true")%string | None => false end in
  notifications <~ SelectNotificationsPage (req_id user) type unread_only limit offset ;;
  totalResult <~ CountNotifications (req_id user) type unread_only ;;
  unreadResult <~ CountUnread (req_id user) ;;
  Done (mkInboxResponse 200
          (InboxListBody (map notification_view notifications)
             (mkPagination page limit totalResult (ceil_div totalResult limit))
             unreadResult)).

Definition inbox_not_found : InboxResponse :=
  mkInboxResponse 404 (InboxErrorBody "Notification not found" "NOT_FOUND").

(** [router.get('/:id')]; the route parameter is a decimal integer literal,
    here and below. *)
Definition getNotification (user : ReqUser) (id : Z) : Script InboxQuery InboxResponse :=
  notification <~ SelectNotificationOfUser id (req_id user) ;;
  match notification with
  | None => Done inbox_not_found
  | Some notification =>
      Done (mkInboxResponse 200 (InboxItemBody (notification_view notification)))
  end.

(** [router.put('/:id/read')] *)
Definition markRead (user : ReqUser) (id : Z) : Script InboxQuery InboxResponse :=
  notification <~ SelectNotificationOfUser id (req_id user) ;;
  match notification with
  | None => Done inbox_not_found
  | Some _ =>
      _ <~ MarkRead id ;;
      Done (mkInboxResponse 200 (InboxMessageBody "Notification marked as read"))
  end.

(** [router.put('/read-all')] *)
Definition markAllRead (user : ReqUser) : Script InboxQuery InboxResponse :=
  _ <~ MarkAllRead (req_id user) ;;
  Done (mkInboxResponse 200 (InboxMessageBody "All notifications marked as read")).

(** [router.delete('/:id')] *)
Definition deleteNotification (user : ReqUser) (id : Z) : Script InboxQuery InboxResponse :=
  notification <~ SelectNotificationOfUser id (req_id user) ;;
  match notification with
  | None => Done inbox_not_found
  | Some _ =>
      _ <~ DeleteNotification id ;;
      Done (mkInboxResponse 200 (InboxMessageBody "Notification deleted successfully"))
  end.

(** [router.delete('/')] *)
Definition deleteAllNotifications (user : ReqUser) : Script InboxQuery InboxResponse :=
  _ <~ DeleteNotificationsOfUser (req_id user) ;;
  Done (mkInboxResponse 200 (InboxMessageBody "All notifications deleted successfully")).

(** [router.post('/')].  Reading [notification.id] of a row that was not
    found throws, which the [catch] block answers. *)
Definition createNotification (user : ReqUser) (body : NotificationBody)
  : Script InboxQuery InboxResponse :=
  match createNotificationSchema body with
  | inl error => Done (mkInboxResponse 400 (InboxValidationBody error "VALIDATION_ERROR"))
  | inr value =>
      notificationUuid <~ InboxUuidv4 ;;
      result <~ InsertInboxRow notificationUuid (req_id user) (nval_type value)
                  (nval_title value) (nval_message value)
                  (match nval_metadata value with Some m => m | None => JNull end) ;;
      notification <~ SelectNotificationById (id result) ;;
      match notification with
      | None =>
          Done (mkInboxResponse 500
                  (InboxErrorBody "Failed to create notification" "CREATE_ERROR"))
      | Some notification =>
          Done (mkInboxResponse 201
                  (InboxCreatedBody "Notification created successfully"
                     (notification_view notification)))
      end
  end.

(** The requests the router serves ([GET /stats] never reaches its
    handler). *)
Inductive InboxRequest : Type :=
| IList (query : NotificationsQuery)
| IGet (id : Z)
| IMarkRead (id : Z)
| IMarkAllRead
| IDelete (id : Z)
| IDeleteAll
| ICreate (body : NotificationBody).

Definition inbox_handler (user : ReqUser) (r : InboxRequest)
  : Script InboxQuery InboxResponse :=
  match r with
  | IList query => listNotifications user query
  | IGet id => getNotification user id
  | IMarkRead id => markRead user id
  | IMarkAllRead => markAllRead user
  | IDelete id => deleteNotification user id
  | IDeleteAll => deleteAllNotifications user
  | ICreate body => createNotification user body
  end.

(** The rows of the table that belong to someone else. *)
Definition rows_of_others (uid : Z) (rows : list InboxRow) : list InboxRow :=
  filter (fun r => negb (in_user_id r =? uid)) rows.

(** [unreadCount] of a list response. *)
Definition unread_count (r : InboxResponse) : option Z :=
  match inbox_json r with
  | InboxListBody _ _ unread => Some unread
  | _ => None
  end.

Definition listed_notifications (r : InboxResponse) : list NotificationView :=
  match inbox_json r with
  | InboxListBody ns _ _ => ns
  | _ => []
  end.

(* ================================================================== *)
(** ** The shipment routes ([routes/shipments.js]) *)

(** The columns of [trade_agreements] the shipment routes read. *)
Record TradeAgreementRow : Type := mkTradeAgreement {
  ta_id : Z;
  ta_user_id : Z;
  ta_agreement_name : string;
  ta_buyer_company : string;
  ta_seller_company : string
}.

(** A row of [shipments]; a date is the number of milliseconds that the
    driver binds for a [Date]. *)
Record ShipmentRow : Type := mkShipment {
  s_id : Z;
  s_uuid : string;
  s_trade_agreement_id : Z;
  s_user_id : Z;
  s_tracking_number : string;
  s_carrier : string;
  s_origin : string;
  s_destination : string;
  s_status : string;
  s_estimated_delivery : option Z;
  s_actual_delivery : option Z;
  s_documents_urls : option string;
  s_created_at : Z;
  s_updated_at : Z
}.

Record Depot : Type := mkDepot {
  trade_agreements : list TradeAgreementRow;
  shipments : list ShipmentRow;
  depot_notifications : list NotificationRow;
  depot_clock : Z;
  depot_entropy : nat
}.

(** A value bound to a [?] of the dynamic [UPDATE]. *)
Inductive SqlValue : Type :=
| SqlText (s : string)
| SqlNumber (n : Z).

(** Body of [POST /]; [tradeAgreementId] is an integer and
    [estimatedDelivery] a number of milliseconds when present. *)
Record CreateShipmentBody : Type := mkCreateShipmentBody {
  sb_tradeAgreementId : option Z;
  sb_trackingNumber : option string;
  sb_carrier : option string;
  sb_origin : option string;
  sb_destination : option string;
  sb_estimatedDelivery : option Z
}.

Record CreateShipmentValue : Type := mkCreateShipmentValue {
  sval_tradeAgreementId : Z;
  sval_trackingNumber : string;
  sval_carrier : string;
  sval_origin : string;
  sval_destination : string;
  sval_estimatedDelivery : option Z
}.

(** Body of [PUT /:id], and the validated value: the keys that are present. *)
Record UpdateShipmentBody : Type := mkUpdateShipmentBody {
  ub_trackingNumber : option string;
  ub_carrier : option string;
  ub_origin : option string;
  ub_destination : option string;
  ub_status : option string;
  ub_estimatedDelivery : option Z;
  ub_actualDelivery : option Z;
  ub_documentsUrls : option string
}.

(** [Joi.number().integer().required()] on an integer *)
Definition joi_integer (k : string) (v : option Z) : JoiError + Z :=
  match v with
  | None => inl (mkJoiError k "any.required")
  | Some n =>
      if Z.abs n <=? 9007199254740991 then inr n else inl (mkJoiError k "number.unsafe")
  end.

(** [Joi.date().optional()] on a number of milliseconds *)
Definition joi_date (k : string) (v : option Z) : JoiError + option Z :=
  match v with
  | None => inr None
  | Some n =>
      if Z.abs n <=? 8640000000000000 then inr (Some n) else inl (mkJoiError k "date.base")
  end.

(** [Joi.string().min(lo).max(hi).optional()] *)
Definition joi_string_between (k : string) (lo hi : nat) (v : option string)
  : JoiError + option string :=
  match v with
  | None => inr None
  | Some s =>
      if (s =? "")%string then inl (mkJoiError k "string.empty")
      else if (String.length s <? lo)%nat then inl (mkJoiError k "string.min")
      else if (hi <? String.length s)%nat then inl (mkJoiError k "string.max")
      else inr (Some s)
  end.

Definition shipment_statuses : list string :=
  ["pending"; "in_transit"; "delivered"; "delayed"; "cancelled"]%string.

(** [Joi.string().valid(...).optional()] *)
Definition joi_status (k : string) (v : option string) : JoiError + option string :=
  match v with
  | None => inr None
  | Some s =>
      if existsb (String.eqb s) shipment_statuses then inr (Some s)
      else inl (mkJoiError k "any.only")
  end.

(** [Joi.string().optional()] *)
Definition joi_any_string (k : string) (v : option string) : JoiError + option string :=
  match v with
  | None => inr None
  | Some s => if (s =? "")%string then inl (mkJoiError k "string.empty") else inr (Some s)
  end.

(** [createShipmentSchema.validate(req.body)] *)
Definition createShipmentSchema (body : CreateShipmentBody)
  : JoiError + CreateShipmentValue :=
  match joi_integer "tradeAgreementId" (sb_tradeAgreementId body) with
  | inl e => inl e
  | inr tradeAgreementId =>
  match joi_required_string "trackingNumber" 5 (Some 50%nat) (sb_trackingNumber body) with
  | inl e => inl e
  | inr trackingNumber =>
  match joi_required_string "carrier" 2 (Some 50%nat) (sb_carrier body) with
  | inl e => inl e
  | inr carrier =>
  match joi_required_string "origin" 2 (Some 100%nat) (sb_origin body) with
  | inl e => inl e
  | inr origin =>
  match joi_required_string "destination" 2 (Some 100%nat) (sb_destination body) with
  | inl e => inl e
  | inr destination =>
  match joi_date "estimatedDelivery" (sb_estimatedDelivery body) with
  | inl e => inl e
  | inr estimatedDelivery =>
      inr (mkCreateShipmentValue tradeAgreementId trackingNumber carrier origin
                                 destination estimatedDelivery)
  end end end end end end.

(** [updateShipmentSchema.validate(req.body)] *)
Definition updateShipmentSchema (body : UpdateShipmentBody)
  : JoiError + UpdateShipmentBody :=
  match joi_string_between "trackingNumber" 5 50 (ub_trackingNumber body) with
  | inl e => inl e
  | inr trackingNumber =>
  match joi_string_between "carrier" 2 50 (ub_carrier body) with
  | inl e => inl e
  | inr carrier =>
  match joi_string_between "origin" 2 100 (ub_origin body) with
  | inl e => inl e
  | inr origin =>
  match joi_string_between "destination" 2 100 (ub_destination body) with
  | inl e => inl e
  | inr destination =>
  match joi_status "status" (ub_status body) with
  | inl e => inl e
  | inr status =>
  match joi_date "estimatedDelivery" (ub_estimatedDelivery body) with
  | inl e => inl e
  | inr estimatedDelivery =>
  match joi_date "actualDelivery" (ub_actualDelivery body) with
  | inl e => inl e
  | inr actualDelivery =>
  match joi_any_string "documentsUrls" (ub_documentsUrls body) with
  | inl e => inl e
  | inr documentsUrls =>
      inr (mkUpdateShipmentBody trackingNumber carrier origin destination status
                                estimatedDelivery actualDelivery documentsUrls)
  end end end end end end end end.

(** [key.replace(/([A-Z])/g, '_$1')] *)
Fixpoint underscore_capitals (s : string) : string :=
  match s with
  | EmptyString => EmptyString
  | String c rest =>
      let n := nat_of_ascii c in
      if ((65 <=? n) && (n <=? 90))%nat
      then String "_" (String c (underscore_capitals rest))
      else String c (underscore_capitals rest)
  end.

(** [key.replace(/([A-Z])/g, '_$1').toLowerCase()] *)
Definition dbKey (key : string) : string := toLowerCase (underscore_capitals key).

Definition entry {A} (key : string) (inject : A -> SqlValue) (v : option A)
  : list (string * SqlValue) :=
  match v with
  | Some x => [(key, inject x)]
  | None => []
  end.

(** The keys of [value] with their values.  They are listed in schema
    order; the statement assigns each column once, so their order does not
    matter. *)
Definition entries (value : UpdateShipmentBody) : list (string * SqlValue) :=
  entry "trackingNumber" SqlText (ub_trackingNumber value)
  ++ entry "carrier" SqlText (ub_carrier value)
  ++ entry "origin" SqlText (ub_origin value)
  ++ entry "destination" SqlText (ub_destination value)
  ++ entry "status" SqlText (ub_status value)
  ++ entry "estimatedDelivery" SqlNumber (ub_estimatedDelivery value)
  ++ entry "actualDelivery" SqlNumber (ub_actualDelivery value)
  ++ entry "documentsUrls" SqlText (ub_documentsUrls value).

(** [updates] and [values] of the route: one [column = ?] per key. *)
Definition updates_of (value : UpdateShipmentBody) : list (string * SqlValue) :=
  map (fun e => (dbKey (fst e), snd e)) (entries value).

(** [SET column = ?] on a row, column by column. *)
Definition set_tracking_number (v : string) (s : ShipmentRow) : ShipmentRow :=
  mkShipment (s_id s) (s_uuid s) (s_trade_agreement_id s) (s_user_id s)
             v (s_carrier s) (s_origin s) (s_destination s) (s_status s)
             (s_estimated_delivery s) (s_actual_delivery s) (s_documents_urls s) (s_created_at s) (s_updated_at s).

Definition set_carrier (v : string) (s : ShipmentRow) : ShipmentRow :=
  mkShipment (s_id s) (s_uuid s) (s_trade_agreement_id s) (s_user_id s)
             (s_tracking_number s) v (s_origin s) (s_destination s) (s_status s)
             (s_estimated_delivery s) (s_actual_delivery s) (s_documents_urls s) (s_created_at s) (s_updated_at s).

Definition set_origin (v : string) (s : ShipmentRow) : ShipmentRow :=
  mkShipment (s_id s) (s_uuid s) (s_trade_agreement_id s) (s_user_id s)
             (s_tracking_number s) (s_carrier s) v (s_destination s) (s_status s)
             (s_estimated_delivery s) (s_actual_delivery s) (s_documents_urls s) (s_created_at s) (s_updated_at s).

Definition set_destination (v : string) (s : ShipmentRow) : ShipmentRow :=
  mkShipment (s_id s) (s_uuid s) (s_trade_agreement_id s) (s_user_id s)
             (s_tracking_number s) (s_carrier s) (s_origin s) v (s_status s)
             (s_estimated_delivery s) (s_actual_delivery s) (s_documents_urls s) (s_created_at s) (s_updated_at s).

Definition set_shipment_status (v : string) (s : ShipmentRow) : ShipmentRow :=
  mkShipment (s_id s) (s_uuid s) (s_trade_agreement_id s) (s_user_id s)
             (s_tracking_number s) (s_carrier s) (s_origin s) (s_destination s) v
             (s_estimated_delivery s) (s_actual_delivery s) (s_documents_urls s) (s_created_at s) (s_updated_at s).

Definition set_documents_urls (v : string) (s : ShipmentRow) : ShipmentRow :=
  mkShipment (s_id s) (s_uuid s) (s_trade_agreement_id s) (s_user_id s)
             (s_tracking_number s) (s_carrier s) (s_origin s) (s_destination s) (s_status s)
             (s_estimated_delivery s) (s_actual_delivery s) (Some v) (s_created_at s) (s_updated_at s).

Definition set_estimated_delivery (v : Z) (s : ShipmentRow) : ShipmentRow :=
  mkShipment (s_id s) (s_uuid s) (s_trade_agreement_id s) (s_user_id s)
             (s_tracking_number s) (s_carrier s) (s_origin s) (s_destination s) (s_status s)
             (Some v) (s_actual_delivery s) (s_documents_urls s) (s_created_at s) (s_updated_at s).

Definition set_actual_delivery (v : Z) (s : ShipmentRow) : ShipmentRow :=
  mkShipment (s_id s) (s_uuid s) (s_trade_agreement_id s) (s_user_id s)
             (s_tracking_number s) (s_carrier s) (s_origin s) (s_destination s) (s_status s)
             (s_estimated_delivery s) (Some v) (s_documents_urls s) (s_created_at s) (s_updated_at s).

(** The assignment [column = ?], for the text and date columns of
    [shipments] that a request may change.  [None]: the table has no such
    column and the statement fails, or the assignment is not covered here
    (a key column, or a value of the other storage class). *)
Definition column_setter (column : string) (v : SqlValue)
  : option (ShipmentRow -> ShipmentRow) :=
  match v with
  | SqlText t =>
      if (column =? "tracking_number")%string then Some (set_tracking_number t)
      else if (column =? "carrier")%string then Some (set_carrier t)
      else if (column =? "origin")%string then Some (set_origin t)
      else if (column =? "destination")%string then Some (set_destination t)
      else if (column =? "status")%string then Some (set_shipment_status t)
      else if (column =? "documents_urls")%string then Some (set_documents_urls t)
      else None
  | SqlNumber n =>
      if (column =? "estimated_delivery")%string then Some (set_estimated_delivery n)
      else if (column =? "actual_delivery")%string then Some (set_actual_delivery n)
      else None
  end.

(** [SET c1 = ?, c2 = ?, ...]: all the assignments, or no statement. *)
Fixpoint statement_setter (updates : list (string * SqlValue))
  : option (ShipmentRow -> ShipmentRow) :=
  match updates with
  | [] => Some (fun s => s)
  | u :: rest =>
      match column_setter (fst u) (snd u), statement_setter rest with
      | Some f, Some g => Some (fun s => g (f s))
      | _, _ => None
      end
  end.

(** [updated_at = CURRENT_TIMESTAMP] *)
Definition touch (now : Z) (s : ShipmentRow) : ShipmentRow :=
  mkShipment (s_id s) (s_uuid s) (s_trade_agreement_id s) (s_user_id s)
             (s_tracking_number s) (s_carrier s) (s_origin s) (s_destination s)
             (s_status s) (s_estimated_delivery s) (s_actual_delivery s)
             (s_documents_urls s) (s_created_at s) now.

(** A list of strings without a repetition. *)
Fixpoint distinct (l : list string) : bool :=
  match l with
  | [] => true
  | x :: rest => negb (existsb (String.eqb x) rest) && distinct rest
  end.

(** [FROM shipments s JOIN trade_agreements ta ON s.trade_agreement_id = ta.id] *)
Definition joined (agreements : list TradeAgreementRow) (rows : list ShipmentRow)
  : list (ShipmentRow * TradeAgreementRow) :=
  flat_map (fun s => map (pair s)
                         (filter (fun ta => ta_id ta =? s_trade_agreement_id s) agreements))
           rows.

(** [req.query] of [GET /]; [page] and [limit] are decimal integer
    literals when present. *)
Record ShipmentsQuery : Type := mkShipmentsQuery {
  sq_page : option Z;
  sq_limit : option Z;
  sq_status : option string;
  sq_search : option string
}.

(** [text LIKE pattern], as SQLite has it without an [ESCAPE] clause: [%]
    stands for any run of characters and [_] for any one character;
    letters match whatever their case. *)
Fixpoint sql_like (pattern text : string) {struct pattern} : bool :=
  match pattern with
  | EmptyString =>
      match text with
      | EmptyString => true
      | String _ _ => false
      end
  | String c rest =>
      if (c =? "%")%char then
        (fix from (t : string) : bool :=
           sql_like rest t
           || match t with
              | EmptyString => false
              | String _ t' => from t'
              end) text
      else
        match text with
        | EmptyString => false
        | String d t =>
            ((c =? "_")%char || (toLowerCase_char c =? toLowerCase_char d)%char)
            && sql_like rest t
        end
  end.

(** [WHERE s.user_id = ? [AND s.status = ?] [AND (s.tracking_number LIKE ? OR
     s.carrier LIKE ? OR ta.agreement_name LIKE ?)]], the three patterns
    being [`%${search}%`]. *)
Definition shipment_where (uid : Z) (status search : option string)
           (r : ShipmentRow * TradeAgreementRow) : bool :=
  (s_user_id (fst r) =? uid)
  && match status with
     | Some st => (s_status (fst r) =? st)%string
     | None => true
     end
  && match search with
     | Some term =>
         let searchTerm := ("%" ++ term ++ "%")%string in
         sql_like searchTerm (s_tracking_number (fst r))
         || sql_like searchTerm (s_carrier (fst r))
         || sql_like searchTerm (ta_agreement_name (snd r))
     | None => true
     end.

(** [ORDER BY s.created_at DESC], rows with equal timestamps in the order of
    the join. *)
Fixpoint insert_latest (r : ShipmentRow * TradeAgreementRow)
         (sorted : list (ShipmentRow * TradeAgreementRow))
  : list (ShipmentRow * TradeAgreementRow) :=
  match sorted with
  | [] => [r]
  | x :: rest =>
      if s_created_at (fst x) <=? s_created_at (fst r) then r :: x :: rest
      else x :: insert_latest r rest
  end.

Definition latest_first (rows : list (ShipmentRow * TradeAgreementRow))
  : list (ShipmentRow * TradeAgreementRow) :=
  fold_right insert_latest [] rows.

Inductive DepotQuery : Type -> Type :=
(** [SELECT * FROM trade_agreements WHERE id = ? AND user_id = ?] *)
| SelectTradeAgreementOfUser (agreement_id user_id : Z)
  : DepotQuery (option TradeAgreementRow)
(** [SELECT id FROM shipments WHERE tracking_number = ?] *)
| SelectShipmentIdByTracking (tracking_number : string) : DepotQuery (option Z)
(** [INSERT INTO shipments (uuid, trade_agreement_id, user_id, tracking_number,
     carrier, origin, destination, status, estimated_delivery) VALUES (...)];
    [None] when the statement fails *)
| InsertShipment (uuid : string) (trade_agreement_id user_id : Z)
    (tracking_number carrier origin destination status : string)
    (estimated_delivery : option Z) : DepotQuery (option RunResult)
(** [SELECT s.*, ta.agreement_name, ta.buyer_company, ta.seller_company
     FROM shipments s JOIN trade_agreements ta ON s.trade_agreement_id = ta.id
     WHERE s.id = ?] *)
| SelectJoinedShipment (shipment_id : Z)
  : DepotQuery (option (ShipmentRow * TradeAgreementRow))
(** the same [WHERE s.id = ? AND s.user_id = ?] *)
| SelectJoinedShipmentOfUser (shipment_id user_id : Z)
  : DepotQuery (option (ShipmentRow * TradeAgreementRow))
(** the same [WHERE s.tracking_number = ?] *)
| SelectJoinedShipmentByTracking (tracking_number : string)
  : DepotQuery (option (ShipmentRow * TradeAgreementRow))
(** [SELECT s.*, ta.agreement_name, ta.buyer_company, ta.seller_company
     FROM shipments s JOIN trade_agreements ta ON s.trade_agreement_id = ta.id
     <where> ORDER BY s.created_at DESC LIMIT ? OFFSET ?] *)
| SelectShipmentsPage (user_id : Z) (status search : option string) (limit offset : Z)
  : DepotQuery (list (ShipmentRow * TradeAgreementRow))
(** [SELECT COUNT( * ) as total FROM shipments s
     JOIN trade_agreements ta ON s.trade_agreement_id = ta.id <where>] *)
| CountShipments (user_id : Z) (status search : option string) : DepotQuery Z
(** [SELECT * FROM shipments WHERE id = ? AND user_id = ?] *)
| SelectShipmentOfUser (shipment_id user_id : Z) : DepotQuery (option ShipmentRow)
(** [SELECT id FROM shipments WHERE tracking_number = ? AND id != ?] *)
| SelectOtherShipmentByTracking (tracking_number : string) (shipment_id : Z)
  : DepotQuery (option Z)
(** [UPDATE shipments SET <updates>, updated_at = CURRENT_TIMESTAMP WHERE id = ?];
    [None] when the statement fails *)
| UpdateShipment (updates : list (string * SqlValue)) (shipment_id : Z)
  : DepotQuery (option RunResult)
(** [DELETE FROM shipments WHERE id = ?] *)
| DeleteShipment (shipment_id : Z) : DepotQuery RunResult
(** [SELECT COUNT( * ) as count FROM shipments WHERE trade_agreement_id = ?] *)
| CountShipmentsOfAgreement (agreement_id : Z) : DepotQuery Z
(** [DELETE FROM trade_agreements WHERE id = ?] *)
| DeleteTradeAgreement (agreement_id : Z) : DepotQuery RunResult
(** [INSERT INTO notifications (uuid, user_id, type, title, message, metadata)
     VALUES (...)] *)
| InsertShipmentNotification (uuid : string) (user_id : Z) (type title message : string)
    (metadata : Json) : DepotQuery RunResult
(** [uuidv4()] *)
| DepotUuidv4 : DepotQuery string.

Definition with_shipments (d : Depot) (rows : list ShipmentRow) : Depot :=
  mkDepot (trade_agreements d) rows (depot_notifications d) (depot_clock d)
          (depot_entropy d).

(** One statement against the store.  [tracking_number] is [UNIQUE]: the
    table has no repeated tracking number before a statement, and a
    statement that would leave one fails and changes nothing.  (A repeated
    [uuid] is not modelled.) *)
Definition exec_depot {A} (q : DepotQuery A) (d : Depot) : A * Depot :=
  match q in DepotQuery T return T * Depot with
  | SelectTradeAgreementOfUser aid uid =>
      (find (fun ta => (ta_id ta =? aid) && (ta_user_id ta =? uid)) (trade_agreements d), d)
  | SelectShipmentIdByTracking tn =>
      (option_map s_id (find (fun s => (s_tracking_number s =? tn)%string) (shipments d)), d)
  | InsertShipment uuid aid uid tn carrier origin destination status estimated =>
      let rowid := next_rowid s_id (shipments d) in
      let rows := shipments d ++
                  [mkShipment rowid uuid aid uid tn carrier origin destination status
                              estimated None None (depot_clock d) (depot_clock d)] in
      if distinct (map s_tracking_number rows)
      then (Some (mkRunResult rowid 1), with_shipments d rows)
      else (None, d)
  | SelectJoinedShipment sid =>
      (find (fun r => s_id (fst r) =? sid) (joined (trade_agreements d) (shipments d)), d)
  | SelectJoinedShipmentOfUser sid uid =>
      (find (fun r => (s_id (fst r) =? sid) && (s_user_id (fst r) =? uid))
            (joined (trade_agreements d) (shipments d)), d)
  | SelectJoinedShipmentByTracking tn =>
      (find (fun r => (s_tracking_number (fst r) =? tn)%string)
            (joined (trade_agreements d) (shipments d)), d)
  | SelectShipmentsPage uid status search limit offset =>
      (sql_limit limit offset
         (latest_first (filter (shipment_where uid status search)
                               (joined (trade_agreements d) (shipments d)))), d)
  | CountShipments uid status search =>
      (Z.of_nat (length (filter (shipment_where uid status search)
                                (joined (trade_agreements d) (shipments d)))), d)
  | SelectShipmentOfUser sid uid =>
      (find (fun s => (s_id s =? sid) && (s_user_id s =? uid)) (shipments d), d)
  | SelectOtherShipmentByTracking tn sid =>
      (option_map s_id
         (find (fun s => (s_tracking_number s =? tn)%string && negb (s_id s =? sid))
               (shipments d)), d)
  | UpdateShipment updates sid =>
      match statement_setter updates with
      | None => (None, d)
      | Some set =>
          let rows := update_where s_id sid (fun s => touch (depot_clock d) (set s))
                                   (shipments d) in
          if distinct (map s_tracking_number rows)
          then (Some (mkRunResult 0 (count_where s_id sid (shipments d))),
                with_shipments d rows)
          else (None, d)
      end
  | DeleteShipment sid =>
      (mkRunResult 0 (count_where s_id sid (shipments d)),
       with_shipments d (filter (fun s => negb (s_id s =? sid)) (shipments d)))
  | CountShipmentsOfAgreement aid =>
      (Z.of_nat (length (filter (fun s => s_trade_agreement_id s =? aid) (shipments d))), d)
  | DeleteTradeAgreement aid =>
      (mkRunResult 0 (count_where ta_id aid (trade_agreements d)),
       mkDepot (filter (fun ta => negb (ta_id ta =? aid)) (trade_agreements d))
               (shipments d) (depot_notifications d) (depot_clock d) (depot_entropy d))
  | InsertShipmentNotification uuid uid type title message metadata =>
      let rowid := next_rowid n_id (depot_notifications d) in
      (mkRunResult rowid 1,
       mkDepot (trade_agreements d) (shipments d)
               (depot_notifications d ++
                [mkNotification rowid uuid uid type title message metadata])
               (depot_clock d) (depot_entropy d))
  | DepotUuidv4 =>
      (uuid_of (depot_entropy d),
       mkDepot (trade_agreements d) (shipments d) (depot_notifications d) (depot_clock d)
               (S (depot_entropy d)))
  end.

Definition run_depot {R} (p : Script DepotQuery R) (d : Depot) : R * Depot :=
  run_script (@exec_depot) p d.

Record ShipmentView : Type := mkShipmentView {
  sv_id : Z;
  sv_uuid : string;
  sv_tradeAgreementId : Z;
  sv_agreementName : string;
  sv_buyerCompany : string;
  sv_sellerCompany : string;
  sv_trackingNumber : string;
  sv_carrier : string;
  sv_origin : string;
  sv_destination : string;
  sv_status : string;
  sv_estimatedDelivery : option Z;
  sv_actualDelivery : option Z;
  sv_documentsUrls : option string;
  sv_createdAt : Z;
  sv_updatedAt : Z
}.

Record TrackView : Type := mkTrackView {
  trk_trackingNumber : string;
  trk_carrier : string;
  trk_origin : string;
  trk_destination : string;
  trk_status : string;
  trk_estimatedDelivery : option Z;
  trk_actualDelivery : option Z;
  trk_createdAt : Z;
  trk_updatedAt : Z
}.

Inductive ShipBody : Type :=
| ShipErrorBody (error code : string)
| ShipValidationBody (error : JoiError) (code : string)
| ShipMessageBody (message : string)
| ShipmentBody (message : option string) (shipment : ShipmentView)
| ShipmentsListBody (shipments : list ShipmentView) (pagination : Pagination)
| TrackBody (shipment : TrackView).

Record ShipResponse : Type := mkShipResponse { ship_status : Z; ship_json : ShipBody }.

Definition shipment_view (r : ShipmentRow * TradeAgreementRow) : ShipmentView :=
  let s := fst r in
  let ta := snd r in
  mkShipmentView (s_id s) (s_uuid s) (s_trade_agreement_id s) (ta_agreement_name ta)
                 (ta_buyer_company ta) (ta_seller_company ta) (s_tracking_number s)
                 (s_carrier s) (s_origin s) (s_destination s) (s_status s)
                 (s_estimated_delivery s) (s_actual_delivery s) (s_documents_urls s)
                 (s_created_at s) (s_updated_at s).

Definition track_view (s : ShipmentRow) : TrackView :=
  mkTrackView (s_tracking_number s) (s_carrier s) (s_origin s) (s_destination s)
              (s_status s) (s_estimated_delivery s) (s_actual_delivery s)
              (s_created_at s) (s_updated_at s).

Definition shipment_not_found : ShipResponse :=
  mkShipResponse 404 (ShipErrorBody "Shipment not found" "NOT_FOUND").

(** [router.post('/')].  Reading [shipment.id] of a row the join did not
    find throws, after [uuidv4()] was called for the notification; the
    [catch] block answers. *)
Definition createShipment (user : ReqUser) (body : CreateShipmentBody)
  : Script DepotQuery ShipResponse :=
  let create_error :=
    mkShipResponse 500 (ShipErrorBody "Failed to create shipment" "CREATE_ERROR") in
  match createShipmentSchema body with
  | inl error => Done (mkShipResponse 400 (ShipValidationBody error "VALIDATION_ERROR"))
  | inr value =>
      let trackingNumber := sval_trackingNumber value in
      tradeAgreement <~ SelectTradeAgreementOfUser (sval_tradeAgreementId value)
                          (req_id user) ;;
      match tradeAgreement with
      | None =>
          Done (mkShipResponse 404
                  (ShipErrorBody "Trade agreement not found" "TRADE_AGREEMENT_NOT_FOUND"))
      | Some _ =>
          existingShipment <~ SelectShipmentIdByTracking trackingNumber ;;
          match existingShipment with
          | Some _ =>
              Done (mkShipResponse 409
                      (ShipErrorBody "Tracking number already exists"
                                     "TRACKING_NUMBER_EXISTS"))
          | None =>
              shipmentUuid <~ DepotUuidv4 ;;
              result <~ InsertShipment shipmentUuid (sval_tradeAgreementId value)
                          (req_id user) trackingNumber (sval_carrier value)
                          (sval_origin value) (sval_destination value) "pending"
                          (sval_estimatedDelivery value) ;;
              match result with
              | None => Done create_error
              | Some result =>
                  shipment <~ SelectJoinedShipment (id result) ;;
                  notificationUuid <~ DepotUuidv4 ;;
                  match shipment with
                  | None => Done create_error
                  | Some shipment =>
                      _ <~ InsertShipmentNotification notificationUuid (req_id user)
                             "shipment" "Shipment Created"
                             ("Shipment " ++ trackingNumber
                                ++ " has been created successfully")
                             (JObj [("shipmentId", JNum (s_id (fst shipment)));
                                    ("shipmentUuid", JStr shipmentUuid);
                                    ("trackingNumber", JStr trackingNumber)]%string) ;;
                      Done (mkShipResponse 201
                              (ShipmentBody (Some "Shipment created successfully"%string)
                                            (shipment_view shipment)))
                  end
              end
          end
      end
  end.

(** [router.get('/')] *)
Definition listShipments (user : ReqUser) (query : ShipmentsQuery)
  : Script DepotQuery ShipResponse :=
  let page := match sq_page query with Some p => p | None => 1 end in
  let limit := match sq_limit query with Some l => l | None => 10 end in
  let offset := (page - 1) * limit in
  let status := truthy_string (sq_status query) in
  let search := truthy_string (sq_search query) in
  shipments <~ SelectShipmentsPage (req_id user) status search limit offset ;;
  totalResult <~ CountShipments (req_id user) status search ;;
  Done (mkShipResponse 200
          (ShipmentsListBody (map shipment_view shipments)
             (mkPagination page limit totalResult (ceil_div totalResult limit)))).

(** [router.get('/:id')]; the route parameter is a decimal integer literal,
    here and below. *)
Definition getShipment (user : ReqUser) (id : Z) : Script DepotQuery ShipResponse :=
  shipment <~ SelectJoinedShipmentOfUser id (req_id user) ;;
  match shipment with
  | None => Done shipment_not_found
  | Some shipment => Done (mkShipResponse 200 (ShipmentBody None (shipment_view shipment)))
  end.

(** The rest of [router.put('/:id')], once the tracking number is known
    to be free: build the statement, run it and read the row back. *)
Definition applyUpdates (id : Z) (value : UpdateShipmentBody)
  : Script DepotQuery ShipResponse :=
  let update_error :=
    mkShipResponse 500 (ShipErrorBody "Failed to update shipment" "UPDATE_ERROR") in
  let updates := updates_of value in
  if (length updates =? 0)%nat then
    Done (mkShipResponse 400 (ShipErrorBody "No fields to update" "NO_UPDATES"))
  else
    result <~ UpdateShipment updates id ;;
    match result with
    | None => Done update_error
    | Some _ =>
        updatedShipment <~ SelectJoinedShipment id ;;
        match updatedShipment with
        | None => Done update_error
        | Some updatedShipment =>
            Done (mkShipResponse 200
                    (ShipmentBody (Some "Shipment updated successfully"%string)
                                  (shipment_view updatedShipment)))
        end
    end.

(** [router.put('/:id')] *)
Definition updateShipment (user : ReqUser) (id : Z) (body : UpdateShipmentBody)
  : Script DepotQuery ShipResponse :=
  match updateShipmentSchema body with
  | inl error => Done (mkShipResponse 400 (ShipValidationBody error "VALIDATION_ERROR"))
  | inr value =>
      existingShipment <~ SelectShipmentOfUser id (req_id user) ;;
      match existingShipment with
      | None => Done shipment_not_found
      | Some existingShipment =>
          match truthy_string (ub_trackingNumber value) with
          | Some trackingNumber =>
              if negb (trackingNumber =? s_tracking_number existingShipment)%string then
                duplicateShipment <~ SelectOtherShipmentByTracking trackingNumber id ;;
                match duplicateShipment with
                | Some _ =>
                    Done (mkShipResponse 409
                            (ShipErrorBody "Tracking number already exists"
                                           "TRACKING_NUMBER_EXISTS"))
                | None => applyUpdates id value
                end
              else applyUpdates id value
          | None => applyUpdates id value
          end
      end
  end.

(** [router.delete('/:id')] *)
Definition deleteShipment (user : ReqUser) (id : Z) : Script DepotQuery ShipResponse :=
  shipment <~ SelectShipmentOfUser id (req_id user) ;;
  match shipment with
  | None => Done shipment_not_found
  | Some _ =>
      _ <~ DeleteShipment id ;;
      Done (mkShipResponse 200 (ShipMessageBody "Shipment deleted successfully"))
  end.

(** [router.get('/track/:trackingNumber')] *)
Definition trackShipment (trackingNumber : string) : Script DepotQuery ShipResponse :=
  shipment <~ SelectJoinedShipmentByTracking trackingNumber ;;
  match shipment with
  | None => Done shipment_not_found
  | Some shipment => Done (mkShipResponse 200 (TrackBody (track_view (fst shipment))))
  end.

(** [router.delete('/:id')] of [routes/tradeAgreements.js], the one route
    outside the shipment router that could leave a shipment without its
    agreement. *)
Definition deleteTradeAgreement (user : ReqUser) (id : Z) : Script DepotQuery ShipResponse :=
  agreement <~ SelectTradeAgreementOfUser id (req_id user) ;;
  match agreement with
  | None =>
      Done (mkShipResponse 404 (ShipErrorBody "Trade agreement not found" "NOT_FOUND"))
  | Some _ =>
      count <~ CountShipmentsOfAgreement id ;;
      if 0 <? count then
        Done (mkShipResponse 400
                (ShipErrorBody "Cannot delete trade agreement with associated shipments"
                               "HAS_SHIPMENTS"))
      else
        _ <~ DeleteTradeAgreement id ;;
        Done (mkShipResponse 200 (ShipMessageBody "Trade agreement deleted successfully"))
  end.

(** The requests of the shipment router, and the deletion of a trade
    agreement. *)
Inductive DepotRequest : Type :=
| SCreate (body : CreateShipmentBody)
| SList (query : ShipmentsQuery)
| SGet (id : Z)
| SUpdate (id : Z) (body : UpdateShipmentBody)
| SDelete (id : Z)
| STrack (trackingNumber : string)
| TDelete (id : Z).

(** The integers that a JavaScript number holds exactly. *)
Definition safe_integer (z : Z) : bool := Z.abs z <=? 9007199254740991.

(** A query of [GET /] whose [page], [limit] and [(page - 1) * limit] are
    such integers: JavaScript then computes them without rounding, and
    SQLite takes them for [LIMIT] and [OFFSET]. *)
Definition exact_paging (query : ShipmentsQuery) : bool :=
  let page := match sq_page query with Some p => p | None => 1 end in
  let limit := match sq_limit query with Some l => l | None => 10 end in
  safe_integer page && safe_integer limit && safe_integer ((page - 1) * limit).

Definition exact_request (r : DepotRequest) : bool :=
  match r with
  | SList query => exact_paging query
  | _ => true
  end.

Definition depot_handler (user : ReqUser) (r : DepotRequest)
  : Script DepotQuery ShipResponse :=
  match r with
  | SCreate body => createShipment user body
  | SList query => listShipments user query
  | SGet id => getShipment user id
  | SUpdate id body => updateShipment user id body
  | SDelete id => deleteShipment user id
  | STrack trackingNumber => trackShipment trackingNumber
  | TDelete id => deleteTradeAgreement user id
  end.

(** The constraints of the schema on the two tables: the primary keys, the
    [UNIQUE] tracking number, and the reference from a shipment to its
    trade agreement. *)
Definition depot_ok (d : Depot) : Prop :=
  NoDup (map s_id (shipments d)) /\
  NoDup (map s_tracking_number (shipments d)) /\
  NoDup (map ta_id (trade_agreements d)) /\
  (forall s, In s (shipments d) ->
             exists ta, In ta (trade_agreements d) /\ ta_id ta = s_trade_agreement_id s).

(** What [PUT /:id] is meant to do to a row: replace the fields the body
    names and stamp [updated_at]. *)
Definition with_fields (value : UpdateShipmentBody) (now : Z) (s : ShipmentRow)
  : ShipmentRow :=
  let pick {A} (v : option A) (old : A) := match v with Some x => x | None => old end in
  let pick_opt {A} (v : option A) (old : option A) :=
    match v with Some x => Some x | None => old end in
  mkShipment (s_id s) (s_uuid s) (s_trade_agreement_id s) (s_user_id s)
             (pick (ub_trackingNumber value) (s_tracking_number s))
             (pick (ub_carrier value) (s_carrier s))
             (pick (ub_origin value) (s_origin s))
             (pick (ub_destination value) (s_destination s))
             (pick (ub_status value) (s_status s))
             (pick_opt (ub_estimatedDelivery value) (s_estimated_delivery s))
             (pick_opt (ub_actualDelivery value) (s_actual_delivery s))
             (pick_opt (ub_documentsUrls value) (s_documents_urls s))
             (s_created_at s) now.

(** The shipments that belong to someone else. *)
Definition shipments_of_others (uid : Z) (rows : list ShipmentRow) : list ShipmentRow :=
  filter (fun s => negb (s_user_id s =? uid)) rows.

(** The shipments a list response carries. *)
Definition listed_shipments (r : ShipResponse) : list ShipmentView :=
  match ship_json r with
  | ShipmentsListBody views _ => views
  | _ => []
  end.

Definition with_depot_clock (d : Depot) (now : Z) : Depot :=
  mkDepot (trade_agreements d) (shipments d) (depot_notifications d) now (depot_entropy d).

(** Requests served one after the other, each at its own time by its own
    caller: the response and the store after each. *)
Fixpoint serve_depot_all (calls : list (Z * ReqUser * DepotRequest)) (d : Depot)
  : list (ShipResponse * Depot) :=
  match calls with
  | [] => []
  | (at_time, user, request) :: rest =>
      let served := run_depot (depot_handler user request) (with_depot_clock d at_time) in
      served :: serve_depot_all rest (snd served)
  end.

(* ================================================================== *)
(** ** Sample data for the other routes *)

(** Stand-ins for [bcrypt] and [jsonwebtoken] in concrete runs. *)
Definition sample_hash (password : string) (salt : nat) : string :=
  ("hash:" ++ password)%string.

Definition sample_compare (password hash : string) : bool :=
  (hash =? "hash:" ++ password)%string.

Definition sample_sign (claims : JwtClaims) : string :=
  ("jwt." ++ show_number (jwt_userId claims)
          ++ match jwt_type claims with Some t => "." ++ t | None => "" end)%string.

Definition sample_verify (token : string) (now : Z) : JwtVerdict :=
  if (token =? "jwt.1")%string
  then Verified (mkJwtClaims 1 (Some "alice@trade.io"%string) None 50 (24 * 60 * 60))
  else if (token =? "jwt.1.refresh")%string
  then Verified (mkJwtClaims 1 None (Some "refresh"%string) 50 (7 * 24 * 60 * 60))
  else if (token =? "jwt.3")%string
  then Verified (mkJwtClaims 3 (Some "carol@trade.io"%string) None 50 (24 * 60 * 60))
  else JsonWebTokenError.

(** [sample_db] after three transactions of Alice and one of Bob. *)
Definition history_db : Db :=
  with_transactions sample_db
    [mkTransaction 1 "t-1" 1 1 "credit" 500 "USD" None None "completed" None 10;
     mkTransaction 2 "t-2" 1 1 "debit" 40 "USD" None None "completed" None 20;
     mkTransaction 3 "t-3" 2 2 "credit" 70 "USD" None None "completed" None 30;
     mkTransaction 4 "t-4" 1 1 "payment" 25 "USD" None None "pending" None 40].

Definition page_query (page limit : option Z) : TransactionsQuery :=
  mkTransactionsQuery page limit None None.

Definition debit_value (a : Z) : TransactionValue :=
  mkTransactionValue "debit" a "USD" None None None.

Definition alice_account : UserRow * UserExtra :=
  (alice_row, mkUserExtra "hash:wonder1" None None "Nigeria" "verified" None).

Definition carol_account : UserRow * UserExtra :=
  (mkUser 3 "u-carol" "carol@trade.io" "Carol" "Chukwu" false,
   mkUserExtra "hash:closed1" None None "Ghana" "pending" None).

(** Alice and Bob as in [sample_db], and Carol, whose account is
    deactivated; a wallet each, nobody logged in. *)
Definition sample_backend : Backend :=
  mkBackend
    [alice_account;
     (mkUser 2 "u-bob" "bob@trade.io" "Bob" "Bello" true,
      mkUserExtra "hash:builder" (Some "Bello Ltd"%string) None "Nigeria" "verified" None);
     carol_account]
    [alice_wallet; mkWallet 2 "w-bob" 2 "USD" 200 0 0 0; mkWallet 3 "w-carol" 3 "USD" 0 0 0 0]
    [] [] [] 50 0.

Definition dora_body : RegisterBody :=
  mkRegisterBody (Some "dora@trade.io"%string) (Some "s3cret!"%string)
                 (Some "Dora"%string) (Some "Dike"%string) None None None.

Definition dora_value : RegisterValue :=
  mkRegisterValue "dora@trade.io" "s3cret!" "Dora" "Dike" None None "Nigeria".

Definition alice_again : RegisterBody :=
  mkRegisterBody (Some "alice@trade.io"%string) (Some "another"%string)
                 (Some "Alice"%string) (Some "Abara"%string) None None None.

Definition login_body (email password : string) : LoginBody :=
  mkLoginBody (Some email) (Some password).

(** A day at the front door and at the ledger. *)
Definition sample_day : list (Z * BackendRequest) :=
  [(60, BRegister dora_body);
   (61, BLogin (login_body "alice@trade.io" "wonder1"));
   (62, BDemoLogin "demo@trade.io");
   (63, BLedger alice (TransferFunds (transfer_body "dora@trade.io" 300)));
   (64, BLedger alice (RecordTransaction (debit_body 2000)))].

(** Two notifications of Alice, one of them read, and an unread one of Bob. *)
Definition sample_inbox : Inbox :=
  mkInbox
    [mkInboxRow (mkNotification 1 "n-1" 1 "payment" "Debit Transaction"
                                "Your debit of $40 has been processed" JNull) 0 20;
     mkInboxRow (mkNotification 2 "n-2" 2 "payment" "Credit Transaction"
                                "Your credit of $70 has been processed" JNull) 0 30;
     mkInboxRow (mkNotification 3 "n-3" 1 "system" "Welcome"
                                "Welcome to TradeBridge" JNull) 1 5]
    50 0.

Definition unread_query : NotificationsQuery :=
  mkNotificationsQuery None None None (Some "true"%string).

Definition alice_shipment : ShipmentRow :=
  mkShipment 1 "s-1" 1 1 "TRK-0001" "DHL" "Lagos" "Accra" "pending" None None None 10 10.

Definition bob_shipment : ShipmentRow :=
  mkShipment 2 "s-2" 2 2 "TRK-0002" "Maersk" "Lagos" "Rotterdam" "in_transit"
             (Some 900) None None 20 25.

(** An agreement and a shipment of Alice, and the same of Bob. *)
Definition sample_depot : Depot :=
  mkDepot [mkTradeAgreement 1 1 "Cocoa 2024" "Abara Foods" "Accra Mills";
           mkTradeAgreement 2 2 "Steel" "Bello Ltd" "Rotterdam Steel"]
          [alice_shipment; bob_shipment] [] 50 0.

Definition reroute_body : UpdateShipmentBody :=
  mkUpdateShipmentBody (Some "TRK-0009"%string) None None (Some "Kumasi"%string)
                       (Some "in_transit"%string) None (Some 1200) None.

Definition new_shipment_body (agreement : Z) (tracking : string) : CreateShipmentBody :=
  mkCreateShipmentBody (Some agreement) (Some tracking) (Some "DHL"%string)
                       (Some "Lagos"%string) (Some "Nairobi"%string) None.

(** Requests that run into every check of the shipment routes. *)
Definition sample_shipping : list (Z * ReqUser * DepotRequest) :=
  [(60, alice, SCreate (new_shipment_body 1 "TRK-0002"));
   (61, alice, SCreate (new_shipment_body 1 "TRK-0003"));
   (62, bob, SUpdate 1 reroute_body);
   (63, alice, SUpdate 1 reroute_body);
   (64, bob, SUpdate 2 (mkUpdateShipmentBody (Some "TRK-0009"%string) None None None None
                                             None None None));
   (65, alice, TDelete 1);
   (66, alice, SDelete 1);
   (67, alice, SDelete 3);
   (68, alice, TDelete 1);
   (69, alice, SCreate (new_shipment_body 1 "TRK-0004"));
   (70, bob, SList (mkShipmentsQuery (Some 0) (Some (-5)) None (Some "%_%"%string)))].

(* ================================================================== *)
(** ** The amounts as JavaScript numbers *)

(** [wallet.balance], [wallet.frozen_balance] and the [amount] of a request
    are JavaScript numbers, that is IEEE 754 doubles, and a double is also
    what SQLite keeps for a [DECIMAL(15,2)] value that is not a whole
    number.  This module embeds [router.post('/transactions')] once more,
    statement by statement as [recordTransaction] above, with these amounts
    as doubles: [<], [-] and [+=] are the operations of the doubles.  A
    number of a JSON body is finite. *)
Module Doubles.
Import PrimFloat.

Record WalletRow : Type := mkWallet {
  w_id : Z;
  w_uuid : string;
  w_user_id : Z;
  w_currency : string;
  w_balance : float;
  w_frozen_balance : float;
  w_created_at : Z;
  w_updated_at : Z
}.

Record TransactionRow : Type := mkTransaction {
  t_id : Z;
  t_uuid : string;
  t_wallet_id : Z;
  t_user_id : Z;
  t_type : string;
  t_amount : float;
  t_currency : string;
  t_description : option string;
  t_reference : option string;
  t_status : string;
  t_metadata : option Json;
  t_created_at : Z
}.

(** A member of the object that the route stringifies into
    [notifications.metadata]. *)
Inductive Member : Type :=
| MInt (z : Z)
| MNum (x : float)
| MStr (s : string).

Record NotificationRow : Type := mkNotification {
  n_id : Z;
  n_uuid : string;
  n_user_id : Z;
  n_type : string;
  n_title : string;
  n_message : string;
  n_metadata : list (string * Member)
}.

(** The three tables the route touches, the clock and the randomness. *)
Record Db : Type := mkDb {
  wallets : list WalletRow;
  transactions : list TransactionRow;
  notifications : list NotificationRow;
  clock : Z;
  entropy : nat
}.

Inductive Query : Type -> Type :=
(** [SELECT * FROM wallets WHERE user_id = ?] *)
| SelectWalletByUserId (user_id : Z) : Query (option WalletRow)
(** [INSERT INTO transactions (uuid, wallet_id, user_id, type, amount,
     currency, description, reference, status, metadata) VALUES (...)] *)
| InsertTransaction (uuid : string) (wallet_id user_id : Z) (type : string)
    (amount : float) (currency : string) (description reference : option string)
    (status : string) (metadata : option Json) : Query RunResult
(** [UPDATE wallets SET balance = ?, updated_at = CURRENT_TIMESTAMP WHERE id = ?] *)
| UpdateWalletBalance (balance : float) (wallet_id : Z) : Query RunResult
(** [UPDATE transactions SET status = ? WHERE id = ?] *)
| UpdateTransactionStatus (status : string) (transaction_id : Z) : Query RunResult
(** [SELECT * FROM transactions WHERE id = ?] *)
| SelectTransactionById (transaction_id : Z) : Query (option TransactionRow)
(** [INSERT INTO notifications (uuid, user_id, type, title, message, metadata)
     VALUES (...)] *)
| InsertNotification (uuid : string) (user_id : Z) (type title message : string)
    (metadata : list (string * Member)) : Query RunResult
(** [uuidv4()] *)
| Uuidv4 : Query string.

Definition set_balance (b : float) (now : Z) (w : WalletRow) : WalletRow :=
  mkWallet (w_id w) (w_uuid w) (w_user_id w) (w_currency w) b
           (w_frozen_balance w) (w_created_at w) now.

Definition set_status (s : string) (t : TransactionRow) : TransactionRow :=
  mkTransaction (t_id t) (t_uuid t) (t_wallet_id t) (t_user_id t) (t_type t)
                (t_amount t) (t_currency t) (t_description t) (t_reference t)
                s (t_metadata t) (t_created_at t).

Definition with_wallets (db : Db) (ws : list WalletRow) : Db :=
  mkDb ws (transactions db) (notifications db) (clock db) (entropy db).

Definition with_transactions (db : Db) (ts : list TransactionRow) : Db :=
  mkDb (wallets db) ts (notifications db) (clock db) (entropy db).

Definition with_notifications (db : Db) (ns : list NotificationRow) : Db :=
  mkDb (wallets db) (transactions db) ns (clock db) (entropy db).

Definition wallet_of_user (uid : Z) (rows : list WalletRow) : option WalletRow :=
  find (fun w => w_user_id w =? uid) rows.

Definition transaction_by_id (tid : Z) (rows : list TransactionRow) : option TransactionRow :=
  find (fun t => t_id t =? tid) rows.

Definition exec {A} (q : Query A) (db : Db) : A * Db :=
  match q in Query T return T * Db with
  | SelectWalletByUserId uid => (wallet_of_user uid (wallets db), db)
  | InsertTransaction uuid wid uid type amount currency description reference status metadata =>
      let rowid := next_rowid t_id (transactions db) in
      (mkRunResult rowid 1,
       with_transactions db
         (transactions db ++
          [mkTransaction rowid uuid wid uid type amount currency description
                         reference status metadata (clock db)]))
  | UpdateWalletBalance b wid =>
      (mkRunResult 0 (count_where w_id wid (wallets db)),
       with_wallets db (update_where w_id wid (set_balance b (clock db)) (wallets db)))
  | UpdateTransactionStatus s tid =>
      (mkRunResult 0 (count_where t_id tid (transactions db)),
       with_transactions db (update_where t_id tid (set_status s) (transactions db)))
  | SelectTransactionById tid => (transaction_by_id tid (transactions db), db)
  | InsertNotification uuid uid type title message metadata =>
      let rowid := next_rowid n_id (notifications db) in
      (mkRunResult rowid 1,
       with_notifications db
         (notifications db ++ [mkNotification rowid uuid uid type title message metadata]))
  | Uuidv4 =>
      (uuid_of (entropy db),
       mkDb (wallets db) (transactions db) (notifications db) (clock db) (S (entropy db)))
  end.

(** Run to completion, every statement succeeding. *)
Definition run {R} (p : Script Query R) (db : Db) : R * Db :=
  run_script (@exec) p db.

(** Body of [POST /transactions]; [None] is an absent key. *)
Record TransactionBody : Type := mkTransactionBody {
  tb_type : option string;
  tb_amount : option float;
  tb_currency : option string;
  tb_description : option string;
  tb_reference : option string;
  tb_metadata : option (list (string * Json))
}.

(** The validated [value] of [createTransactionSchema], defaults applied. *)
Record TransactionValue : Type := mkTransactionValue {
  type : string;
  amount : float;
  currency : string;
  description : option string;
  reference : option string;
  metadata : option (list (string * Json))
}.

Record TransactionView : Type := mkTransactionView {
  tv_id : Z;
  tv_uuid : string;
  tv_type : string;
  tv_amount : float;
  tv_currency : string;
  tv_description : option string;
  tv_reference : option string;
  tv_status : string;
  tv_metadata : option Json;
  tv_createdAt : Z
}.

Inductive Body : Type :=
| ErrorBody (error code : string)
| ValidationErrorBody (error : JoiError) (code : string)
| InsufficientBalanceBody (error code : string) (availableBalance : float)
| TransactionCreatedBody (message : string) (transaction : TransactionView)
    (newBalance : float).

Record Response : Type := mkResponse { status : Z; json : Body }.

(** [Number.MAX_SAFE_INTEGER] *)
Definition max_safe_integer : float := 9007199254740991%float.

(** [Joi.number().positive().required()] *)
Definition joi_positive_number (k : string) (v : option float) : JoiError + float :=
  match v with
  | None => inl (mkJoiError k "any.required")
  | Some a =>
      if (abs a <=? max_safe_integer)%float
      then if (0 <? a)%float then inr a else inl (mkJoiError k "number.positive")
      else inl (mkJoiError k "number.unsafe")
  end.

Definition createTransactionSchema (body : TransactionBody) : JoiError + TransactionValue :=
  match joi_type "type" (tb_type body) with
  | inl e => inl e
  | inr type =>
  match joi_positive_number "amount" (tb_amount body) with
  | inl e => inl e
  | inr amount =>
  match joi_currency "currency" (tb_currency body) with
  | inl e => inl e
  | inr currency =>
  match joi_optional_string "description" 200 (tb_description body) with
  | inl e => inl e
  | inr description =>
  match joi_optional_string "reference" 100 (tb_reference body) with
  | inl e => inl e
  | inr reference =>
      inr (mkTransactionValue type amount currency description reference (tb_metadata body))
  end end end end end.

Definition transaction_view (t : TransactionRow) : TransactionView :=
  mkTransactionView (t_id t) (t_uuid t) (t_type t) (t_amount t) (t_currency t)
                    (t_description t) (t_reference t) (t_status t) (t_metadata t)
                    (t_created_at t).

Definition create_error : Response :=
  mkResponse 500 (ErrorBody "Failed to create transaction" "CREATE_ERROR").

Section Route.

(** How a template literal prints a number ([Number.prototype.toString]). *)
Variable show_double : float -> string.

(** [router.post('/transactions')] *)
Definition recordTransaction (user : ReqUser) (body : TransactionBody)
  : Script Query Response :=
  match createTransactionSchema body with
  | inl error => Done (mkResponse 400 (ValidationErrorBody error "VALIDATION_ERROR"))
  | inr value =>
      let type := type value in
      let amount := amount value in
      let currency := currency value in
      wallet <~ SelectWalletByUserId (req_id user) ;;
      match wallet with
      | None => Done (mkResponse 404 (ErrorBody "Wallet not found" "WALLET_NOT_FOUND"))
      | Some wallet =>
          let proceed :=
            transactionUuid <~ Uuidv4 ;;
            result <~ InsertTransaction transactionUuid (w_id wallet) (req_id user)
                        type amount currency (description value) (reference value)
                        "pending" (option_map JObj (metadata value)) ;;
            let newBalance :=
              if (type =? "credit")%string then (w_balance wallet + amount)%float
              else if is_debit_type type then (w_balance wallet - amount)%float
              else w_balance wallet in
            _ <~ UpdateWalletBalance newBalance (w_id wallet) ;;
            _ <~ UpdateTransactionStatus "completed" (id result) ;;
            transaction <~ SelectTransactionById (id result) ;;
            match transaction with
            | None => Done create_error
            | Some transaction =>
                notificationUuid <~ Uuidv4 ;;
                _ <~ InsertNotification notificationUuid (req_id user) "payment"
                       "Transaction Completed"
                       (capitalize type ++ " transaction of " ++ currency ++ " "
                          ++ show_double amount ++ " completed")
                       [("transactionId", MInt (t_id transaction));
                        ("transactionUuid", MStr transactionUuid);
                        ("type", MStr type);
                        ("amount", MNum amount);
                        ("currency", MStr currency)]%string ;;
                Done (mkResponse 201
                        (TransactionCreatedBody "Transaction created successfully"
                           (transaction_view transaction) newBalance))
            end in
          if is_debit_type type then
            let availableBalance := (w_balance wallet - w_frozen_balance wallet)%float in
            if (availableBalance <? amount)%float then
              Done (mkResponse 400
                      (InsufficientBalanceBody "Insufficient balance" "INSUFFICIENT_BALANCE"
                                               availableBalance))
            else proceed
          else proceed
      end
  end.

End Route.

Definition availableBalance (w : WalletRow) : float :=
  (w_balance w - w_frozen_balance w)%float.

(** [availableBalance = balance - frozenBalance >= 0] *)
Definition wallet_invariant (w : WalletRow) : Prop :=
  (0 <=? availableBalance w)%float = true.

Definition ledger_invariant (db : Db) : Prop := Forall wallet_invariant (wallets db).

(** The stored balance of the wallet the route picks for a user. *)
Definition stored_balance (uid : Z) (db : Db) : option float :=
  option_map w_balance (wallet_of_user uid (wallets db)).

(** The doubles nearest to 0.7, 0.1 and 0.6: what [JSON.parse] and SQLite
    make of these decimals. *)
Definition seven_tenths : float := 0x1.6666666666666p-1%float.
Definition one_tenth : float := 0x1.999999999999ap-4%float.
Definition six_tenths : float := 0x1.3333333333333p-1%float.

(** The double below [one_tenth] by two units in the last place, printed
    0.09999999999999998. *)
Definition under_one_tenth : float := 0x1.9999999999998p-4%float.

(** Alice's wallet holds 0.70 of which 0.10 is frozen. *)
Definition frozen_db : Db :=
  mkDb [mkWallet 1 "w-alice" 1 "USD" seven_tenths one_tenth 0 0] [] [] 100 0.

(** Alice's wallet holds 1000.50, nothing frozen. *)
Definition plain_db : Db :=
  mkDb [mkWallet 1 "w-alice" 1 "USD" 1000.5%float 0%float 0 0] [] [] 100 0.

Definition debit_body (a : float) : TransactionBody :=
  mkTransactionBody (Some "debit"%string) (Some a) None None None None.

End Doubles.

(* ================================================================== *)
(** ** Basic facts about tables *)

(** Unfold one layer of a handler run without touching the table functions. *)
Ltac run_step :=
  cbn [run trace exec fst snd id changes users wallets transactions notifications
       clock entropy with_wallets with_transactions with_notifications with_clock
       type amount currency description reference metadata
       recipientEmail transfer_amount transfer_currency transfer_description].

Lemma next_rowid_fresh {A} (key : A -> Z) (rows : list A) (r : A) :
  In r rows -> key r < next_rowid key rows.
Proof.
  unfold next_rowid. induction rows as [|x rows IH]; simpl; [tauto|].
  intros [->|Hin]; [lia|]. specialize (IH Hin). lia.
Qed.

Lemma update_where_fresh {A} (key : A -> Z) (k : Z) (f : A -> A) (rows : list A) :
  (forall r, In r rows -> key r <> k) -> update_where key k f rows = rows.
Proof.
  unfold update_where. induction rows as [|x rows IH]; simpl; intros H; [reflexivity|].
  destruct (Z.eqb_spec (key x) k) as [E|_].
  - exfalso. apply (H x); auto.
  - f_equal. apply IH. intros r Hr. apply H. auto.
Qed.

Lemma update_where_app {A} (key : A -> Z) (k : Z) (f : A -> A) (l1 l2 : list A) :
  update_where key k f (l1 ++ l2) = update_where key k f l1 ++ update_where key k f l2.
Proof. unfold update_where. apply map_app. Qed.

Lemma update_where_keys (k b now : Z) (rows : list WalletRow) :
  map w_id (update_where w_id k (set_balance b now) rows) = map w_id rows.
Proof.
  unfold update_where. rewrite map_map. apply map_ext. intros w.
  destruct (w_id w =? k); reflexivity.
Qed.

Lemma update_where_origin (k b now : Z) (rows : list WalletRow) (x' : WalletRow) :
  In x' (update_where w_id k (set_balance b now) rows) ->
  exists x, In x rows /\ w_id x' = w_id x /\ w_frozen_balance x' = w_frozen_balance x
            /\ w_user_id x' = w_user_id x.
Proof.
  unfold update_where. rewrite in_map_iff. intros [x [E Hin]]. exists x.
  destruct (w_id x =? k); subst x'; auto.
Qed.

Lemma primary_key_unique {A} (key : A -> Z) (rows : list A) (x y : A) :
  NoDup (map key rows) -> In x rows -> In y rows -> key x = key y -> x = y.
Proof.
  induction rows as [|r rows IH]; simpl; [tauto|].
  intros Hnd Hx Hy E. inversion Hnd as [|? ? Hnotin Hnd']; subst.
  destruct Hx as [->|Hx], Hy as [->|Hy]; auto.
  - exfalso. apply Hnotin. rewrite E. apply in_map. exact Hy.
  - exfalso. apply Hnotin. rewrite <- E. apply in_map. exact Hx.
Qed.

Lemma wallet_of_user_In (uid : Z) (rows : list WalletRow) (w : WalletRow) :
  wallet_of_user uid rows = Some w -> In w rows /\ w_user_id w = uid.
Proof.
  unfold wallet_of_user. intros H. apply find_some in H. destruct H as [Hin E].
  split; [exact Hin|]. apply Z.eqb_eq. exact E.
Qed.

Lemma update_balance_invariant (k b now : Z) (rows : list WalletRow) :
  (forall x, In x rows -> w_id x = k -> 0 <= b - w_frozen_balance x) ->
  Forall wallet_invariant rows ->
  Forall wallet_invariant (update_where w_id k (set_balance b now) rows).
Proof.
  intros Hk Hinv. unfold update_where. rewrite Forall_forall in *.
  intros x' Hin. rewrite in_map_iff in Hin. destruct Hin as [x [E Hin]].
  destruct (Z.eqb_spec (w_id x) k) as [Ek|_]; subst x'.
  - unfold wallet_invariant, availableBalance. simpl. apply Hk; assumption.
  - apply Hinv. exact Hin.
Qed.

(* ================================================================== *)
(** ** What validation guarantees *)

Lemma joi_positive_number_inr (k : string) (v : option Z) (a : Z) :
  joi_positive_number k v = inr a -> v = Some a /\ 0 < a.
Proof.
  unfold joi_positive_number. destruct v as [x|]; [|discriminate].
  destruct (Z.abs x <=? 9007199254740991); [|discriminate].
  destruct (Z.ltb_spec 0 x); [|discriminate]. intros [= <-]. auto.
Qed.

Lemma joi_currency_inr (k : string) (v : option string) (c : string) :
  joi_currency k v = inr c ->
  String.length c = 3%nat /\ (v = Some c \/ v = None /\ c = "USD"%string).
Proof.
  unfold joi_currency. destruct v as [s|].
  - destruct (s =? "")%string; [discriminate|].
    destruct (Nat.eqb_spec (String.length s) 3); [|discriminate].
    intros [= <-]. auto.
  - intros [= <-]. auto.
Qed.

Lemma joi_type_inr (k : string) (v : option string) (t : string) :
  joi_type k v = inr t -> v = Some t /\ In t transaction_types.
Proof.
  unfold joi_type. destruct v as [s|]; [|discriminate].
  destruct (existsb (String.eqb s) transaction_types) eqn:E; [|discriminate].
  intros [= <-]. split; [reflexivity|].
  apply existsb_exists in E. destruct E as [x [Hin Hx]].
  apply String.eqb_eq in Hx. subst x. exact Hin.
Qed.

Lemma createTransactionSchema_inr (body : TransactionBody) (value : TransactionValue) :
  createTransactionSchema body = inr value ->
  tb_type body = Some (type value) /\ In (type value) transaction_types /\
  tb_amount body = Some (amount value) /\ 0 < amount value /\
  String.length (currency value) = 3%nat /\
  (tb_currency body = Some (currency value) \/
   tb_currency body = None /\ currency value = "USD"%string).
Proof.
  unfold createTransactionSchema.
  destruct (joi_type "type" (tb_type body)) as [?|t] eqn:Et; [discriminate|].
  destruct (joi_positive_number "amount" (tb_amount body)) as [?|a] eqn:Ea; [discriminate|].
  destruct (joi_currency "currency" (tb_currency body)) as [?|c] eqn:Ec; [discriminate|].
  destruct (joi_optional_string "description" 200 (tb_description body)); [discriminate|].
  destruct (joi_optional_string "reference" 100 (tb_reference body)); [discriminate|].
  intros [= <-]. simpl.
  apply joi_type_inr in Et. apply joi_positive_number_inr in Ea.
  apply joi_currency_inr in Ec. tauto.
Qed.

Lemma transferSchema_inr (is_email : string -> bool) (body : TransferBody)
      (value : TransferValue) :
  transferSchema is_email body = inr value ->
  0 < transfer_amount value /\ String.length (transfer_currency value) = 3%nat /\
  (fb_currency body = Some (transfer_currency value) \/
   fb_currency body = None /\ transfer_currency value = "USD"%string).
Proof.
  unfold transferSchema.
  destruct (joi_email is_email "recipientEmail" (fb_recipientEmail body)); [discriminate|].
  destruct (joi_positive_number "amount" (fb_amount body)) as [?|a] eqn:Ea; [discriminate|].
  destruct (joi_currency "currency" (fb_currency body)) as [?|c] eqn:Ec; [discriminate|].
  destruct (joi_optional_string "description" 200 (fb_description body)); [discriminate|].
  intros [= <-]. simpl.
  apply joi_positive_number_inr in Ea. apply joi_currency_inr in Ec. tauto.
Qed.

(* ================================================================== *)
(** ** The effect of each route on the wallets table *)

Lemma recordTransaction_wallets (user : ReqUser) (body : TransactionBody) (db : Db) :
  wallets (snd (run (recordTransaction user body) db)) = wallets db \/
  exists value w,
    createTransactionSchema body = inr value /\
    wallet_of_user (req_id user) (wallets db) = Some w /\
    (is_debit_type (type value) = true -> amount value <= availableBalance w) /\
    wallets (snd (run (recordTransaction user body) db)) =
      update_where w_id (w_id w)
        (set_balance (newBalance_of (type value) (amount value) w) (clock db)) (wallets db).
Proof.
  unfold recordTransaction.
  destruct (createTransactionSchema body) as [e|value] eqn:Ev; [left; reflexivity|].
  run_step. destruct (wallet_of_user (req_id user) (wallets db)) as [w|] eqn:Ew;
    [|left; reflexivity].
  destruct (is_debit_type (type value)) eqn:Ed.
  - destruct (Z.ltb_spec (w_balance w - w_frozen_balance w) (amount value)) as [Hlt|Hge];
      [left; reflexivity|].
    right. exists value, w. split; [reflexivity|]. split; [reflexivity|].
    split; [intros _; exact Hge|].
    run_step. destruct (transaction_by_id _ _); run_step; unfold newBalance_of;
      rewrite Ed; reflexivity.
  - right. exists value, w. split; [reflexivity|]. split; [reflexivity|].
    split; [congruence|].
    run_step. destruct (transaction_by_id _ _); run_step; unfold newBalance_of;
      rewrite Ed; reflexivity.
Qed.

Lemma transferFunds_wallets (is_email : string -> bool) (user : ReqUser)
      (body : TransferBody) (db : Db) :
  wallets (snd (run (transferFunds is_email user body) db)) = wallets db \/
  exists value sw r rw,
    transferSchema is_email body = inr value /\
    wallet_of_user (req_id user) (wallets db) = Some sw /\
    transfer_amount value <= availableBalance sw /\
    active_user_by_email (recipientEmail value) (users db) = Some r /\
    wallet_of_user (u_id r) (wallets db) = Some rw /\
    wallets (snd (run (transferFunds is_email user body) db)) =
      update_where w_id (w_id rw)
        (set_balance (w_balance rw + transfer_amount value) (clock db))
        (update_where w_id (w_id sw)
           (set_balance (w_balance sw - transfer_amount value) (clock db)) (wallets db)).
Proof.
  unfold transferFunds.
  destruct (transferSchema is_email body) as [e|value] eqn:Ev; [left; reflexivity|].
  run_step.
  destruct (wallet_of_user (req_id user) (wallets db)) as [sw|] eqn:Esw; [|left; reflexivity].
  destruct (Z.ltb_spec (w_balance sw - w_frozen_balance sw) (transfer_amount value))
    as [Hlt|Hge]; [left; reflexivity|].
  run_step.
  destruct (active_user_by_email (recipientEmail value) (users db)) as [r|] eqn:Er;
    [|left; reflexivity].
  run_step.
  destruct (wallet_of_user (u_id r) (wallets db)) as [rw|] eqn:Erw; [|left; reflexivity].
  right. exists value, sw, r, rw. repeat (split; [first [reflexivity | assumption]|]).
  reflexivity.
Qed.

(** Each route keeps the primary key and the ledger invariant. *)
Lemma recordTransaction_preserves (user : ReqUser) (body : TransactionBody) (db : Db) :
  wallets_primary_key db -> ledger_invariant db ->
  wallets_primary_key (snd (run (recordTransaction user body) db)) /\
  ledger_invariant (snd (run (recordTransaction user body) db)).
Proof.
  unfold wallets_primary_key, ledger_invariant. intros Hpk Hinv.
  destruct (recordTransaction_wallets user body db) as [E|(value & w & Ev & Ew & Hok & E)];
    rewrite E; [auto|].
  split; [rewrite update_where_keys; exact Hpk|].
  apply update_balance_invariant; [|exact Hinv].
  intros x Hx Ex. apply wallet_of_user_In in Ew. destruct Ew as [Hw _].
  assert (x = w) by (eapply primary_key_unique; eauto). subst x.
  apply createTransactionSchema_inr in Ev. destruct Ev as (_ & _ & _ & Hpos & _ & _).
  rewrite Forall_forall in Hinv. specialize (Hinv w Hw).
  unfold wallet_invariant, availableBalance in *. unfold newBalance_of.
  destruct (type value =? "credit")%string; [lia|].
  destruct (is_debit_type (type value)); [specialize (Hok eq_refl)|]; lia.
Qed.

Lemma transferFunds_preserves (is_email : string -> bool) (user : ReqUser)
      (body : TransferBody) (db : Db) :
  wallets_primary_key db -> ledger_invariant db ->
  wallets_primary_key (snd (run (transferFunds is_email user body) db)) /\
  ledger_invariant (snd (run (transferFunds is_email user body) db)).
Proof.
  unfold wallets_primary_key, ledger_invariant. intros Hpk Hinv.
  destruct (transferFunds_wallets is_email user body db)
    as [E|(value & sw & r & rw & Ev & Esw & Hok & Er & Erw & E)]; rewrite E; [auto|].
  split; [rewrite !update_where_keys; exact Hpk|].
  apply transferSchema_inr in Ev. destruct Ev as (Hpos & _ & _).
  apply wallet_of_user_In in Esw. destruct Esw as [Hsw _].
  apply wallet_of_user_In in Erw. destruct Erw as [Hrw _].
  pose proof Hinv as Hall. rewrite Forall_forall in Hall.
  apply update_balance_invariant.
  - intros x' Hx' Ex'. apply update_where_origin in Hx'.
    destruct Hx' as (x & Hx & Eid & Efr & _).
    assert (x = rw) by (eapply primary_key_unique; eauto; congruence). subst x.
    rewrite Efr. specialize (Hall rw Hrw).
    unfold wallet_invariant, availableBalance in Hall. lia.
  - apply update_balance_invariant; [|exact Hinv].
    intros x Hx Ex.
    assert (x = sw) by (eapply primary_key_unique; eauto). subst x.
    unfold availableBalance in Hok. lia.
Qed.

Lemma getBalance_db (user : ReqUser) (db : Db) : snd (run (getBalance user) db) = db.
Proof.
  unfold getBalance. run_step. destruct (wallet_of_user _ _); reflexivity.
Qed.

Lemma getStats_db (user : ReqUser) (db : Db) : snd (run (getStats user) db) = db.
Proof.
  unfold getStats. run_step. destruct (wallet_of_user _ _); reflexivity.
Qed.

Lemma serve_preserves (is_email : string -> bool) (c : Call) (db : Db) :
  wallets_primary_key db -> ledger_invariant db ->
  wallets_primary_key (snd (serve is_email c db)) /\
  ledger_invariant (snd (serve is_email c db)).
Proof.
  intros Hpk Hinv. unfold serve, handler.
  assert (Hpk' : wallets_primary_key (with_clock db (at_time c))) by exact Hpk.
  assert (Hinv' : ledger_invariant (with_clock db (at_time c))) by exact Hinv.
  destruct (request c).
  - apply recordTransaction_preserves; assumption.
  - apply transferFunds_preserves; assumption.
  - rewrite getBalance_db. auto.
  - rewrite getStats_db. auto.
Qed.

(** On exact amounts sequential execution keeps the wallet invariant:
    starting from a store whose wallets have distinct ids and satisfy
    [availableBalance = balance - frozenBalance >= 0], the store reached
    after each call of any sequence of [recordTransaction] and
    [transferFunds] calls (reads may be mixed in) satisfies it again.  This
    is the arithmetic of the [DECIMAL(15,2)] columns, not that of the
    JavaScript numbers the routes compute with, for which see the module
    [Doubles] and the section that follows. *)
Theorem ledger_invariant_sequential (is_email : string -> bool) (calls : list Call) (db : Db) :
  wallets_primary_key db -> ledger_invariant db ->
  Forall ledger_invariant (serve_all is_email calls db).
Proof.
  revert db. induction calls as [|c calls IH]; intros db Hpk Hinv; simpl.
  - constructor.
  - destruct (serve_preserves is_email c Hpk Hinv) as [Hpk' Hinv'].
    constructor; [exact Hinv'|]. apply IH; assumption.
Qed.

Section DoubleArithmetic.
Import PrimFloat.

(** On amounts that doubles hold exactly the route in doubles does what it
    does on exact amounts: a debit of 600.25 from a wallet holding 1000.50
    with nothing frozen is accepted and leaves 400.25. *)
Example debit_in_doubles_exact (show_double : float -> string) :
  let out := Doubles.run (Doubles.recordTransaction show_double alice
                            (Doubles.debit_body 600.25%float)) Doubles.plain_db in
  Doubles.status (fst out) = 201 /\
  Doubles.stored_balance 1 (snd out) = Some 400.25%float /\
  Doubles.ledger_invariant (snd out).
Proof.
  split; [reflexivity|]. split; [reflexivity|].
  repeat constructor.
Qed.

(** A debit above the available balance is refused in doubles too. *)
Example debit_in_doubles_refused (show_double : float -> string) :
  Doubles.run (Doubles.recordTransaction show_double alice
                 (Doubles.debit_body Doubles.seven_tenths)) Doubles.frozen_db =
  (Doubles.mkResponse 400
     (Doubles.InsufficientBalanceBody "Insufficient balance" "INSUFFICIENT_BALANCE"
        (Doubles.seven_tenths - Doubles.one_tenth)%float),
   Doubles.frozen_db).
Proof. reflexivity. Qed.

(** C1 fails on the code, which computes in doubles.  Alice's wallet holds
    0.70 of which 0.10 is frozen, so it satisfies
    [availableBalance = balance - frozenBalance >= 0].  She debits 0.60.  In
    doubles [0.7 - 0.1] is not below [0.6], so the check of
    [router.post('/transactions')] passes and the route answers 201; the
    balance it stores is [0.7 - 0.6], the double printed
    0.09999999999999998, which is less than the frozen 0.1: after this
    committed operation [balance - frozenBalance] is negative (it is
    [-2^-55]) and the invariant is broken. *)
Theorem debit_in_doubles_overdraws (show_double : float -> string) :
  let out := Doubles.run (Doubles.recordTransaction show_double alice
                            (Doubles.debit_body Doubles.six_tenths)) Doubles.frozen_db in
  Doubles.ledger_invariant Doubles.frozen_db /\
  (Doubles.seven_tenths - Doubles.one_tenth <? Doubles.six_tenths)%float = false /\
  Doubles.status (fst out) = 201 /\
  map Doubles.t_status (Doubles.transactions (snd out)) = ["completed"%string] /\
  Doubles.stored_balance 1 (snd out) = Some Doubles.under_one_tenth /\
  (Doubles.under_one_tenth <? Doubles.one_tenth)%float = true /\
  map Doubles.availableBalance (Doubles.wallets (snd out)) = [(- 0x1p-55)%float] /\
  ~ Doubles.ledger_invariant (snd out).
Proof.
  split; [repeat constructor|].
  do 6 (split; [reflexivity|]).
  intro H. inversion H as [|w ws Hw _]. discriminate Hw.
Qed.

End DoubleArithmetic.

(* ================================================================== *)
(** ** Rejected requests *)

(** C5. A [recordTransaction] call whose amount is not positive, whose kind
    is outside credit/debit/transfer/payment, or whose currency code does
    not have three characters is answered 400 [VALIDATION_ERROR]; no
    statement is issued at all, so the store (and every balance in it) is
    unchanged. *)
Theorem recordTransaction_validation_error (user : ReqUser) (body : TransactionBody) (db : Db) :
  (exists a, tb_amount body = Some a /\ a <= 0) \/
  (exists k, tb_type body = Some k /\ ~ In k transaction_types) \/
  (exists c, tb_currency body = Some c /\ String.length c <> 3%nat) ->
  exists e,
    run (recordTransaction user body) db =
      (mkResponse 400 (ValidationErrorBody e "VALIDATION_ERROR"), db) /\
    trace (recordTransaction user body) db = [].
Proof.
  intros Hbad. unfold recordTransaction.
  destruct (createTransactionSchema body) as [e|value] eqn:Ev.
  - exists e. split; reflexivity.
  - exfalso. apply createTransactionSchema_inr in Ev.
    destruct Ev as (Et & Hin & Ea & Hpos & Hlen & Ec).
    destruct Hbad as [(a & Ha & Hle)|[(k & Hk & Hnot)|(c & Hc & Hne)]].
    + rewrite Ea in Ha. injection Ha as <-. lia.
    + rewrite Et in Hk. injection Hk as <-. contradiction.
    + destruct Ec as [Ec|[Ec _]]; rewrite Ec in Hc; [|discriminate].
      injection Hc as <-. contradiction.
Qed.

(** C4. A [recordTransaction] call of kind debit, transfer or payment that
    passes validation and asks for more than the wallet's available balance
    is answered 400 [INSUFFICIENT_BALANCE] carrying that available balance;
    the only statement issued is the wallet read, and the store is
    unchanged. *)
Theorem recordTransaction_insufficient_balance
        (user : ReqUser) (body : TransactionBody) (db : Db)
        (value : TransactionValue) (wallet : WalletRow) :
  createTransactionSchema body = inr value ->
  In (type value) ["debit"; "transfer"; "payment"]%string ->
  wallet_of_user (req_id user) (wallets db) = Some wallet ->
  availableBalance wallet < amount value ->
  run (recordTransaction user body) db =
    (mkResponse 400 (InsufficientBalanceBody "Insufficient balance" "INSUFFICIENT_BALANCE"
                                             (availableBalance wallet)), db) /\
  trace (recordTransaction user body) db = [db].
Proof.
  intros Ev Hkind Ew Hlt. unfold recordTransaction. rewrite Ev. run_step. rewrite Ew.
  assert (Ed : is_debit_type (type value) = true).
  { simpl in Hkind. destruct Hkind as [<-|[<-|[<-|[]]]]; reflexivity. }
  rewrite Ed. unfold availableBalance in *.
  destruct (Z.ltb_spec (w_balance wallet - w_frozen_balance wallet) (amount value)); [|lia].
  split; reflexivity.
Qed.

(** C6. [transferFunds] checks, in this order: the request body, the
    sender's wallet, the sender's available balance, the recipient among the
    active users, the recipient's wallet.  The first check that fails decides
    the typed error of the response (so an insufficient balance is reported
    whether or not the recipient exists), the statements issued up to there
    are reads that leave the store as it was, and the store after the call
    is the store before it.  When no check fails the call is answered 200
    and exactly two transaction rows are added. *)
Theorem transferFunds_first_failure (is_email : string -> bool) (user : ReqUser)
        (body : TransferBody) (db : Db) :
  match transfer_first_failure is_email user body db with
  | Some f =>
      run (transferFunds is_email user body) db = (failure_response f, db) /\
      Forall (eq db) (trace (transferFunds is_email user body) db)
  | None =>
      status (fst (run (transferFunds is_email user body) db)) = 200 /\
      exists leg1 leg2,
        transactions (snd (run (transferFunds is_email user body) db)) =
          transactions db ++ [leg1; leg2]
  end.
Proof.
  unfold transfer_first_failure, transferFunds.
  destruct (transferSchema is_email body) as [e|value]; [split; [reflexivity|constructor]|].
  run_step.
  destruct (wallet_of_user (req_id user) (wallets db)) as [sw|];
    [|split; [reflexivity|repeat constructor]].
  unfold availableBalance.
  destruct (w_balance sw - w_frozen_balance sw <? transfer_amount value);
    [split; [reflexivity|repeat constructor]|].
  run_step.
  destruct (active_user_by_email (recipientEmail value) (users db)) as [r|];
    [|split; [reflexivity|repeat constructor]].
  run_step.
  destruct (wallet_of_user (u_id r) (wallets db)) as [rw|];
    [|split; [reflexivity|repeat constructor]].
  split; [reflexivity|]. run_step. do 2 eexists. rewrite <- app_assoc. reflexivity.
Qed.

(* ================================================================== *)
(** ** Transfers *)

Lemma wallet_of_user_update (uid k b now : Z) (rows : list WalletRow) :
  wallet_of_user uid (update_where w_id k (set_balance b now) rows) =
  option_map (fun w => if w_id w =? k then set_balance b now w else w)
             (wallet_of_user uid rows).
Proof.
  unfold wallet_of_user, update_where.
  induction rows as [|x rows IH]; simpl; [reflexivity|].
  assert (E : w_user_id (if w_id x =? k then set_balance b now x else x) = w_user_id x)
    by (destruct (w_id x =? k); reflexivity).
  rewrite E. destruct (w_user_id x =? uid); [reflexivity|exact IH].
Qed.

(** Walk a transfer whose checks all pass down to its writes. *)
Ltac accept_transfer Ev Esw Hok Er Erw :=
  unfold transferFunds; rewrite Ev; run_step; rewrite Esw;
  unfold availableBalance in Hok;
  match goal with
  | |- context [?x <? ?y] => destruct (Z.ltb_spec x y); [lia|]
  end;
  run_step; rewrite Er; run_step; rewrite Erw; run_step.



(** C2, at a self-transfer.  Alice (balance 1000) transfers 300 to her own
    e-mail address: the call completes with status 200 and reports the new
    balance 700 = 1000 - 300, but the balance stored for her afterwards is
    1300; both legs carry the correlation reference of the response. *)
Theorem self_transfer_stored_balance_disagrees :
  let out := run (transferFunds has_at alice (transfer_body "alice@trade.io" 300)) sample_db in
  stored_balance (req_id alice) sample_db = Some 1000 /\
  status (fst out) = 200 /\
  (exists view, json (fst out) =
     TransferCompletedBody "Transfer completed successfully" view (1000 - 300)) /\
  stored_balance (req_id alice) (snd out) = Some 1300 /\
  map t_reference (transactions (snd out)) = [Some "uuid-0"; Some "uuid-0"]%string.
Proof.
  vm_compute. repeat split. eexists. reflexivity.
Qed.

(* ================================================================== *)
(** ** Currencies *)





(* ================================================================== *)
(** ** Accepted [recordTransaction] calls *)

Lemma update_fresh_row (s : string) (rows : list TransactionRow) (r : TransactionRow) :
  t_id r = next_rowid t_id rows ->
  update_where t_id (next_rowid t_id rows) (set_status s) (rows ++ [r]) =
  rows ++ [set_status s r].
Proof.
  intros E. rewrite update_where_app. f_equal.
  - apply update_where_fresh. intros x Hx. pose proof (next_rowid_fresh t_id rows x Hx). lia.
  - unfold update_where. simpl. rewrite E, Z.eqb_refl. reflexivity.
Qed.

Lemma transaction_by_id_fresh (rows : list TransactionRow) (r : TransactionRow) :
  t_id r = next_rowid t_id rows ->
  transaction_by_id (next_rowid t_id rows) (rows ++ [r]) = Some r.
Proof.
  intros E. unfold transaction_by_id.
  assert (H : forall l, (forall x, In x l -> t_id x <> next_rowid t_id rows) ->
                        find (fun t => t_id t =? next_rowid t_id rows) (l ++ [r]) = Some r).
  { induction l as [|x l IH]; simpl; intros Hl.
    - rewrite E, Z.eqb_refl. reflexivity.
    - destruct (Z.eqb_spec (t_id x) (next_rowid t_id rows)) as [Ex|_].
      + exfalso. apply (Hl x); auto.
      + apply IH. intros y Hy. apply Hl. auto. }
  apply H. intros x Hx. pose proof (next_rowid_fresh t_id rows x Hx). lia.
Qed.

Lemma transaction_by_id_absent (rows : list TransactionRow) :
  transaction_by_id (next_rowid t_id rows) rows = None.
Proof.
  unfold transaction_by_id.
  destruct (find _ rows) as [x|] eqn:E; [|reflexivity].
  apply find_some in E. destruct E as [Hin Ex]. apply Z.eqb_eq in Ex.
  pose proof (next_rowid_fresh t_id rows x Hin). lia.
Qed.

(** Walk an accepted [recordTransaction] call down to its writes. *)
Ltac accept_record Ev Ew Hok :=
  unfold recordTransaction; rewrite Ev; run_step; rewrite Ew;
  unfold availableBalance in Hok;
  match goal with
  | |- context [is_debit_type ?k] =>
      let Ed := fresh "Ed" in
      destruct (is_debit_type k) eqn:Ed;
      [ specialize (Hok eq_refl);
        match goal with
        | |- context [?x <? ?y] => destruct (Z.ltb_spec x y); [lia|]
        end
      | ]
  end;
  run_step;
  rewrite update_fresh_row by reflexivity;
  rewrite transaction_by_id_fresh by reflexivity;
  run_step.

(** An accepted call: the response, and each table afterwards. *)
Lemma recordTransaction_accepted (user : ReqUser) (body : TransactionBody) (db : Db)
      (value : TransactionValue) (w : WalletRow) :
  createTransactionSchema body = inr value ->
  wallet_of_user (req_id user) (wallets db) = Some w ->
  (is_debit_type (type value) = true -> amount value <= availableBalance w) ->
  fst (run (recordTransaction user body) db) =
    mkResponse 201
      (TransactionCreatedBody "Transaction created successfully"
         (transaction_view (filed_row user value w "completed" db))
         (newBalance_of (type value) (amount value) w)) /\
  wallets (snd (run (recordTransaction user body) db)) =
    update_where w_id (w_id w)
      (set_balance (newBalance_of (type value) (amount value) w) (clock db)) (wallets db) /\
  transactions (snd (run (recordTransaction user body) db)) =
    transactions db ++ [filed_row user value w "completed" db] /\
  map (status_of (next_rowid t_id (transactions db)))
      (db :: trace (recordTransaction user body) db) =
    [None; None; None; Some "pending"; Some "pending"; Some "completed";
     Some "completed"; Some "completed"; Some "completed"]%string.
Proof.
  intros Ev Ew Hok. repeat split.
  - accept_record Ev Ew Hok; unfold newBalance_of; rewrite Ed; reflexivity.
  - accept_record Ev Ew Hok; unfold newBalance_of; rewrite Ed; reflexivity.
  - accept_record Ev Ew Hok; reflexivity.
  - unfold status_of. cbn [map].
    accept_record Ev Ew Hok;
      cbn [map]; run_step; rewrite !transaction_by_id_absent;
      rewrite !transaction_by_id_fresh by reflexivity; reflexivity.
Qed.

(* ================================================================== *)
(** ** The life of a transaction row *)

Lemma extends_log_same (db db' : Db) :
  transactions db' = transactions db -> extends_log db db'.
Proof. intros E. exists []. rewrite app_nil_r. split; [exact E|constructor]. Qed.

Lemma extends_log_rows (db db' : Db) (new : list TransactionRow) :
  transactions db' = transactions db ++ new ->
  Forall (fun t => t_status t = "pending"%string \/ t_status t = "completed"%string) new ->
  extends_log db db'.
Proof. intros E H. exists new. auto. Qed.

Ltac log_rows :=
  repeat first [apply Forall_nil | apply Forall_cons; [cbn; auto|]].

Ltac log_step :=
  first
    [ apply extends_log_same; reflexivity
    | eapply extends_log_rows; [run_step; reflexivity | log_rows]
    | eapply extends_log_rows; [run_step; rewrite <- app_assoc; reflexivity | log_rows] ].

Lemma recordTransaction_log (user : ReqUser) (body : TransactionBody) (db : Db) :
  Forall (extends_log db) (trace (recordTransaction user body) db).
Proof.
  unfold recordTransaction.
  destruct (createTransactionSchema body) as [e|value]; [constructor|].
  run_step. constructor; [log_step|].
  destruct (wallet_of_user (req_id user) (wallets db)) as [w|]; [|constructor].
  destruct (is_debit_type (type value));
    [destruct (w_balance w - w_frozen_balance w <? amount value); [constructor|]|];
    run_step; rewrite update_fresh_row by reflexivity;
    rewrite transaction_by_id_fresh by reflexivity; run_step;
    repeat (constructor; [log_step|]); constructor.
Qed.

Lemma transaction_by_id_beyond (tid : Z) (rows : list TransactionRow) :
  next_rowid t_id rows <= tid -> transaction_by_id tid rows = None.
Proof.
  intros Hge. unfold transaction_by_id.
  destruct (find _ rows) as [x|] eqn:E; [|reflexivity].
  apply find_some in E. destruct E as [Hin Ex]. apply Z.eqb_eq in Ex.
  pose proof (next_rowid_fresh t_id rows x Hin). lia.
Qed.

Lemma transaction_by_id_app (tid : Z) (rows more : list TransactionRow) (r : TransactionRow) :
  transaction_by_id tid rows = Some r -> transaction_by_id tid (rows ++ more) = Some r.
Proof.
  unfold transaction_by_id. induction rows as [|x rows IH]; simpl; [discriminate|].
  destruct (t_id x =? tid); [auto|exact IH].
Qed.

Lemma next_rowid_snoc {A} (key : A -> Z) (rows : list A) (r : A) :
  key r = next_rowid key rows -> next_rowid key (rows ++ [r]) = next_rowid key rows + 1.
Proof.
  unfold next_rowid. intros E. rewrite map_app. simpl.
  assert (H : forall l x, fold_right Z.max 0 (l ++ [x]) = Z.max x (fold_right Z.max 0 l)).
  { induction l as [|a l IH]; intros x; simpl; [reflexivity|]. rewrite IH. lia. }
  rewrite H. lia.
Qed.

Lemma transferFunds_log (is_email : string -> bool) (user : ReqUser)
      (body : TransferBody) (db : Db) :
  Forall (extends_log db) (trace (transferFunds is_email user body) db).
Proof.
  unfold transferFunds.
  destruct (transferSchema is_email body) as [e|value]; [constructor|].
  run_step. constructor; [log_step|].
  destruct (wallet_of_user (req_id user) (wallets db)) as [sw|]; [|constructor].
  destruct (w_balance sw - w_frozen_balance sw <? transfer_amount value); [constructor|].
  run_step. constructor; [log_step|].
  destruct (active_user_by_email (recipientEmail value) (users db)) as [r|]; [|constructor].
  run_step. constructor; [log_step|].
  destruct (wallet_of_user (u_id r) (wallets db)) as [rw|]; [|constructor].
  run_step. repeat (constructor; [log_step|]). constructor.
Qed.

Lemma handler_log (is_email : string -> bool) (c : Call) (db : Db) :
  Forall (extends_log db) (trace (handler is_email c) db).
Proof.
  unfold handler. destruct (request c).
  - apply recordTransaction_log.
  - apply transferFunds_log.
  - unfold getBalance. run_step. constructor; [log_step|].
    destruct (wallet_of_user _ _); constructor.
  - unfold getStats. run_step. constructor; [log_step|].
    destruct (wallet_of_user _ _); run_step; repeat (constructor; [log_step|]); constructor.
Qed.

(** A run cut short by a rejected statement stops in the store it started
    from or in one of the stores of the full run, so what holds of every
    store of [trace] holds of its final store as well. *)
Lemma run_fault_visits {R} (on_error : R) (p : Prog R) :
  forall (n : nat) (db : Db),
    snd (run_fault on_error n p db) = db \/
    In (snd (run_fault on_error n p db)) (trace p db).
Proof.
  induction p as [r|A q k IH]; intros n db;
    destruct n as [|n]; simpl; try (left; reflexivity).
  destruct (exec q db) as [a db']. simpl.
  destruct (IH a n db') as [E|Hin]; right; [left; symmetry; exact E|right; exact Hin].
Qed.

(** The two legs of an accepted transfer exist as [completed] from the
    statement that inserts them, two statements (first leg) and one statement
    (second leg) before the first wallet update. *)
Lemma transferFunds_legs_history
      (is_email : string -> bool) (user : ReqUser) (body : TransferBody) (db : Db)
      (value : TransferValue) (recipient : UserRow) (sw rw : WalletRow) :
  transferSchema is_email body = inr value ->
  wallet_of_user (req_id user) (wallets db) = Some sw ->
  transfer_amount value <= availableBalance sw ->
  active_user_by_email (recipientEmail value) (users db) = Some recipient ->
  wallet_of_user (u_id recipient) (wallets db) = Some rw ->
  exists leg1 leg2,
    transactions (snd (run (transferFunds is_email user body) db)) =
      transactions db ++ [leg1; leg2] /\
    status_history (t_id leg1) (transferFunds is_email user body) db =
      repeat None 6 ++ repeat (Some "completed"%string) 9 /\
    status_history (t_id leg2) (transferFunds is_email user body) db =
      repeat None 8 ++ repeat (Some "completed"%string) 7.
Proof.
  intros Ev Esw Hok Er Erw. unfold status_history, status_of.
  accept_transfer Ev Esw Hok Er Erw. do 2 eexists.
  split; [rewrite <- app_assoc; reflexivity|]. cbn [t_id map]. run_step. split.
  - rewrite transaction_by_id_absent.
    rewrite transaction_by_id_fresh by reflexivity.
    erewrite transaction_by_id_app by (apply transaction_by_id_fresh; reflexivity).
    reflexivity.
  - rewrite (@transaction_by_id_beyond _ (transactions db)).
    + rewrite transaction_by_id_absent.
      rewrite transaction_by_id_fresh by reflexivity. reflexivity.
    + rewrite next_rowid_snoc by reflexivity. lia.
Qed.

Lemma recordTransaction_balance_history (user : ReqUser) (body : TransactionBody) (db : Db)
      (value : TransactionValue) (w : WalletRow) :
  createTransactionSchema body = inr value ->
  wallet_of_user (req_id user) (wallets db) = Some w ->
  (is_debit_type (type value) = true -> amount value <= availableBalance w) ->
  balance_history (req_id user) (recordTransaction user body) db =
    repeat (Some (w_balance w)) 4
    ++ repeat (Some (newBalance_of (type value) (amount value) w)) 5.
Proof.
  intros Ev Ew Hok. unfold balance_history, stored_balance. cbn [map].
  accept_record Ev Ew Hok; cbn [map]; run_step;
    rewrite !wallet_of_user_update, Ew; cbn [option_map set_balance w_id w_balance];
    rewrite Z.eqb_refl; unfold newBalance_of; rewrite Ed; reflexivity.
Qed.

(** The life of a transaction row, as the code has it.  (1) Along every
    ledger operation, every store holds the transaction rows that existed
    before the operation unchanged, followed by new rows whose status is
    [pending] or [completed]: no row is changed by a later operation and
    [failed] is never written.  (2) The row of an accepted
    [recordTransaction] call is absent, then [pending] from its insert, and
    [completed] from the statement that follows the wallet update (the
    balance changes at the fifth store, the status at the sixth).  (3) The
    two legs of an accepted transfer are [completed] from their insert on. *)
Theorem transaction_lifecycle (is_email : string -> bool) :
  (forall (c : Call) (db : Db),
      Forall (extends_log db) (trace (handler is_email c) db)) /\
  (forall user body db value w,
      createTransactionSchema body = inr value ->
      wallet_of_user (req_id user) (wallets db) = Some w ->
      (is_debit_type (type value) = true -> amount value <= availableBalance w) ->
      status_history (next_rowid t_id (transactions db)) (recordTransaction user body) db =
        [None; None; None; Some "pending"; Some "pending"; Some "completed";
         Some "completed"; Some "completed"; Some "completed"]%string /\
      balance_history (req_id user) (recordTransaction user body) db =
        repeat (Some (w_balance w)) 4
        ++ repeat (Some (newBalance_of (type value) (amount value) w)) 5) /\
  (forall user body db value recipient sw rw,
      transferSchema is_email body = inr value ->
      wallet_of_user (req_id user) (wallets db) = Some sw ->
      transfer_amount value <= availableBalance sw ->
      active_user_by_email (recipientEmail value) (users db) = Some recipient ->
      wallet_of_user (u_id recipient) (wallets db) = Some rw ->
      exists leg1 leg2,
        transactions (snd (run (transferFunds is_email user body) db)) =
          transactions db ++ [leg1; leg2] /\
        status_history (t_id leg1) (transferFunds is_email user body) db =
          repeat None 6 ++ repeat (Some "completed"%string) 9 /\
        status_history (t_id leg2) (transferFunds is_email user body) db =
          repeat None 8 ++ repeat (Some "completed"%string) 7).
Proof.
  split; [|split].
  - intros c db. apply handler_log.
  - intros user body db value w Ev Ew Hok. split.
    + apply (recordTransaction_accepted user body db Ev Ew Hok).
    + apply recordTransaction_balance_history; assumption.
  - intros. eapply transferFunds_legs_history; eassumption.
Qed.

(** Not every row is created [pending]: when Alice sends 300 to Bob, row 1
    (her outgoing leg) does not exist before the call and its first status is
    [completed]. *)
Lemma transfer_leg_not_created_pending :
  ~ (forall (c : Call) (db : Db) (tid : Z), created_pending (handler has_at c) db tid).
Proof.
  intros H.
  specialize (H (mkCall 50 alice (TransferFunds (transfer_body "bob@trade.io" 300)))
                sample_db 1).
  unfold created_pending in H. vm_compute in H.
  destruct (H eq_refl) as [E|E]; discriminate E.
Qed.

(** When the store rejects the wallet update of a debit, the handler answers
    500 from its [catch] block; the row it inserted stays [pending] and the
    balance is the one before. *)
Lemma recordTransaction_fault_leaves_pending :
  let out := run_fault create_error 3 (recordTransaction alice (debit_body 600)) sample_db in
  status (fst out) = 500 /\
  map t_status (transactions (snd out)) = ["pending"%string] /\
  stored_balance (req_id alice) (snd out) = Some 1000.
Proof. vm_compute. repeat split. Qed.

(** C7 fails on the transfer route.  Alice (1000) sends 300 to Bob (200).
    Store by store (the store before the call, then the store after each of
    the fourteen statements): rows 1 and 2, the two legs, do not exist and
    then are [completed] at once, never [pending], at a time when both
    balances are still the old ones; Alice's balance moves three statements
    after her leg was filed as [completed], Bob's two statements after his.
    If the store rejects the second wallet update, the call is answered 500
    and what stays is two [completed] legs, Alice debited and Bob not
    credited: nothing is set to [failed], nothing is undone.  The sibling
    route keeps the order for the part it reaches: the row of Alice's debit
    of 600 is [pending] from its insert and [completed] only after the
    balance has moved. *)
Theorem transfer_legs_completed_before_wallets_move :
  status_history 1 (transferFunds has_at alice (transfer_body "bob@trade.io" 300)) sample_db =
    repeat None 6 ++ repeat (Some "completed"%string) 9 /\
  status_history 2 (transferFunds has_at alice (transfer_body "bob@trade.io" 300)) sample_db =
    repeat None 8 ++ repeat (Some "completed"%string) 7 /\
  balance_history (req_id alice)
                  (transferFunds has_at alice (transfer_body "bob@trade.io" 300)) sample_db =
    repeat (Some 1000) 9 ++ repeat (Some 700) 6 /\
  balance_history (req_id bob)
                  (transferFunds has_at alice (transfer_body "bob@trade.io" 300)) sample_db =
    repeat (Some 200) 10 ++ repeat (Some 500) 5 /\
  (let out := run_fault transfer_error 9
                        (transferFunds has_at alice (transfer_body "bob@trade.io" 300))
                        sample_db in
   status (fst out) = 500 /\
   map t_status (transactions (snd out)) = ["completed"; "completed"]%string /\
   stored_balance (req_id alice) (snd out) = Some 700 /\
   stored_balance (req_id bob) (snd out) = Some 200) /\
  status_history 1 (recordTransaction alice (debit_body 600)) sample_db =
    repeat None 3 ++ repeat (Some "pending"%string) 2
    ++ repeat (Some "completed"%string) 4 /\
  balance_history (req_id alice) (recordTransaction alice (debit_body 600)) sample_db =
    repeat (Some 1000) 4 ++ repeat (Some 400) 5.
Proof. vm_compute. repeat split. Qed.

(* ================================================================== *)
(** ** Ordering and grouping *)

Lemma insert_desc_perm (t : TransactionRow) (l : list TransactionRow) :
  Permutation (t :: l) (insert_desc t l).
Proof.
  induction l as [|x l IH]; simpl; [apply Permutation_refl|].
  destruct (t_created_at x <=? t_created_at t); [apply Permutation_refl|].
  eapply Permutation_trans; [apply perm_swap|]. apply perm_skip. exact IH.
Qed.

Lemma order_by_created_at_desc_perm (l : list TransactionRow) :
  Permutation l (order_by_created_at_desc l).
Proof.
  unfold order_by_created_at_desc. induction l as [|x l IH]; simpl; [constructor|].
  eapply Permutation_trans; [apply perm_skip; exact IH|]. apply insert_desc_perm.
Qed.

Lemma insert_desc_sorted (t : TransactionRow) (l : list TransactionRow) :
  StronglySorted not_older l -> StronglySorted not_older (insert_desc t l).
Proof.
  induction l as [|x l IH]; simpl; intros Hs.
  - repeat constructor.
  - inversion Hs as [|? ? Hl Hx]; subst.
    destruct (Z.leb_spec (t_created_at x) (t_created_at t)) as [Hle|Hgt].
    + constructor; [exact Hs|]. constructor; [exact Hle|].
      rewrite Forall_forall in *. intros y Hy. specialize (Hx y Hy).
      unfold not_older in *. lia.
    + constructor; [apply IH; exact Hl|].
      rewrite Forall_forall in *. intros y Hy.
      apply (Permutation_in _ (Permutation_sym (insert_desc_perm t l))) in Hy.
      destruct Hy as [<-|Hy]; [unfold not_older; lia|auto].
Qed.

Lemma order_by_created_at_desc_sorted (l : list TransactionRow) :
  StronglySorted not_older (order_by_created_at_desc l).
Proof.
  unfold order_by_created_at_desc. induction l as [|x l IH]; simpl.
  - constructor.
  - apply insert_desc_sorted. exact IH.
Qed.

Lemma sorted_app_split (l1 l2 : list TransactionRow) :
  StronglySorted not_older (l1 ++ l2) ->
  StronglySorted not_older l1 /\
  forall a b, In a l1 -> In b l2 -> not_older a b.
Proof.
  induction l1 as [|x l1 IH]; simpl; intros Hs.
  - split; [constructor|]. intros a b [].
  - inversion Hs as [|? ? Hl Hx]; subst. destruct (IH Hl) as [Hs1 Hcross].
    rewrite Forall_forall in Hx. split.
    + constructor; [exact Hs1|]. rewrite Forall_forall. intros y Hy.
      apply Hx. apply in_or_app. auto.
    + intros a b [<-|Ha] Hb; [apply Hx; apply in_or_app; auto|auto].
Qed.

(** [LIMIT 5] after [ORDER BY created_at DESC]: the rows kept are in
    descending order of creation time, and no row left out is newer than a
    row kept. *)
Lemma recent_rows_spec (uid : Z) (rows : list TransactionRow) :
  length (recent_rows uid rows) = Nat.min 5 (length (rows_of_user uid rows)) /\
  StronglySorted not_older (recent_rows uid rows) /\
  exists rest,
    Permutation (rows_of_user uid rows) (recent_rows uid rows ++ rest) /\
    forall a b, In a (recent_rows uid rows) -> In b rest -> not_older a b.
Proof.
  unfold recent_rows.
  set (sorted := order_by_created_at_desc (rows_of_user uid rows)).
  assert (Hperm : Permutation (rows_of_user uid rows) sorted)
    by apply order_by_created_at_desc_perm.
  assert (Hs : StronglySorted not_older (firstn 5 sorted ++ skipn 5 sorted)).
  { rewrite firstn_skipn. apply order_by_created_at_desc_sorted. }
  destruct (sorted_app_split _ _ Hs) as [Hs1 Hcross].
  split; [|split].
  - rewrite length_firstn. rewrite (Permutation_length Hperm). reflexivity.
  - exact Hs1.
  - exists (skipn 5 sorted). split; [rewrite firstn_skipn; exact Hperm|exact Hcross].
Qed.

Lemma existsb_eqb_In (k : string) (seen : list string) :
  existsb (String.eqb k) seen = true <-> In k seen.
Proof.
  rewrite existsb_exists. split.
  - intros [x [Hin E]]. apply String.eqb_eq in E. subst x. exact Hin.
  - intros Hin. exists k. split; [exact Hin|apply String.eqb_refl].
Qed.

Lemma group_keys_spec (rows : list TransactionRow) : forall seen,
  NoDup (group_keys seen rows) /\
  (forall k, In k (group_keys seen rows) ->
             ~ In k seen /\ exists t, In t rows /\ t_type t = k) /\
  (forall t, In t rows -> In (t_type t) seen \/ In (t_type t) (group_keys seen rows)).
Proof.
  induction rows as [|x rows IH]; intros seen; simpl.
  - split; [constructor|]. split; [intros k []|intros t []].
  - destruct (existsb (String.eqb (t_type x)) seen) eqn:E.
    + apply existsb_eqb_In in E. destruct (IH seen) as (Hnd & Hin & Hcov).
      split; [exact Hnd|]. split.
      * intros k Hk. destruct (Hin k Hk) as [Hns [t [Ht Et]]]. eauto.
      * intros t [<-|Ht]; auto.
    + assert (Hnot : ~ In (t_type x) seen).
      { intros Hin. apply existsb_eqb_In in Hin. congruence. }
      destruct (IH (t_type x :: seen)) as (Hnd & Hin & Hcov). split; [|split].
      * constructor; [|exact Hnd]. intros Hk. destruct (Hin _ Hk) as [Hns _].
        apply Hns. left. reflexivity.
      * intros k [<-|Hk]; [eauto|].
        destruct (Hin k Hk) as [Hns [t [Ht Et]]]. split; [|eauto].
        intros Hs. apply Hns. right. exact Hs.
      * intros t [<-|Ht]; [right; left; reflexivity|].
        destruct (Hcov t Ht) as [[E'|Hs]|Hk].
        -- right. left. exact E'.
        -- left. exact Hs.
        -- right. right. exact Hk.
Qed.

Lemma fold_left_count (stats : list StatRow) (a : Z) :
  fold_left (fun sum stat => sum + stat_count stat) stats a =
  a + fold_right (fun stat acc => stat_count stat + acc) 0 stats.
Proof.
  revert a. induction stats as [|s stats IH]; intros a; simpl; [lia|].
  rewrite IH. lia.
Qed.

Lemma indicator_sum (x : string) (keys : list string) :
  NoDup keys ->
  fold_right (fun k acc => (if (x =? k)%string then 1 else 0) + acc) 0 keys =
  if existsb (String.eqb x) keys then 1 else 0.
Proof.
  induction keys as [|k keys IH]; simpl; intros Hnd; [reflexivity|].
  inversion Hnd as [|? ? Hnotin Hnd']; subst. rewrite (IH Hnd').
  destruct (String.eqb_spec x k) as [->|_]; simpl; [|reflexivity].
  destruct (existsb (String.eqb k) keys) eqn:E; [|reflexivity].
  apply existsb_eqb_In in E. contradiction.
Qed.

Lemma counts_add_up (rows : list TransactionRow) (keys : list string) :
  NoDup keys -> (forall t, In t rows -> In (t_type t) keys) ->
  fold_right (fun k acc => Z.of_nat (length (of_type k rows)) + acc) 0 keys =
  Z.of_nat (length rows).
Proof.
  intros Hnd. induction rows as [|x rows IH]; intros Hcov.
  - simpl. clear Hnd Hcov. induction keys as [|k keys IHk]; simpl; [reflexivity|].
    exact IHk.
  - assert (Hsplit : forall ks,
      fold_right (fun k acc => Z.of_nat (length (of_type k (x :: rows))) + acc) 0 ks =
      fold_right (fun k acc => (if (t_type x =? k)%string then 1 else 0) + acc) 0 ks +
      fold_right (fun k acc => Z.of_nat (length (of_type k rows)) + acc) 0 ks).
    { induction ks as [|k ks IHk]; cbn [fold_right]; [reflexivity|]. rewrite IHk.
      unfold of_type. cbn [filter].
      destruct (t_type x =? k)%string; cbn [length]; lia. }
    rewrite Hsplit, IH by (intros t Ht; apply Hcov; right; exact Ht).
    rewrite indicator_sum by exact Hnd.
    assert (E : existsb (String.eqb (t_type x)) keys = true).
    { apply existsb_eqb_In. apply Hcov. left. reflexivity. }
    rewrite E. simpl length. lia.
Qed.

(** The sum of the per-kind counts is the number of rows grouped. *)
Lemma group_by_type_total (rows : list TransactionRow) :
  fold_left (fun sum stat => sum + stat_count stat) (group_by_type rows) 0 =
  Z.of_nat (length rows).
Proof.
  rewrite fold_left_count. unfold group_by_type.
  destruct (group_keys_spec rows []) as (Hnd & _ & Hcov).
  assert (E : forall ks,
    fold_right (fun stat acc => stat_count stat + acc) 0
      (map (fun k => mkStat k (Z.of_nat (length (of_type k rows)))
                            (sum_amounts (of_type k rows))) ks) =
    fold_right (fun k acc => Z.of_nat (length (of_type k rows)) + acc) 0 ks).
  { induction ks as [|k ks IHk]; simpl; [reflexivity|]. rewrite IHk. reflexivity. }
  rewrite E, counts_add_up; [lia|exact Hnd|].
  intros t Ht. destruct (Hcov t Ht) as [[]|Hk]. exact Hk.
Qed.

Lemma object_get_set {V} (k k' : string) (v : V) (acc : list (string * V)) :
  object_get k (object_set k' v acc) =
  if (k' =? k)%string then Some v else object_get k acc.
Proof.
  induction acc as [|[k0 v0] acc IH]; simpl; [reflexivity|].
  destruct (String.eqb_spec k0 k') as [->|Hne]; simpl.
  - destruct (k' =? k)%string; reflexivity.
  - rewrite IH. destruct (String.eqb_spec k0 k) as [->|_]; [|reflexivity].
    destruct (String.eqb_spec k' k) as [->|_]; [contradiction|reflexivity].
Qed.

Lemma object_of_keys {V} (k : string) (mk : string -> V) (keys : list string) :
  NoDup keys -> forall acc,
  object_get k (fold_left (fun acc k' => object_set k' (mk k') acc) keys acc) =
  if existsb (String.eqb k) keys then Some (mk k) else object_get k acc.
Proof.
  induction keys as [|k0 keys IH]; intros Hnd acc; simpl; [reflexivity|].
  inversion Hnd as [|? ? Hnotin Hnd']; subst. rewrite (IH Hnd'), object_get_set.
  destruct (String.eqb_spec k k0) as [->|Hne]; simpl.
  - rewrite String.eqb_refl.
    destruct (existsb (String.eqb k0) keys); reflexivity.
  - destruct (String.eqb_spec k0 k) as [->|_]; [contradiction|reflexivity].
Qed.

(** The object built from the grouped rows has, for each kind, the count and
    sum of the rows of that kind, and no key for a kind without rows. *)
Lemma group_by_type_object (k : string) (rows : list TransactionRow) :
  object_get k
    (fold_left (fun acc stat =>
                  object_set (stat_type stat)
                             (mkTypeStat (stat_count stat) (stat_total stat)) acc)
               (group_by_type rows) []) =
  type_stat_of k rows.
Proof.
  unfold group_by_type.
  destruct (group_keys_spec rows []) as (Hnd & Hin & Hcov).
  set (mk := fun k' => mkTypeStat (Z.of_nat (length (of_type k' rows)))
                                  (sum_amounts (of_type k' rows))).
  assert (E : forall ks acc,
    fold_left (fun acc stat =>
                 object_set (stat_type stat)
                            (mkTypeStat (stat_count stat) (stat_total stat)) acc)
              (map (fun k' => mkStat k' (Z.of_nat (length (of_type k' rows)))
                                     (sum_amounts (of_type k' rows))) ks) acc =
    fold_left (fun acc k' => object_set k' (mk k') acc) ks acc).
  { induction ks as [|k0 ks IHk]; intros acc; simpl; [reflexivity|]. apply IHk. }
  rewrite E, (object_of_keys k mk Hnd). unfold type_stat_of. simpl object_get.
  destruct (existsb (String.eqb k) (group_keys [] rows)) eqn:Ek.
  - apply existsb_eqb_In in Ek. destruct (Hin k Ek) as [_ [t [Ht Et]]].
    assert (Hof : In t (of_type k rows)).
    { unfold of_type. apply filter_In. split; [exact Ht|]. rewrite Et. apply String.eqb_refl. }
    unfold mk. destruct (of_type k rows) as [|y ys] eqn:Eo; [destruct Hof|]. reflexivity.
  - destruct (of_type k rows) as [|y ys] eqn:Eo; [reflexivity|]. exfalso.
    assert (Hy : In y (of_type k rows)) by (rewrite Eo; left; reflexivity).
    unfold of_type in Hy. apply filter_In in Hy. destruct Hy as [Hy Ey].
    apply String.eqb_eq in Ey. destruct (Hcov y Hy) as [[]|Hk].
    rewrite Ey in Hk. apply existsb_eqb_In in Hk. congruence.
Qed.

(* ================================================================== *)
(** ** Statistics *)

Lemma recent_view_id (rows : list RecentRow) :
  map (fun t => mkRecent (r_type t) (r_amount t) (r_currency t) (r_description t)
                         (r_created_at t)) rows = rows.
Proof.
  induction rows as [|[] rows IH]; simpl; [reflexivity|]. rewrite IH. reflexivity.
Qed.

(** C9, as the code has it.  [getStats] leaves the store as it is (each of
    its statements is a read, and asking again gives the same answer).
    Without a wallet it answers 404 [WALLET_NOT_FOUND]; otherwise it answers
    200 with the wallet's balance, frozen balance and their difference; with
    [totalTransactions], which counts the user's [completed] transactions
    only; with one entry per kind that has a completed transaction, holding
    the count and the sum of the completed transactions of that kind; and
    with at most five of the user's transactions, of any status, newest
    first, none of the omitted ones being newer than a listed one. *)
Theorem getStats_view (user : ReqUser) (db : Db) :
  snd (run (getStats user) db) = db /\
  Forall (eq db) (trace (getStats user) db) /\
  run (getStats user) (snd (run (getStats user) db)) = run (getStats user) db /\
  match wallet_of_user (req_id user) (wallets db) with
  | None =>
      fst (run (getStats user) db) =
        mkResponse 404 (ErrorBody "Wallet not found" "WALLET_NOT_FOUND")
  | Some w =>
      exists stats,
        fst (run (getStats user) db) =
          mkResponse 200
            (StatsBody
               (mkStatsWallet (w_balance w) (w_frozen_balance w) (availableBalance w)
                              (w_currency w))
               stats
               (map recent_columns (recent_rows (req_id user) (transactions db)))) /\
        totalTransactions stats =
          Z.of_nat (length (completed_of (req_id user) (transactions db))) /\
        (forall k, object_get k (transactionTypes stats) =
                   type_stat_of k (completed_of (req_id user) (transactions db))) /\
        length (recent_rows (req_id user) (transactions db)) =
          Nat.min 5 (length (rows_of_user (req_id user) (transactions db))) /\
        StronglySorted not_older (recent_rows (req_id user) (transactions db)) /\
        exists rest,
          Permutation (rows_of_user (req_id user) (transactions db))
                      (recent_rows (req_id user) (transactions db) ++ rest) /\
          forall a b, In a (recent_rows (req_id user) (transactions db)) ->
                      In b rest -> not_older a b
  end.
Proof.
  split; [apply getStats_db|]. split; [|split].
  - unfold getStats. run_step. constructor; [reflexivity|].
    destruct (wallet_of_user _ _); run_step; repeat constructor.
  - rewrite getStats_db. reflexivity.
  - unfold getStats. run_step.
    destruct (wallet_of_user (req_id user) (wallets db)) as [w|]; [|reflexivity].
    run_step. eexists. split; [rewrite recent_view_id; reflexivity|].
    cbn [totalTransactions transactionTypes].
    split; [apply group_by_type_total|]. split; [intros k; apply group_by_type_object|].
    apply recent_rows_spec.
Qed.

(** C9 as stated fails where a transaction is not [completed]: in
    [pending_db] Alice has one transaction, and [totalTransactions] is 0. *)
Lemma getStats_total_counts_completed_only :
  ~ (forall (user : ReqUser) (db : Db) wallet stats recent,
        json (fst (run (getStats user) db)) = StatsBody wallet stats recent ->
        totalTransactions stats =
          Z.of_nat (length (rows_of_user (req_id user) (transactions db)))).
Proof.
  intros H. specialize (H alice pending_db _ _ _ eq_refl).
  vm_compute in H. discriminate H.
Qed.

(* ================================================================== *)
(** ** The request currency *)









(* ================================================================== *)
(** ** Two requests in flight *)

(** [outcomes] misses no schedule: whatever the schedule, if both requests
    have answered at its end, their answers and the final store are listed. *)
Lemma interleave_in_outcomes {R} (schedule : list bool) :
  forall (fuel : nat) (p1 p2 : Prog R) (db : Db) (l : list (R * R * Db))
         (r1 r2 : R) (db' : Db),
    outcomes fuel p1 p2 db = Some l ->
    interleave schedule p1 p2 db = (Ret r1, Ret r2, db') ->
    In (r1, r2, db') l.
Proof.
  induction schedule as [|b schedule IH]; intros fuel p1 p2 db l r1 r2 db' Ho Hi.
  - simpl in Hi. injection Hi as -> -> ->.
    destruct fuel as [|fuel]; [discriminate|]. simpl in Ho.
    injection Ho as <-. left. reflexivity.
  - destruct fuel as [|fuel]; [discriminate|].
    destruct b; simpl in Hi.
    + destruct p1 as [a1|A1 q1 k1].
      * simpl in Hi. eapply IH; eassumption.
      * destruct p2 as [a2|A2 q2 k2]; simpl in Ho, Hi.
        -- destruct (exec q1 db) as [x d]. eapply IH; eassumption.
        -- destruct (exec q1 db) as [x d].
           destruct (outcomes fuel (k1 x) (Await q2 k2) d) as [first|] eqn:E1;
             [|discriminate].
           destruct (exec q2 db) as [y d2].
           destruct (outcomes fuel (Await q1 k1) (k2 y) d2) as [second|]; [|discriminate].
           injection Ho as <-. apply in_or_app. left. eapply IH; eassumption.
    + destruct p2 as [a2|A2 q2 k2].
      * simpl in Hi. eapply IH; eassumption.
      * destruct p1 as [a1|A1 q1 k1]; simpl in Ho, Hi.
        -- destruct (exec q2 db) as [y d]. eapply IH; eassumption.
        -- destruct (exec q1 db) as [x d].
           destruct (outcomes fuel (k1 x) (Await q2 k2) d) as [first|]; [|discriminate].
           destruct (exec q2 db) as [y d2].
           destruct (outcomes fuel (Await q1 k1) (k2 y) d2) as [second|] eqn:E2;
             [|discriminate].
           injection Ho as <-. apply in_or_app. right. eapply IH; eassumption.
Qed.

Lemma concurrent_debits_outcomes :
  exists l,
    outcomes 20 (recordTransaction alice (debit_body 600))
             (recordTransaction alice (debit_body 600)) sample_db = Some l /\
    Forall (fun o => stored_balance (req_id alice) (snd o) = Some 400) l.
Proof.
  assert (Hall : match outcomes 20 (recordTransaction alice (debit_body 600))
                                (recordTransaction alice (debit_body 600)) sample_db with
                 | Some l' => forallb (fun o => match stored_balance (req_id alice) (snd o) with
                                                | Some b => b =? 400
                                                | None => false
                                                end) l'
                 | None => false
                 end = true) by (vm_compute; reflexivity).
  destruct (outcomes 20 (recordTransaction alice (debit_body 600))
                      (recordTransaction alice (debit_body 600)) sample_db)
    as [l|]; [|discriminate Hall].
  exists l. split; [reflexivity|].
  rewrite forallb_forall in Hall. apply Forall_forall. intros o Ho.
  specialize (Hall o Ho). destruct (stored_balance (req_id alice) (snd o)) as [b|];
    [|discriminate Hall].
  apply Z.eqb_eq in Hall. subst b. reflexivity.
Qed.

(** Whatever the schedule, once both debits have answered the stored balance
    is 400: neither -200 nor 1000. *)
Lemma concurrent_debits_final_balance (schedule : list bool) (r1 r2 : Response) (db' : Db) :
  interleave schedule (recordTransaction alice (debit_body 600))
             (recordTransaction alice (debit_body 600)) sample_db = (Ret r1, Ret r2, db') ->
  stored_balance (req_id alice) db' = Some 400.
Proof.
  intros Hi.
  destruct concurrent_debits_outcomes as (l & Hl & Hall).
  rewrite Forall_forall in Hall.
  apply (Hall (r1, r2, db')). eapply interleave_in_outcomes; eassumption.
Qed.

(** C8, on the code.  Two [recordTransaction(debit, 600)] calls of Alice
    (balance 1000, nothing frozen) are in flight.  When both read the wallet
    before either writes, both are answered 201, two [completed] debits of
    600 are on file and the stored balance is 400.  When one call answers
    before the other starts, the second is refused with
    [INSUFFICIENT_BALANCE].  On every schedule the final balance is 400. *)
Theorem concurrent_debits_both_accepted :
  let debit := recordTransaction alice (debit_body 600) in
  stored_balance (req_id alice) sample_db = Some 1000 /\
  (exists r1 r2 db',
      interleave racing_schedule debit debit sample_db = (Ret r1, Ret r2, db') /\
      observe (req_id alice) (r1, r2, db') = (201, None, (201, None), Some 400) /\
      map (fun t => (t_type t, t_amount t, t_status t)) (transactions db') =
        [("debit", 600, "completed"); ("debit", 600, "completed")]%string) /\
  (exists r1 r2 db',
      interleave serial_schedule debit debit sample_db = (Ret r1, Ret r2, db') /\
      observe (req_id alice) (r1, r2, db') =
        (201, None, (400, Some "INSUFFICIENT_BALANCE"%string), Some 400)) /\
  (exists l,
      outcomes 20 debit debit sample_db = Some l /\
      Forall (fun o => stored_balance (req_id alice) (snd o) = Some 400) l).
Proof.
  cbv zeta. split; [reflexivity|]. split; [|split].
  - do 3 eexists. split; [vm_compute; reflexivity|]. split; vm_compute; reflexivity.
  - do 3 eexists. split; [vm_compute; reflexivity|]. vm_compute; reflexivity.
  - exact concurrent_debits_outcomes.
Qed.

(* ================================================================== *)
(** ** The theorems at work on the sample store *)

(** The scenarios of the specification: a credit of 500 on a balance of 1000,
    then a debit of 2000, then a transfer of 300 to Bob (balance 200). *)
Example scenario_credit_then_refused_debit :
  let (r1, db1) := run (recordTransaction alice (credit_body 500)) sample_db in
  let (r2, db2) := run (recordTransaction alice (debit_body 2000)) db1 in
  status r1 = 201 /\ stored_balance 1 db1 = Some 1500 /\
  map t_status (transactions db1) = ["completed"%string] /\
  r2 = mkResponse 400 (InsufficientBalanceBody "Insufficient balance"
                                               "INSUFFICIENT_BALANCE" 1500) /\
  db2 = db1.
Proof. vm_compute. repeat split. Qed.

Example scenario_transfer :
  let (r, db') := run (transferFunds has_at alice (transfer_body "bob@trade.io" 300))
                      sample_db in
  status r = 200 /\ stored_balance 1 db' = Some 700 /\ stored_balance 2 db' = Some 500 /\
  map (fun t => (t_reference t, t_status t)) (transactions db') =
    [(Some "uuid-0", "completed"); (Some "uuid-0", "completed")]%string.
Proof. vm_compute. repeat split. Qed.

Lemma ledger_invariant_sequential_witness :
  wallets_primary_key sample_db /\ ledger_invariant sample_db /\
  Forall ledger_invariant (serve_all has_at sample_calls sample_db).
Proof.
  assert (Hpk : wallets_primary_key sample_db).
  { unfold wallets_primary_key. simpl. repeat constructor; simpl; intuition lia. }
  assert (Hinv : ledger_invariant sample_db).
  { unfold ledger_invariant. simpl.
    repeat constructor; unfold wallet_invariant, availableBalance; simpl; lia. }
  split; [exact Hpk|]. split; [exact Hinv|].
  apply (ledger_invariant_sequential has_at sample_calls Hpk Hinv).
Defined.


Lemma recordTransaction_insufficient_balance_witness :
  run (recordTransaction alice (debit_body 2000)) sample_db =
    (mkResponse 400 (InsufficientBalanceBody "Insufficient balance" "INSUFFICIENT_BALANCE"
                                             1000), sample_db).
Proof.
  assert (Hkind : In (type (mkTransactionValue "debit" 2000 "USD" None None None))
                     ["debit"; "transfer"; "payment"]%string) by (left; reflexivity).
  assert (Hlt : availableBalance alice_wallet
                < amount (mkTransactionValue "debit" 2000 "USD" None None None))
    by (vm_compute; reflexivity).
  exact (proj1 (@recordTransaction_insufficient_balance alice (debit_body 2000) sample_db
                  (mkTransactionValue "debit" 2000 "USD" None None None) alice_wallet
                  eq_refl Hkind eq_refl Hlt)).
Defined.

Lemma recordTransaction_validation_error_witness :
  exists e,
    run (recordTransaction alice (debit_body 0)) sample_db =
      (mkResponse 400 (ValidationErrorBody e "VALIDATION_ERROR"), sample_db) /\
    trace (recordTransaction alice (debit_body 0)) sample_db = [].
Proof.
  apply (recordTransaction_validation_error alice (debit_body 0) sample_db).
  left. exists 0. split; [reflexivity|lia].
Defined.

Lemma transaction_lifecycle_witness :
  status_history 1 (recordTransaction alice (debit_body 600)) sample_db =
    [None; None; None; Some "pending"; Some "pending"; Some "completed";
     Some "completed"; Some "completed"; Some "completed"]%string /\
  Forall (extends_log sample_db)
         (trace (handler has_at (mkCall 62 alice (TransferFunds (transfer_body "bob@trade.io" 300))))
                sample_db).
Proof.
  destruct (transaction_lifecycle has_at) as (Hlog & Hrec & _).
  split.
  - assert (Hok : is_debit_type (type (mkTransactionValue "debit" 600 "USD" None None None))
                  = true ->
                  amount (mkTransactionValue "debit" 600 "USD" None None None)
                  <= availableBalance alice_wallet)
      by (intros _; vm_compute; discriminate).
    exact (proj1 (Hrec alice (debit_body 600) sample_db
                       (mkTransactionValue "debit" 600 "USD" None None None) alice_wallet
                       eq_refl eq_refl Hok)).
  - apply Hlog.
Defined.

Lemma getStats_view_witness :
  snd (run (getStats alice) pending_db) = pending_db /\
  run (getStats alice) (snd (run (getStats alice) pending_db)) = run (getStats alice) pending_db.
Proof.
  destruct (getStats_view alice pending_db) as (Hdb & _ & Hagain & _).
  split; [exact Hdb|exact Hagain].
Defined.


(* ================================================================== *)
(** ** The read routes of the wallet router *)

Ltac read_step :=
  cbn [run_read run_script exec_read fst snd listed read_json read_status
       q_page q_limit q_type q_currency page_of limit_of].

Lemma skipn_incl {A} (n : nat) (rows : list A) (x : A) :
  In x (skipn n rows) -> In x rows.
Proof.
  intros H. rewrite <- (firstn_skipn n rows). apply in_or_app. right. exact H.
Qed.

Lemma firstn_incl {A} (n : nat) (rows : list A) (x : A) :
  In x (firstn n rows) -> In x rows.
Proof.
  intros H. rewrite <- (firstn_skipn n rows). apply in_or_app. left. exact H.
Qed.

Lemma sql_limit_incl {A} (l o : Z) (rows : list A) (x : A) :
  In x (sql_limit l o rows) -> In x rows.
Proof.
  unfold sql_limit. intros H.
  destruct (l <? 0).
  - eapply skipn_incl. exact H.
  - eapply skipn_incl. eapply firstn_incl. exact H.
Qed.

Lemma join_wallets_In (ws : list WalletRow) (ts : list TransactionRow)
      (t : TransactionRow) (c : string) :
  In (t, c) (join_wallets ws ts) ->
  In t ts /\ exists w, In w ws /\ w_id w = t_wallet_id t /\ w_currency w = c.
Proof.
  unfold join_wallets. rewrite in_flat_map. intros [t' [Ht Hin]].
  rewrite in_map_iff in Hin. destruct Hin as [w [E Hw]].
  injection E as <- <-. apply filter_In in Hw. destruct Hw as [Hw Eid].
  apply Z.eqb_eq in Eid. eauto.
Qed.

Lemma matching_rows_In (uid : Z) (type currency : option string) (db : Db)
      (t : TransactionRow) (c : string) :
  In (t, c) (matching_rows uid type currency db) ->
  In t (transactions db) /\ where_matches uid type currency t = true /\
  exists w, In w (wallets db) /\ w_id w = t_wallet_id t.
Proof.
  unfold matching_rows. intros H. apply join_wallets_In in H.
  destruct H as [Ht (w & Hw & Eid & _)].
  apply (Permutation_in _ (Permutation_sym (order_by_created_at_desc_perm _))) in Ht.
  apply filter_In in Ht. destruct Ht as [Ht Hm]. eauto.
Qed.

Lemma truthy_string_Some (s : option string) (v : string) :
  truthy_string s = Some v -> s = Some v /\ v <> ""%string.
Proof.
  unfold truthy_string. destruct s as [x|]; [|discriminate].
  destruct (String.eqb_spec x ""); [discriminate|]. intros [= <-]. auto.
Qed.

(** X1. [GET /transactions] answers 200 and leaves the store as it is; every
    transaction it lists is a stored transaction of the caller whose wallet
    row exists, of the requested kind when a non-empty [type] is given and
    of the requested currency when a non-empty [currency] is given. *)
Theorem listTransactions_own_rows (user : ReqUser) (query : TransactionsQuery) (db : Db) :
  read_status (fst (run_read (listTransactions user query) db)) = 200 /\
  snd (run_read (listTransactions user query) db) = db /\
  exists rows,
    listed (fst (run_read (listTransactions user query) db)) = map transaction_view rows /\
    forall t, In t rows ->
      In t (transactions db) /\ t_user_id t = req_id user /\
      (exists w, In w (wallets db) /\ w_id w = t_wallet_id t) /\
      (forall k, q_type query = Some k -> k <> ""%string -> t_type t = k) /\
      (forall c, q_currency query = Some c -> c <> ""%string -> t_currency t = c).
Proof.
  unfold listTransactions. read_step. split; [reflexivity|]. split; [reflexivity|].
  eexists (map fst _). split; [rewrite map_map; reflexivity|].
  intros t Ht. rewrite in_map_iff in Ht. destruct Ht as [[t' c] [E Hin]].
  simpl in E. subst t'. apply sql_limit_incl in Hin. apply matching_rows_In in Hin.
  destruct Hin as (Hin & Hm & Hw). unfold where_matches in Hm.
  apply andb_prop in Hm. destruct Hm as [Hm Hc]. apply andb_prop in Hm.
  destruct Hm as [Hu Hk]. apply Z.eqb_eq in Hu.
  split; [exact Hin|]. split; [exact Hu|]. split; [exact Hw|]. split.
  - intros k Ek Hne. unfold truthy_string in Hk. rewrite Ek in Hk.
    destruct (String.eqb_spec k ""); [contradiction|]. apply String.eqb_eq. exact Hk.
  - intros c0 Ec Hne. unfold truthy_string in Hc. rewrite Ec in Hc.
    destruct (String.eqb_spec c0 ""); [contradiction|]. apply String.eqb_eq. exact Hc.
Qed.

Lemma firstn_plus {A} (a b : nat) (l : list A) :
  firstn (a + b) l = firstn a l ++ firstn b (skipn a l).
Proof.
  revert l. induction a as [|a IH]; intros l; simpl; [reflexivity|].
  destruct l as [|x l]; simpl; [rewrite firstn_nil; reflexivity|].
  rewrite IH. reflexivity.
Qed.

(** Consecutive slices of [l] rows add up to a prefix. *)
Lemma chunks_prefix {A} (l : nat) (rows : list A) (n : nat) :
  flat_map (fun i => firstn l (skipn (i * l) rows)) (seq 0 n) = firstn (n * l) rows.
Proof.
  induction n as [|n IH]; [reflexivity|].
  rewrite seq_S, flat_map_app, IH. simpl flat_map. rewrite app_nil_r.
  replace (S n * l)%nat with (n * l + l)%nat by lia.
  rewrite firstn_plus. reflexivity.
Qed.

Lemma ceil_div_covers (total limit : Z) :
  0 <= total -> 1 <= limit ->
  0 <= - ((- total) / limit) /\ total <= limit * (- ((- total) / limit)).
Proof.
  intros Ht Hl.
  pose proof (Z.div_mod (- total) limit ltac:(lia)) as E.
  pose proof (Z.mod_pos_bound (- total) limit ltac:(lia)) as B.
  assert (Hq : (- total) / limit <= 0) by (apply Z.div_le_upper_bound; lia).
  split; nia.
Qed.

Lemma list_page_slice (user : ReqUser) (query : TransactionsQuery) (db : Db) (p : Z) :
  1 <= limit_of query ->
  list_page user query db p =
  firstn (Z.to_nat (limit_of query))
         (skipn (Z.to_nat ((p - 1) * limit_of query)) (all_listed user query db)).
Proof.
  intros Hl. unfold list_page, listTransactions, all_listed. read_step.
  fold (limit_of query). unfold sql_limit.
  destruct (Z.ltb_spec (limit_of query) 0); [lia|].
  rewrite skipn_map, firstn_map. reflexivity.
Qed.

(** X2. Paging through [GET /transactions] with a limit of at least 1 (20
    when none is given): every page reports the same total, the number of
    matching rows, and the same page count [n]; a page holds at most [limit]
    transactions; pages 1 to [n] put end to end are exactly the matching
    transactions, newest first, none repeated or left out; pages beyond [n]
    are empty. *)
Theorem listTransactions_pages (user : ReqUser) (query : TransactionsQuery) (db : Db) :
  1 <= limit_of query ->
  exists n : nat,
    (forall p,
        pagination_of (fst (run_read (listTransactions user (with_page p query)) db)) =
        Some (mkPagination p (limit_of query)
                           (Z.of_nat (length (all_listed user query db)))
                           (Some (Z.of_nat n)))) /\
    (forall p, Z.of_nat (length (list_page user query db p)) <= limit_of query) /\
    flat_map (list_page user query db) (map Z.of_nat (seq 1 n)) = all_listed user query db /\
    (forall p, Z.of_nat n < p -> list_page user query db p = []).
Proof.
  intros Hl.
  set (total := Z.of_nat (length (all_listed user query db))).
  destruct (ceil_div_covers (total := total) (limit := limit_of query)) as [Hn Hcov];
    [lia|exact Hl|].
  exists (Z.to_nat (- ((- total) / limit_of query))).
  split; [|split; [|split]].
  - intros p. unfold listTransactions, with_page, pagination_of. read_step.
    fold (limit_of query). unfold ceil_div.
    destruct (Z.eqb_spec (limit_of query) 0); [lia|].
    unfold total, all_listed. rewrite length_map, Z2Nat.id by
      (unfold total, all_listed in Hn; rewrite length_map in Hn; exact Hn).
    reflexivity.
  - intros p. rewrite list_page_slice by exact Hl.
    pose proof (firstn_le_length (Z.to_nat (limit_of query))
      (skipn (Z.to_nat ((p - 1) * limit_of query)) (all_listed user query db))). lia.
  - rewrite <- seq_shift, map_map.
    rewrite flat_map_concat_map, map_map, <- flat_map_concat_map.
    rewrite (flat_map_ext _
               (fun i => firstn (Z.to_nat (limit_of query))
                                (skipn (i * Z.to_nat (limit_of query))
                                       (all_listed user query db)))).
    + rewrite chunks_prefix. apply firstn_all2. apply Nat2Z.inj_le.
      rewrite Nat2Z.inj_mul, !Z2Nat.id by lia. fold total.
      rewrite Z.mul_comm. exact Hcov.
    + intros i. cbv beta. rewrite list_page_slice by exact Hl. do 2 f_equal.
      replace (Z.of_nat (S i) - 1) with (Z.of_nat i) by lia.
      rewrite Z2Nat.inj_mul by lia. rewrite Nat2Z.id. reflexivity.
  - intros p Hp. rewrite list_page_slice by exact Hl.
    rewrite skipn_all2; [apply firstn_nil|]. apply Nat2Z.inj_le.
    rewrite Z2Nat.id by nia. fold total. nia.
Qed.

(** X3. With [limit=0], [GET /transactions] lists nothing on any page and
    reports a page count that is not a number ([null] in the JSON), while
    [total] still counts the matching rows. *)
Theorem listTransactions_limit_zero (user : ReqUser) (query : TransactionsQuery) (db : Db) :
  q_limit query = Some 0 ->
  listed (fst (run_read (listTransactions user query) db)) = [] /\
  pagination_of (fst (run_read (listTransactions user query) db)) =
    Some (mkPagination (page_of query) 0
                       (Z.of_nat (length (all_listed user query db))) None).
Proof.
  intros E. unfold listTransactions, pagination_of, all_listed. read_step.
  rewrite E. fold (page_of query). unfold sql_limit, ceil_div. simpl.
  rewrite length_map. split; reflexivity.
Qed.

(** X4. A negative [limit] lifts the limit: a request for page 1 or later is
    answered with every matching transaction in one response. *)
Theorem listTransactions_negative_limit (user : ReqUser) (query : TransactionsQuery)
        (db : Db) :
  limit_of query < 0 -> 1 <= page_of query ->
  listed (fst (run_read (listTransactions user query) db)) = all_listed user query db.
Proof.
  intros Hl Hp. unfold listTransactions, all_listed. read_step.
  fold (limit_of query) (page_of query). unfold sql_limit.
  destruct (Z.ltb_spec (limit_of query) 0); [|lia].
  replace (Z.to_nat ((page_of query - 1) * limit_of query)) with 0%nat by nia.
  reflexivity.
Qed.

(** X5. A page number of 0 or below is served like page 1 (the negative
    offset counts as 0), for any limit of at least 1. *)
Theorem listTransactions_page_below_one (user : ReqUser) (query : TransactionsQuery)
        (db : Db) (p : Z) :
  1 <= limit_of query -> p <= 0 ->
  list_page user query db p = list_page user query db 1.
Proof.
  intros Hl Hp. rewrite !list_page_slice by exact Hl.
  replace (Z.to_nat ((p - 1) * limit_of query)) with 0%nat by nia.
  replace (Z.to_nat ((1 - 1) * limit_of query)) with 0%nat by lia.
  reflexivity.
Qed.

Lemma find_app_none {A} (P : A -> bool) (l1 l2 : list A) :
  (forall x, In x l1 -> P x = false) -> find P (l1 ++ l2) = find P l2.
Proof.
  induction l1 as [|x l1 IH]; simpl; intros H; [reflexivity|].
  rewrite (H x) by auto. apply IH. intros y Hy. apply H. auto.
Qed.

(** X6. [GET /transactions/:id] answers 200 only with a stored transaction
    that has this id and belongs to the caller; when every transaction with
    this id belongs to someone else, or there is none, the answer is 404
    [NOT_FOUND].  The store is left as it is. *)
Theorem getTransaction_owner_only (user : ReqUser) (id : Z) (db : Db) :
  snd (run_read (getTransaction user id) db) = db /\
  (forall v,
      fst (run_read (getTransaction user id) db) =
        mkReadResponse 200 (TransactionItemBody v) ->
      exists t, In t (transactions db) /\ t_id t = id /\ t_user_id t = req_id user /\
                v = transaction_view t) /\
  ((forall t, In t (transactions db) -> t_id t = id -> t_user_id t <> req_id user) ->
   fst (run_read (getTransaction user id) db) =
     mkReadResponse 404 (ReadErrorBody "Transaction not found" "NOT_FOUND")).
Proof.
  unfold getTransaction. read_step.
  destruct (find _ (join_wallets (wallets db) (transactions db))) as [[t c]|] eqn:E.
  - apply find_some in E. destruct E as [Hin Hp]. apply join_wallets_In in Hin.
    destruct Hin as [Hin _]. simpl in Hp. apply andb_prop in Hp.
    destruct Hp as [Hid Hu]. apply Z.eqb_eq in Hid. apply Z.eqb_eq in Hu.
    read_step. split; [reflexivity|]. split.
    + intros v [= <-]. exists t. auto.
    + intros Hother. exfalso. exact (Hother t Hin Hid Hu).
  - read_step. split; [reflexivity|]. split; [discriminate|reflexivity].
Qed.

Lemma join_wallets_app (ws : list WalletRow) (ts1 ts2 : list TransactionRow) :
  join_wallets ws (ts1 ++ ts2) = join_wallets ws ts1 ++ join_wallets ws ts2.
Proof. unfold join_wallets. apply flat_map_app. Qed.

Lemma filter_first {A} (P : A -> bool) (l : list A) (x : A) :
  In x l -> P x = true -> exists y ys, filter P l = y :: ys /\ P y = true.
Proof.
  intros Hin Hx. assert (H : In x (filter P l)) by (apply filter_In; auto).
  destruct (filter P l) as [|y ys] eqn:E; [destruct H|].
  exists y, ys. split; [reflexivity|].
  assert (Hy : In y (filter P l)) by (rewrite E; left; reflexivity).
  apply filter_In in Hy. tauto.
Qed.

(** Looking up a freshly filed row through the join with [wallets]. *)
Lemma find_filed_row (ws : list WalletRow) (ts : list TransactionRow)
      (r : TransactionRow) (w : WalletRow) :
  t_id r = next_rowid t_id ts -> In w ws -> w_id w = t_wallet_id r ->
  exists c,
    find (fun x => (t_id (fst x) =? t_id r) && (t_user_id (fst x) =? t_user_id r))
         (join_wallets ws (ts ++ [r])) = Some (r, c).
Proof.
  intros Eid Hw Ew. rewrite join_wallets_app, find_app_none.
  - unfold join_wallets. simpl. rewrite app_nil_r.
    destruct (filter_first (fun w' => w_id w' =? t_wallet_id r) ws w Hw) as (y & ys & E & _).
    { apply Z.eqb_eq. exact Ew. }
    rewrite E. simpl. rewrite !Z.eqb_refl. simpl. eauto.
  - intros [t c] Hin. apply join_wallets_In in Hin. destruct Hin as [Hin _]. simpl.
    pose proof (next_rowid_fresh t_id ts t Hin).
    destruct (Z.eqb_spec (t_id t) (t_id r)); [lia|reflexivity].
Qed.

Lemma update_where_In (k b now : Z) (rows : list WalletRow) (w : WalletRow) :
  In w rows ->
  exists w', In w' (update_where w_id k (set_balance b now) rows) /\ w_id w' = w_id w.
Proof.
  intros Hin. exists (if w_id w =? k then set_balance b now w else w). split.
  - unfold update_where. apply in_map_iff. exists w. auto.
  - destruct (w_id w =? k); reflexivity.
Qed.

(** X7. Round trip: the transaction an accepted [recordTransaction] call
    reports can be fetched by the same user with [GET /transactions/:id]
    under the reported id, and the two views are identical. *)
Theorem recordTransaction_then_getTransaction
        (user : ReqUser) (body : TransactionBody) (db : Db)
        (value : TransactionValue) (w : WalletRow) :
  createTransactionSchema body = inr value ->
  wallet_of_user (req_id user) (wallets db) = Some w ->
  (is_debit_type (type value) = true -> amount value <= availableBalance w) ->
  exists view newBalance,
    fst (run (recordTransaction user body) db) =
      mkResponse 201 (TransactionCreatedBody "Transaction created successfully"
                                            view newBalance) /\
    fst (run_read (getTransaction user (tv_id view))
                  (snd (run (recordTransaction user body) db))) =
      mkReadResponse 200 (TransactionItemBody view).
Proof.
  intros Ev Ew Hok.
  destruct (recordTransaction_accepted user body db Ev Ew Hok) as (Hr & Hw & Ht & _).
  do 2 eexists. split; [exact Hr|].
  unfold getTransaction. read_step. rewrite Hw, Ht.
  destruct (wallet_of_user_In _ _ Ew) as [Hin _].
  destruct (update_where_In (w_id w)
              (newBalance_of (type value) (amount value) w) (clock db) _ _ Hin)
    as (w' & Hin' & Eid').
  destruct (@find_filed_row
              (update_where w_id (w_id w)
                 (set_balance (newBalance_of (type value) (amount value) w) (clock db))
                 (wallets db))
              (transactions db) (filed_row user value w "completed" db) w')
    as [c Hc]; [reflexivity|exact Hin'|exact Eid'|].
  cbn [filed_row t_id t_user_id transaction_view tv_id] in *. rewrite Hc. reflexivity.
Qed.

(** X8. Read your write: after an accepted [recordTransaction] call,
    [GET /balance] of the same user reports the [newBalance] of the
    response as the balance, and that balance minus the frozen balance as
    the available balance. *)
Theorem recordTransaction_then_getBalance
        (user : ReqUser) (body : TransactionBody) (db : Db)
        (value : TransactionValue) (w : WalletRow) :
  createTransactionSchema body = inr value ->
  wallet_of_user (req_id user) (wallets db) = Some w ->
  (is_debit_type (type value) = true -> amount value <= availableBalance w) ->
  exists view newBalance wallet,
    fst (run (recordTransaction user body) db) =
      mkResponse 201 (TransactionCreatedBody "Transaction created successfully"
                                            view newBalance) /\
    fst (run (getBalance user) (snd (run (recordTransaction user body) db))) =
      mkResponse 200 (BalanceBody wallet) /\
    bv_balance wallet = newBalance /\
    bv_frozenBalance wallet = w_frozen_balance w /\
    bv_availableBalance wallet = newBalance - w_frozen_balance w.
Proof.
  intros Ev Ew Hok.
  destruct (recordTransaction_accepted user body db Ev Ew Hok) as (Hr & Hw & _ & _).
  do 3 eexists. split; [exact Hr|].
  unfold getBalance. run_step. rewrite Hw, wallet_of_user_update, Ew.
  cbn [option_map]. rewrite Z.eqb_refl. run_step. repeat split.
Qed.

Lemma join_wallets_length (ws : list WalletRow) (ts : list TransactionRow) :
  length (join_wallets ws ts) =
  list_sum (map (fun t => length (filter (fun i => i =? t_wallet_id t) (map w_id ws))) ts).
Proof.
  unfold join_wallets. rewrite length_flat_map. f_equal. apply map_ext. intros t.
  rewrite length_map. induction ws as [|x ws IH]; simpl; [reflexivity|].
  destruct (w_id x =? t_wallet_id t); simpl; rewrite IH; reflexivity.
Qed.

Lemma list_sum_map_perm {A} (f : A -> nat) (l l' : list A) :
  Permutation l l' -> list_sum (map f l) = list_sum (map f l').
Proof.
  induction 1; simpl; lia.
Qed.

Lemma key_occurs_once (k : Z) (keys : list Z) :
  NoDup keys -> In k keys -> length (filter (fun i => i =? k) keys) = 1%nat.
Proof.
  induction keys as [|x keys IH]; simpl; intros Hnd Hin; [destruct Hin|].
  inversion Hnd as [|? ? Hnot Hnd']; subst.
  destruct (Z.eqb_spec x k) as [->|Hne].
  - simpl. f_equal.
    assert (E : filter (fun i => i =? k) keys = []).
    { clear IH Hnd Hnd' Hin. induction keys as [|y keys IHk]; simpl; [reflexivity|].
      destruct (Z.eqb_spec y k) as [->|_].
      - exfalso. apply Hnot. left. reflexivity.
      - apply IHk. intros H. apply Hnot. right. exact H. }
    rewrite E. reflexivity.
  - destruct Hin as [E|Hin]; [contradiction|]. apply IH; assumption.
Qed.

(** X9. An accepted [recordTransaction] call adds exactly one transaction to
    what [GET /transactions] of the same user pages through when the new
    transaction passes the request's filters, and none otherwise (wallet ids
    being distinct). *)
Theorem recordTransaction_grows_listing
        (user : ReqUser) (body : TransactionBody) (db : Db)
        (value : TransactionValue) (w : WalletRow) (query : TransactionsQuery) :
  wallets_primary_key db ->
  createTransactionSchema body = inr value ->
  wallet_of_user (req_id user) (wallets db) = Some w ->
  (is_debit_type (type value) = true -> amount value <= availableBalance w) ->
  length (all_listed user query (snd (run (recordTransaction user body) db))) =
  (length (all_listed user query db)
   + if where_matches (req_id user) (truthy_string (q_type query))
                      (truthy_string (q_currency query))
                      (filed_row user value w "completed" db)
     then 1 else 0)%nat.
Proof.
  intros Hpk Ev Ew Hok.
  destruct (recordTransaction_accepted user body db Ev Ew Hok) as (_ & Hw & Ht & _).
  unfold all_listed, matching_rows. rewrite !length_map, !join_wallets_length, Hw, Ht.
  rewrite update_where_keys.
  rewrite <- !(list_sum_map_perm _ (order_by_created_at_desc_perm _)).
  rewrite filter_app, map_app, list_sum_app. f_equal.
  cbn [filter]. destruct (where_matches _ _ _ _); [|reflexivity].
  cbn [map list_sum filed_row t_wallet_id]. rewrite key_occurs_once; [reflexivity|exact Hpk|].
  apply in_map. apply (wallet_of_user_In _ _ Ew).
Qed.

(* ================================================================== *)
(** ** Route tables *)

Ltac route_facts :=
  repeat match goal with
         | H : (_ && _)%bool = true |- _ => apply andb_prop in H; destruct H
         | H : (toLowerCase ?s =? _)%string = true |- _ =>
             apply String.eqb_eq in H; try rewrite H
         | H : negb (?s =? "")%string = true |- _ =>
             apply negb_true_iff in H; try rewrite H
         | H : false = true |- _ => discriminate H
         end.

Ltac route_cases Hin r :=
  cbn [In] in Hin;
  repeat match type of Hin with
         | _ \/ _ => destruct Hin as [Hin|Hin]; [subst r|]
         | False => destruct Hin
         end.

Ltac route_table routes :=
  let m := fresh "m" in
  let path := fresh "path" in
  let r := fresh "r" in
  let Hin := fresh "Hin" in
  let Hm := fresh "Hm" in
  intros m path r Hin Hm;
  unfold dispatch; unfold route_matches in *;
  unfold routes in Hin; route_cases Hin r;
  cbn [route_method route_pattern route_handler] in *;
  destruct m; cbn [method_eqb andb] in *; try discriminate Hm;
  (destruct (path_segments path) as [[|s1 [|s2 [|s3 rest]]]|];
   cbn [pieces_match andb] in Hm;
   try discriminate Hm;
   unfold routes;
   cbn [find route_method route_pattern route_handler method_eqb pieces_match andb];
   route_facts; rewrite ?andb_false_r;
   vm_compute; reflexivity).

(** X10. In the wallet router and in the shipments router no route is
    shadowed: whenever a request matches the method and path pattern of a
    route, that route's handler runs, whatever routes are declared before
    it. *)
Theorem wallet_and_shipment_routes_unshadowed :
  unshadowed wallet_routes /\ unshadowed shipment_routes.
Proof.
  split.
  - route_table wallet_routes.
  - route_table shipment_routes.
Qed.

Ltac route_split :=
  repeat match goal with
         | |- context [negb (?s =? "")%string] =>
             destruct (String.eqb_spec s ""); [subst s|]; cbn [negb andb]
         | |- context [(toLowerCase ?s =? ?n)%string] =>
             is_var s; destruct (toLowerCase s =? n)%string; cbn [andb]
         end.

(** X11. In the notifications router the statistics route is dead: it is
    declared after [GET /:id], which matches every one-segment path, so no
    request is ever dispatched to the statistics handler, and every request
    that matches [GET /stats] runs the single-notification handler. *)
Theorem notification_stats_unreachable :
  (forall m path, dispatch notification_routes m path <> Some HNotificationStats) /\
  (forall path,
      route_matches GET path (mkRoute GET [Lit "stats"] HNotificationStats) = true ->
      dispatch notification_routes GET path = Some HGetNotification).
Proof.
  split.
  - intros m path. unfold dispatch, notification_routes, route_matches.
    destruct m;
      (destruct (path_segments path) as [[|s1 [|s2 [|s3 rest]]]|];
       cbn [find route_method route_pattern route_handler method_eqb pieces_match andb
            option_map];
       rewrite ?andb_false_r; route_split; vm_compute; discriminate).
  - intros path Hm. unfold dispatch, notification_routes. unfold route_matches in *.
    cbn [route_method route_pattern method_eqb andb] in Hm.
    destruct (path_segments path) as [[|s1 [|s2 rest]]|];
      cbn [pieces_match andb] in Hm; rewrite ?andb_false_r in Hm; try discriminate Hm.
    apply andb_prop in Hm. destruct Hm as [Hs _]. apply String.eqb_eq in Hs.
    cbn [find route_method route_pattern route_handler method_eqb pieces_match andb
         option_map].
    destruct (String.eqb_spec s1 ""); [subst s1; vm_compute in Hs; discriminate Hs|].
    reflexivity.
Qed.

(* ================================================================== *)
(** ** Accounts *)

Ltac auth_step :=
  cbn [run_auth run_script exec_auth fst snd id changes accounts b_wallets b_transactions
       b_notifications b_sessions b_clock b_entropy auth_status auth_json
       rv_email rv_password rv_firstName rv_lastName rv_company rv_phone rv_country].

Lemma find_email_none (email : string) (rows : list (UserRow * UserExtra)) :
  find (fun a => (u_email (fst a) =? email)%string) rows = None <->
  (forall a, In a rows -> u_email (fst a) <> email).
Proof.
  split.
  - intros H a Hin E. apply (find_none _ _ H) in Hin. simpl in Hin.
    rewrite E, String.eqb_refl in Hin. discriminate.
  - intros H. destruct (find _ rows) as [a|] eqn:E; [|reflexivity].
    apply find_some in E. destruct E as [Hin E]. apply String.eqb_eq in E.
    exfalso. exact (H a Hin E).
Qed.

Section AccountProperties.

Variable is_email : string -> bool.
Variable bcrypt_hash : string -> nat -> string.
Variable bcrypt_compare : string -> string -> bool.
Variable jwt_sign : JwtClaims -> string.
Variable jwt_verify : string -> Z -> JwtVerdict.

(** X12. [POST /register] with a valid body and an e-mail address no user
    row carries answers 201 and adds exactly one user row and one wallet
    row: the user is active, has a fresh id and the requested e-mail; the
    wallet belongs to that user, is in USD, and has balance 0 and frozen
    balance 0.  One session row is added; transactions are untouched. *)
Theorem register_creates_user_and_wallet (body : RegisterBody) (value : RegisterValue)
        (b : Backend) :
  registerSchema is_email body = inr value ->
  (forall a, In a (accounts b) -> u_email (fst a) <> rv_email value) ->
  exists (view : AuthUserView) (token refreshToken : string) (extra : UserExtra)
         (wallet_uuid : string) (session : SessionRow),
    fst (run_auth bcrypt_hash bcrypt_compare (register is_email jwt_sign body) b) =
      mkAuthResponse 201
        (AuthSuccessBody "User registered successfully" view token refreshToken) /\
    (forall a, In a (accounts b) -> u_id (fst a) < av_id view) /\
    av_email view = rv_email value /\
    accounts (snd (run_auth bcrypt_hash bcrypt_compare (register is_email jwt_sign body) b)) =
      accounts b ++ [(mkUser (av_id view) (av_uuid view) (rv_email value)
                             (rv_firstName value) (rv_lastName value) true, extra)] /\
    b_wallets (snd (run_auth bcrypt_hash bcrypt_compare (register is_email jwt_sign body) b)) =
      b_wallets b ++ [mkWallet (next_rowid w_id (b_wallets b)) wallet_uuid (av_id view)
                               "USD" 0 0 (b_clock b) (b_clock b)] /\
    b_sessions (snd (run_auth bcrypt_hash bcrypt_compare (register is_email jwt_sign body) b)) =
      b_sessions b ++ [session] /\
    ses_user_id session = av_id view /\ ses_token_hash session = refreshToken /\
    b_transactions (snd (run_auth bcrypt_hash bcrypt_compare (register is_email jwt_sign body) b)) = b_transactions b.
Proof.
  intros Ev Hfresh. apply find_email_none in Hfresh.
  unfold register. rewrite Ev. auth_step. rewrite Hfresh. cbn [option_map]. auth_step.
  do 6 eexists. split; [reflexivity|]. cbn [av_id av_email av_uuid].
  split; [intros a Ha; apply (next_rowid_fresh (fun a => u_id (fst a)) _ a Ha)|].
  repeat split.
Qed.

(** X13. [POST /register] with a valid body whose e-mail address some user
    row already carries, active or not, answers 409 [USER_EXISTS] and leaves
    the store as it is. *)
Theorem register_existing_email (body : RegisterBody) (value : RegisterValue)
        (b : Backend) (a : UserRow * UserExtra) :
  registerSchema is_email body = inr value ->
  In a (accounts b) -> u_email (fst a) = rv_email value ->
  run_auth bcrypt_hash bcrypt_compare (register is_email jwt_sign body) b =
    (mkAuthResponse 409
       (AuthErrorBody "User with this email already exists" "USER_EXISTS"), b).
Proof.
  intros Ev Hin E. unfold register. rewrite Ev. auth_step.
  destruct (find _ (accounts b)) as [x|] eqn:F.
  - reflexivity.
  - exfalso. rewrite find_email_none in F. exact (F a Hin E).
Qed.

End AccountProperties.

Lemma NoDup_snoc {A} (l : list A) (x : A) : NoDup l -> ~ In x l -> NoDup (l ++ [x]).
Proof.
  intros Hnd Hx. apply NoDup_app; [exact Hnd|repeat constructor; intros []|].
  intros y Hy [<-|[]]. exact (Hx Hy).
Qed.

Lemma find_app_some {A} (P : A -> bool) (l1 l2 : list A) (x : A) :
  find P l1 = Some x -> find P (l1 ++ l2) = Some x.
Proof.
  induction l1 as [|y l1 IH]; simpl; [discriminate|].
  destruct (P y); [auto|exact IH].
Qed.

Lemma wallet_of_user_found (uid : Z) (ws : list WalletRow) :
  wallet_of_user uid ws <> None <-> In uid (map w_user_id ws).
Proof.
  unfold wallet_of_user. induction ws as [|w ws IH]; simpl.
  - split; [intros H; exfalso; apply H; reflexivity|intros []].
  - destruct (Z.eqb_spec (w_user_id w) uid) as [E|Hne].
    + split; [intros _; left; exact E|intros _; discriminate].
    + rewrite IH. split; [intros H; right; exact H|intros [E|H]; [contradiction|exact H]].
Qed.

Lemma healthy_same (b b' : Backend) :
  accounts b' = accounts b -> b_wallets b' = b_wallets b -> healthy b -> healthy b'.
Proof.
  intros Ea Ew. unfold healthy, provisioned, wallets_reference_users.
  rewrite Ea, Ew. tauto.
Qed.

(** A new user with an unused e-mail address and a wallet of its own keep the
    store healthy. *)
Lemma healthy_add_account (b b' : Backend) (uuid email first last wuuid cur : string)
      (extra : UserExtra) (balance c1 c2 : Z) :
  healthy b ->
  (forall a, In a (accounts b) -> u_email (fst a) <> email) ->
  accounts b' =
    accounts b ++ [(mkUser (next_rowid (fun a => u_id (fst a)) (accounts b)) uuid email
                           first last true, extra)] ->
  b_wallets b' =
    b_wallets b ++ [mkWallet (next_rowid w_id (b_wallets b)) wuuid
                             (next_rowid (fun a => u_id (fst a)) (accounts b))
                             cur balance 0 c1 c2] ->
  healthy b'.
Proof.
  intros (Hpk & Hids & Hem & Hprov & Hfk) Hfresh Ea Ew.
  unfold healthy, provisioned, wallets_reference_users. rewrite Ea, Ew.
  split; [|split; [|split; [|split]]].
  - rewrite map_app. apply NoDup_snoc; [exact Hpk|]. simpl. intros Hin.
    apply in_map_iff in Hin. destruct Hin as [w [E Hw]].
    pose proof (next_rowid_fresh w_id _ w Hw). lia.
  - rewrite map_app. apply NoDup_snoc; [exact Hids|]. simpl. intros Hin.
    apply in_map_iff in Hin. destruct Hin as [a [E Ha]].
    pose proof (next_rowid_fresh (fun a => u_id (fst a)) _ a Ha). simpl in *. lia.
  - rewrite map_app. apply NoDup_snoc; [exact Hem|]. simpl. intros Hin.
    apply in_map_iff in Hin. destruct Hin as [a [E Ha]]. exact (Hfresh a Ha E).
  - intros a Ha. apply wallet_of_user_found. rewrite map_app. apply in_or_app.
    apply in_app_or in Ha. destruct Ha as [Ha|[<-|[]]].
    + left. apply wallet_of_user_found. apply Hprov. exact Ha.
    + right. left. reflexivity.
  - intros w Hw. apply in_app_or in Hw. destruct Hw as [Hw|[<-|[]]].
    + destruct (Hfk w Hw) as [a [Ha E]]. exists a. split; [apply in_or_app; auto|exact E].
    + eexists. split; [apply in_or_app; right; left; reflexivity|reflexivity].
Qed.

Lemma update_where_owners (k b now : Z) (rows : list WalletRow) :
  map w_user_id (update_where w_id k (set_balance b now) rows) = map w_user_id rows.
Proof.
  unfold update_where. rewrite map_map. apply map_ext. intros w.
  destruct (w_id w =? k); reflexivity.
Qed.

(** The wallet routes never change which user owns which wallet. *)
Lemma handler_owners (is_email : string -> bool) (c : Call) (db : Db) :
  map w_user_id (wallets (snd (run (handler is_email c) db))) = map w_user_id (wallets db).
Proof.
  unfold handler. destruct (request c) as [body|body| |].
  - destruct (recordTransaction_wallets (caller c) body db)
      as [E|(v & w & _ & _ & _ & E)]; rewrite E; [reflexivity|apply update_where_owners].
  - destruct (transferFunds_wallets is_email (caller c) body db)
      as [E|(v & sw & r & rw & _ & _ & _ & _ & _ & E)]; rewrite E; [reflexivity|].
    rewrite !update_where_owners. reflexivity.
  - rewrite getBalance_db. reflexivity.
  - rewrite getStats_db. reflexivity.
Qed.

(** Nor do they change the wallet ids. *)
Lemma handler_wallet_ids (is_email : string -> bool) (c : Call) (db : Db) :
  map w_id (wallets (snd (run (handler is_email c) db))) = map w_id (wallets db).
Proof.
  unfold handler. destruct (request c) as [body|body| |].
  - destruct (recordTransaction_wallets (caller c) body db)
      as [E|(v & w & _ & _ & _ & E)]; rewrite E; [reflexivity|apply update_where_keys].
  - destruct (transferFunds_wallets is_email (caller c) body db)
      as [E|(v & sw & r & rw & _ & _ & _ & _ & _ & E)]; rewrite E; [reflexivity|].
    rewrite !update_where_keys. reflexivity.
  - rewrite getBalance_db. reflexivity.
  - rewrite getStats_db. reflexivity.
Qed.

Lemma run_ledger_healthy (is_email : string -> bool) (c : Call) (b : Backend) :
  healthy b -> healthy (snd (run_ledger (handler is_email c) b)).
Proof.
  intros (Hpk & Hids & Hem & Hprov & Hfk). unfold run_ledger.
  pose proof (handler_owners is_email c (ledger_of b)) as Hown.
  pose proof (handler_wallet_ids is_email c (ledger_of b)) as Hkeys.
  destruct (run (handler is_email c) (ledger_of b)) as [r db'] eqn:E.
  cbn [snd] in *. unfold healthy, provisioned, wallets_reference_users.
  cbn [store_ledger accounts b_wallets]. cbn [ledger_of wallets] in Hown, Hkeys.
  split; [rewrite Hkeys; exact Hpk|]. split; [exact Hids|].
  split; [exact Hem|]. split.
  - intros a Ha. apply wallet_of_user_found. rewrite Hown.
    apply wallet_of_user_found. apply Hprov. exact Ha.
  - intros w Hw. assert (Hu : In (w_user_id w) (map w_user_id (b_wallets b))).
    { rewrite <- Hown. apply in_map. exact Hw. }
    apply in_map_iff in Hu. destruct Hu as [w0 [E0 Hw0]].
    destruct (Hfk w0 Hw0) as [a [Ha Ea]]. exists a. split; [exact Ha|congruence].
Qed.

Section AccountInvariants.

Variable is_email : string -> bool.
Variable bcrypt_hash : string -> nat -> string.
Variable bcrypt_compare : string -> string -> bool.
Variable jwt_sign : JwtClaims -> string.

Lemma register_healthy (body : RegisterBody) (b : Backend) :
  healthy b ->
  healthy (snd (run_auth bcrypt_hash bcrypt_compare (register is_email jwt_sign body) b)).
Proof.
  intros H. unfold register.
  destruct (registerSchema is_email body) as [e|value]; [exact H|].
  auth_step. destruct (find _ (accounts b)) as [x|] eqn:F; cbn [option_map]; [exact H|].
  auth_step. rewrite find_email_none in F.
  eapply (healthy_add_account (b := b)); [exact H|exact F|reflexivity|reflexivity].
Qed.

Lemma demoLogin_healthy (email : string) (b : Backend) :
  healthy b ->
  healthy (snd (run_auth bcrypt_hash bcrypt_compare (demoLogin jwt_sign email) b)).
Proof.
  intros H. unfold demoLogin. auth_step.
  destruct (find _ (accounts b)) as [x|] eqn:F; auth_step; [exact H|].
  rewrite find_email_none in F.
  eapply (healthy_add_account (b := b)); [exact H|exact F|reflexivity|reflexivity].
Qed.

Lemma update_last_login_accounts (uid now : Z) (rows : list (UserRow * UserExtra)) :
  map fst (update_where (fun a => u_id (fst a)) uid (set_last_login now) rows) = map fst rows.
Proof.
  unfold update_where. rewrite map_map. apply map_ext. intros a.
  destruct (u_id (fst a) =? uid); reflexivity.
Qed.

Lemma healthy_users (b b' : Backend) :
  map fst (accounts b') = map fst (accounts b) -> b_wallets b' = b_wallets b ->
  healthy b -> healthy b'.
Proof.
  intros Ea Ew (Hpk & Hids & Hem & Hprov & Hfk).
  assert (Hids' : map (fun a => u_id (fst a)) (accounts b') =
                  map (fun a => u_id (fst a)) (accounts b)).
  { rewrite <- (map_map fst u_id), Ea, map_map. reflexivity. }
  assert (Hem' : map (fun a => u_email (fst a)) (accounts b') =
                 map (fun a => u_email (fst a)) (accounts b)).
  { rewrite <- (map_map fst u_email), Ea, map_map. reflexivity. }
  assert (Hin : forall u, In u (map fst (accounts b')) <-> In u (map fst (accounts b)))
    by (intros u; rewrite Ea; tauto).
  unfold healthy, provisioned, wallets_reference_users. rewrite Ew, Hids', Hem'.
  split; [exact Hpk|]. split; [exact Hids|]. split; [exact Hem|].
  split.
  - intros a Ha. assert (Hu : In (fst a) (map fst (accounts b))).
    { apply Hin. apply in_map. exact Ha. }
    apply in_map_iff in Hu. destruct Hu as [a0 [E Ha0]]. rewrite <- E. apply Hprov. exact Ha0.
  - intros w Hw. destruct (Hfk w Hw) as [a [Ha E]].
    assert (Hu : In (fst a) (map fst (accounts b'))) by (apply Hin; apply in_map; exact Ha).
    apply in_map_iff in Hu. destruct Hu as [a' [E' Ha']]. exists a'.
    split; [exact Ha'|]. rewrite E'. exact E.
Qed.

Lemma login_healthy (body : LoginBody) (b : Backend) :
  healthy b ->
  healthy (snd (run_auth bcrypt_hash bcrypt_compare (login is_email jwt_sign body) b)).
Proof.
  intros H. unfold login.
  destruct (loginSchema is_email body) as [e|[email password]]; [exact H|].
  auth_step. destruct (find _ (accounts b)) as [x|]; auth_step; [|exact H].
  destruct (u_is_active (fst x)); cbn [negb]; auth_step; [|exact H].
  destruct (bcrypt_compare password (x_password_hash (snd x))); cbn [negb]; auth_step;
    [|exact H].
  apply healthy_users with (b := b); [|reflexivity|exact H].
  cbn [accounts]. apply update_last_login_accounts.
Qed.

Lemma serve_backend_healthy (t : Z) (r : BackendRequest) (b : Backend) :
  healthy b -> healthy (serve_backend is_email bcrypt_hash bcrypt_compare jwt_sign t r b).
Proof.
  intros H.
  assert (H0 : healthy (with_b_clock b t))
    by (apply healthy_same with (b := b); [reflexivity|reflexivity|exact H]).
  unfold serve_backend. destruct r.
  - apply register_healthy. exact H0.
  - apply login_healthy. exact H0.
  - apply demoLogin_healthy. exact H0.
  - apply run_ledger_healthy. exact H0.
Qed.

(** X14. The empty store is healthy, and every request sequence made of
    [/register], [/login], [/demo-login] and wallet-route calls keeps a
    healthy store healthy: after each request wallet ids, user ids and e-mail
    addresses are distinct, every user has a wallet and every wallet has a
    user.  (The amounts in the wallets play no part in this.) *)
Theorem backend_stays_healthy :
  healthy empty_backend /\
  forall (calls : list (Z * BackendRequest)) (b : Backend),
    healthy b ->
    Forall healthy
           (serve_backend_all is_email bcrypt_hash bcrypt_compare jwt_sign calls b).
Proof.
  split.
  - unfold healthy, provisioned, wallets_reference_users, empty_backend. simpl.
    repeat split; try constructor; intros ? [].
  - induction calls as [|[t r] calls IH]; intros b H; simpl; constructor.
    + apply serve_backend_healthy. exact H.
    + apply IH. apply serve_backend_healthy. exact H.
Qed.

End AccountInvariants.

Lemma unique_by {A K} (key : A -> K) (rows : list A) (x y : A) :
  NoDup (map key rows) -> In x rows -> In y rows -> key x = key y -> x = y.
Proof.
  induction rows as [|r rows IH]; simpl; [tauto|].
  intros Hnd Hx Hy E. inversion Hnd as [|? ? Hnotin Hnd']; subst.
  destruct Hx as [->|Hx], Hy as [->|Hy]; auto.
  - exfalso. apply Hnotin. rewrite E. apply in_map. exact Hy.
  - exfalso. apply Hnotin. rewrite <- E. apply in_map. exact Hx.
Qed.

Lemma find_by_email (email : string) (rows : list (UserRow * UserExtra))
      (a : UserRow * UserExtra) :
  NoDup (map (fun a => u_email (fst a)) rows) -> In a rows -> u_email (fst a) = email ->
  find (fun a => (u_email (fst a) =? email)%string) rows = Some a.
Proof.
  intros Hnd Hin E. destruct (find _ rows) as [x|] eqn:F.
  - apply find_some in F. destruct F as [Hx Ex]. apply String.eqb_eq in Ex.
    f_equal. eapply (unique_by (fun a => u_email (fst a))); eauto. congruence.
  - exfalso. rewrite find_email_none in F. exact (F a Hin E).
Qed.

Section AccountRoutes.

Variable is_email : string -> bool.
Variable bcrypt_hash : string -> nat -> string.
Variable bcrypt_compare : string -> string -> bool.
Variable jwt_sign : JwtClaims -> string.
Variable jwt_verify : string -> Z -> JwtVerdict.

(** X15. A user who has just registered can read a balance: when every
    wallet row refers to a user row, [GET /balance] for the id that
    [POST /register] returned answers 200 with balance 0, frozen balance 0,
    available balance 0 and currency USD. *)
Theorem register_then_getBalance (body : RegisterBody) (value : RegisterValue)
        (b : Backend) (user : ReqUser) :
  registerSchema is_email body = inr value ->
  (forall a, In a (accounts b) -> u_email (fst a) <> rv_email value) ->
  wallets_reference_users b ->
  exists view token refreshToken wallet,
    fst (run_auth bcrypt_hash bcrypt_compare (register is_email jwt_sign body) b) =
      mkAuthResponse 201
        (AuthSuccessBody "User registered successfully" view token refreshToken) /\
    (req_id user = av_id view ->
     fst (run_ledger (getBalance user)
            (snd (run_auth bcrypt_hash bcrypt_compare (register is_email jwt_sign body) b))) =
       mkResponse 200 (BalanceBody wallet) /\
     bv_balance wallet = 0 /\ bv_frozenBalance wallet = 0 /\
     bv_availableBalance wallet = 0 /\ bv_currency wallet = "USD"%string).
Proof.
  intros Ev Hfresh Hfk. apply find_email_none in Hfresh.
  unfold register. rewrite Ev. auth_step. rewrite Hfresh. cbn [option_map]. auth_step.
  do 4 eexists. split; [reflexivity|]. cbn [av_id]. intros Eid.
  unfold run_ledger, getBalance. run_step. cbn [ledger_of wallets]. auth_step.
  rewrite Eid. unfold wallet_of_user. rewrite find_app_none.
  - cbn [find w_user_id]. rewrite Z.eqb_refl. cbn [store_ledger fst]. repeat split.
  - intros w Hw. destruct (Hfk w Hw) as [a [Ha Ea]].
    pose proof (next_rowid_fresh (fun a => u_id (fst a)) _ a Ha) as Hlt. simpl in Hlt.
    apply Z.eqb_neq. lia.
Qed.

Lemma active_user_by_email_In (email : string) (rows : list UserRow) (r : UserRow) :
  active_user_by_email email rows = Some r -> In r rows.
Proof. unfold active_user_by_email. intros H. apply find_some in H. tauto. Qed.

(** X16. Where every user row has a wallet (as [/register] and
    [/demo-login] keep it), a transfer never fails for lack of the
    recipient's wallet; and for a caller who is a user row, neither
    [transferFunds] nor [recordTransaction] fails for lack of the caller's
    wallet, and [GET /balance] answers 200. *)
Theorem provisioned_wallets_are_found (b : Backend) (user : ReqUser) :
  provisioned b ->
  (forall body,
      error_code (fst (run_ledger (transferFunds is_email user body) b)) <>
      Some "RECIPIENT_WALLET_NOT_FOUND"%string) /\
  ((exists a, In a (accounts b) /\ u_id (fst a) = req_id user) ->
   (forall body,
       error_code (fst (run_ledger (transferFunds is_email user body) b)) <>
       Some "SENDER_WALLET_NOT_FOUND"%string) /\
   (forall body,
       error_code (fst (run_ledger (recordTransaction user body) b)) <>
       Some "WALLET_NOT_FOUND"%string) /\
   status (fst (run_ledger (getBalance user) b)) = 200).
Proof.
  intros Hprov. split.
  - intros body. unfold run_ledger, transferFunds.
    destruct (transferSchema is_email body) as [e|value]; [discriminate|].
    run_step. cbn [ledger_of wallets users].
    destruct (wallet_of_user (req_id user) (b_wallets b)) as [sw|]; [|discriminate].
    destruct (w_balance sw - w_frozen_balance sw <? transfer_amount value); [discriminate|].
    run_step. cbn [ledger_of wallets users].
    destruct (active_user_by_email (recipientEmail value) (map fst (accounts b)))
      as [r|] eqn:Er; [|discriminate].
    run_step. cbn [ledger_of wallets users].
    apply active_user_by_email_In in Er. apply in_map_iff in Er.
    destruct Er as [a [E Ha]]. specialize (Hprov a Ha). rewrite E in Hprov.
    destruct (wallet_of_user (u_id r) (b_wallets b)) as [rw|]; [|contradiction].
    discriminate.
  - intros [a [Ha Ea]]. specialize (Hprov a Ha). rewrite Ea in Hprov.
    destruct (wallet_of_user (req_id user) (b_wallets b)) as [w|] eqn:Ew; [|contradiction].
    split; [|split].
    + intros body. unfold run_ledger, transferFunds.
      destruct (transferSchema is_email body) as [e|value]; [discriminate|].
      run_step. cbn [ledger_of wallets users]. rewrite Ew.
      destruct (w_balance w - w_frozen_balance w <? transfer_amount value); [discriminate|].
      run_step. cbn [ledger_of wallets users].
      destruct (active_user_by_email _ _) as [r|]; [|discriminate].
      run_step. cbn [ledger_of wallets users].
      destruct (wallet_of_user (u_id r) (b_wallets b)) as [rw|]; discriminate.
    + intros body. unfold run_ledger, recordTransaction.
      destruct (createTransactionSchema body) as [e|value]; [discriminate|].
      run_step. cbn [ledger_of wallets users]. rewrite Ew.
      destruct (is_debit_type (type value));
        [destruct (w_balance w - w_frozen_balance w <? amount value); [discriminate|]|];
        run_step; cbn [ledger_of transactions];
        rewrite update_fresh_row by reflexivity;
        rewrite transaction_by_id_fresh by reflexivity; discriminate.
    + unfold run_ledger, getBalance. run_step. cbn [ledger_of wallets]. rewrite Ew.
      reflexivity.
Qed.


(** X17. [POST /demo-login] with the e-mail address of an existing user
    row, active or deactivated, answers 200 with that user and with an
    access token and a refresh token for its id; no password is asked for,
    and the store is left as it is (no session row either). *)
Theorem demoLogin_existing_account (email : string) (b : Backend)
        (a : UserRow * UserExtra) :
  NoDup (map (fun a => u_email (fst a)) (accounts b)) ->
  In a (accounts b) ->
  u_email (fst a) = email ->
  run_auth bcrypt_hash bcrypt_compare (demoLogin jwt_sign email) b =
    (mkAuthResponse 200
       (AuthSuccessBody "Demo login successful" (auth_view a)
          (generateToken jwt_sign (u_id (fst a)) email (1000 * b_clock b))
          (generateRefreshToken jwt_sign (u_id (fst a)) (1000 * b_clock b))),
     b).
Proof.
  intros Hnd Hin E. unfold demoLogin. auth_step.
  rewrite (@find_by_email email _ a Hnd Hin E). auth_step. cbn [av_id av_email].
  unfold auth_view. rewrite E. reflexivity.
Qed.

(** X18. [POST /demo-login] with an e-mail address that no user row carries
    creates an active, verified user 'Demo User' and a USD wallet; when
    every wallet row refers to a user row, [GET /balance] for the returned
    id then shows balance 10000 with nothing frozen.  No session row is
    stored and no transaction is filed for the opening balance. *)
Theorem demoLogin_new_account (email : string) (b : Backend) (user : ReqUser) :
  (forall a, In a (accounts b) -> u_email (fst a) <> email) ->
  wallets_reference_users b ->
  exists view token refreshToken extra wallet,
    fst (run_auth bcrypt_hash bcrypt_compare (demoLogin jwt_sign email) b) =
      mkAuthResponse 200
        (AuthSuccessBody "Demo login successful" view token refreshToken) /\
    accounts (snd (run_auth bcrypt_hash bcrypt_compare (demoLogin jwt_sign email) b)) =
      accounts b ++ [(mkUser (av_id view) (av_uuid view) email "Demo" "User" true, extra)] /\
    x_verification_status extra = "verified"%string /\
    b_sessions (snd (run_auth bcrypt_hash bcrypt_compare (demoLogin jwt_sign email) b)) =
      b_sessions b /\
    b_transactions (snd (run_auth bcrypt_hash bcrypt_compare (demoLogin jwt_sign email) b)) =
      b_transactions b /\
    (req_id user = av_id view ->
     fst (run_ledger (getBalance user)
            (snd (run_auth bcrypt_hash bcrypt_compare (demoLogin jwt_sign email) b))) =
       mkResponse 200 (BalanceBody wallet) /\
     bv_balance wallet = 10000 /\ bv_frozenBalance wallet = 0 /\
     bv_availableBalance wallet = 10000 /\ bv_currency wallet = "USD"%string).
Proof.
  intros Hfresh Hfk. apply find_email_none in Hfresh.
  unfold demoLogin. auth_step. rewrite Hfresh. auth_step.
  do 5 eexists. split; [reflexivity|]. cbn [av_id av_uuid].
  split; [reflexivity|]. split; [reflexivity|]. split; [reflexivity|].
  split; [reflexivity|]. intros Eid.
  unfold run_ledger, getBalance. run_step. cbn [ledger_of wallets]. auth_step.
  rewrite Eid. unfold wallet_of_user. rewrite find_app_none.
  - cbn [find w_user_id]. rewrite Z.eqb_refl. cbn [store_ledger fst]. repeat split.
  - intros w Hw. destruct (Hfk w Hw) as [a [Ha Ea]].
    pose proof (next_rowid_fresh (fun a => u_id (fst a)) _ a Ha) as Hlt. simpl in Hlt.
    apply Z.eqb_neq. lia.
Qed.

(** X19. [POST /login] does not tell a wrong password from an unknown
    address: for an active account with a password that [bcrypt.compare]
    rejects, and for an address no user row carries, the answer is the same
    401 [INVALID_CREDENTIALS] and the store is left as it is. *)
Theorem login_invalid_credentials (body : LoginBody) (email password : string)
        (b : Backend) :
  loginSchema is_email body = inr (email, password) ->
  NoDup (map (fun a => u_email (fst a)) (accounts b)) ->
  ((forall a, In a (accounts b) -> u_email (fst a) <> email) \/
   (exists a, In a (accounts b) /\ u_email (fst a) = email /\
              u_is_active (fst a) = true /\
              bcrypt_compare password (x_password_hash (snd a)) = false)) ->
  run_auth bcrypt_hash bcrypt_compare (login is_email jwt_sign body) b =
    (mkAuthResponse 401 (AuthErrorBody "Invalid email or password" "INVALID_CREDENTIALS"),
     b).
Proof.
  intros Ev Hnd Hcase. unfold login. rewrite Ev. auth_step.
  destruct Hcase as [Hnone | [a [Hin [E [Hact Hcmp]]]]].
  - apply find_email_none in Hnone. rewrite Hnone. reflexivity.
  - rewrite (@find_by_email email _ a Hnd Hin E). rewrite Hact. cbn [negb]. auth_step.
    rewrite Hcmp. reflexivity.
Qed.

(** X20. [POST /login] for a deactivated account answers 401
    [ACCOUNT_DEACTIVATED] whatever the password is, right or wrong, and
    leaves the store as it is. *)
Theorem login_deactivated (body : LoginBody) (email password : string)
        (b : Backend) (a : UserRow * UserExtra) :
  loginSchema is_email body = inr (email, password) ->
  NoDup (map (fun a => u_email (fst a)) (accounts b)) ->
  In a (accounts b) ->
  u_email (fst a) = email ->
  u_is_active (fst a) = false ->
  run_auth bcrypt_hash bcrypt_compare (login is_email jwt_sign body) b =
    (mkAuthResponse 401 (AuthErrorBody "Account is deactivated" "ACCOUNT_DEACTIVATED"), b).
Proof.
  intros Ev Hnd Hin E Hact. unfold login. rewrite Ev. auth_step.
  rewrite (@find_by_email email _ a Hnd Hin E). rewrite Hact. reflexivity.
Qed.

(** X21. [POST /login] with the password of an active account answers 200
    with that user and tokens for its id, stamps [last_login] on the row,
    and appends one session row that holds the refresh token and expires
    seven days later; the other columns of [users], the wallets and the
    transactions are left as they are. *)
Theorem login_success (body : LoginBody) (email password : string)
        (b : Backend) (a : UserRow * UserExtra) :
  loginSchema is_email body = inr (email, password) ->
  NoDup (map (fun a => u_email (fst a)) (accounts b)) ->
  In a (accounts b) ->
  u_email (fst a) = email ->
  u_is_active (fst a) = true ->
  bcrypt_compare password (x_password_hash (snd a)) = true ->
  let result := run_auth bcrypt_hash bcrypt_compare (login is_email jwt_sign body) b in
  let refreshToken := generateRefreshToken jwt_sign (u_id (fst a)) (1000 * b_clock b) in
  fst result =
    mkAuthResponse 200
      (AuthSuccessBody "Login successful" (auth_view a)
         (generateToken jwt_sign (u_id (fst a)) email (1000 * b_clock b)) refreshToken) /\
  In (set_last_login (b_clock b) a) (accounts (snd result)) /\
  map fst (accounts (snd result)) = map fst (accounts b) /\
  b_sessions (snd result) =
    b_sessions b ++ [mkSession (next_rowid ses_id (b_sessions b)) (u_id (fst a)) refreshToken
                               (1000 * b_clock b + 7 * 24 * 60 * 60 * 1000)] /\
  b_wallets (snd result) = b_wallets b /\
  b_transactions (snd result) = b_transactions b.
Proof.
  intros Ev Hnd Hin E Hact Hcmp. cbv zeta. unfold login. rewrite Ev. auth_step.
  rewrite (@find_by_email email _ a Hnd Hin E). rewrite Hact. cbn [negb]. auth_step.
  rewrite Hcmp. cbn [negb]. auth_step. unfold auth_view. rewrite E.
  split; [reflexivity|]. split; [|split; [apply update_last_login_accounts|repeat split]].
  unfold update_where. apply in_map_iff. exists a. rewrite Z.eqb_refl. auto.
Qed.

(** X22. [authenticateToken] lets a request through only as an active user
    row: [req.user] is copied from a row of [users] whose [is_active] is
    set, and the store is not changed.  A token that verifies for an id
    whose rows are all deactivated is answered 401 [INVALID_TOKEN]. *)
Theorem authenticateToken_admits_active_rows (authHeader : option string) (b : Backend) :
  (forall user b',
      run_auth bcrypt_hash bcrypt_compare (authenticateToken jwt_verify authHeader) b =
        (inr user, b') ->
      b' = b /\
      exists a, In a (accounts b) /\ u_is_active (fst a) = true /\
                user = req_user_of (fst a)) /\
  (forall token decoded,
      bearer_token authHeader = Some token ->
      jwt_verify token (1000 * b_clock b) = Verified decoded ->
      (forall a, In a (accounts b) -> u_id (fst a) = jwt_userId decoded ->
                 u_is_active (fst a) = false) ->
      run_auth bcrypt_hash bcrypt_compare (authenticateToken jwt_verify authHeader) b =
        (inl (mkAuthResponse 401 (AuthErrorBody "Invalid or expired token" "INVALID_TOKEN")),
         b)).
Proof.
  split.
  - intros user b'. unfold authenticateToken.
    destruct (bearer_token authHeader) as [token|]; auth_step; [|discriminate].
    destruct (jwt_verify token (1000 * b_clock b)) as [decoded| |]; auth_step;
      try discriminate.
    destruct (find _ (accounts b)) as [a|] eqn:F; cbn [option_map]; [|discriminate].
    intros H. inversion H; subst. split; [reflexivity|].
    apply find_some in F. destruct F as [Hin Hp]. apply andb_true_iff in Hp.
    exists a. unfold req_user_of. tauto.
  - intros token decoded Ht Hv Hoff. unfold authenticateToken. rewrite Ht. auth_step.
    rewrite Hv. auth_step.
    destruct (find _ (accounts b)) as [a|] eqn:F; cbn [option_map]; [|reflexivity].
    apply find_some in F. destruct F as [Hin Hp]. apply andb_true_iff in Hp.
    destruct Hp as [Hid Hact]. apply Z.eqb_eq in Hid.
    rewrite (Hoff a Hin Hid) in Hact. discriminate.
Qed.

(** X23. [authenticateToken] looks at nothing in a verified token but its
    [userId]: two tokens that verify with the same [userId] get the same
    outcome, whatever their [type], [email] and issue time are.  A refresh
    token is therefore accepted where an access token is. *)
Theorem authenticateToken_reads_userId_only (h1 h2 : option string) (t1 t2 : string)
        (c1 c2 : JwtClaims) (b : Backend) :
  bearer_token h1 = Some t1 ->
  bearer_token h2 = Some t2 ->
  jwt_verify t1 (1000 * b_clock b) = Verified c1 ->
  jwt_verify t2 (1000 * b_clock b) = Verified c2 ->
  jwt_userId c1 = jwt_userId c2 ->
  run_auth bcrypt_hash bcrypt_compare (authenticateToken jwt_verify h1) b =
  run_auth bcrypt_hash bcrypt_compare (authenticateToken jwt_verify h2) b.
Proof.
  intros H1 H2 V1 V2 E. unfold authenticateToken. rewrite H1, H2. auth_step.
  rewrite V1, V2. auth_step. rewrite E. reflexivity.
Qed.

End AccountRoutes.

Lemma split_space_spaceless (t cur : string) :
  spaceless t = true -> split_space t cur = [(cur ++ t)%string].
Proof.
  revert cur. induction t as [|c t IH]; simpl; intros cur H.
  - f_equal. clear. induction cur as [|c cur IH]; simpl; congruence.
  - apply andb_true_iff in H. destruct H as [Hc Ht].
    destruct (c =? " ")%char; [discriminate|]. rewrite (IH _ Ht). f_equal.
    clear. induction cur as [|d cur IH]; simpl; congruence.
Qed.

Lemma split_space_word (s rest cur : string) :
  spaceless s = true ->
  split_space (s ++ String " " rest) cur = (cur ++ s)%string :: split_space rest "".
Proof.
  revert cur. induction s as [|c s IH]; simpl; intros cur H.
  - f_equal. clear. induction cur as [|c cur IH]; simpl; congruence.
  - apply andb_true_iff in H. destruct H as [Hc Hs].
    destruct (c =? " ")%char; [discriminate|]. rewrite (IH _ Hs). f_equal.
    clear. induction cur as [|d cur IH]; simpl; congruence.
Qed.

(** X24. The header is split at spaces and its second piece is the token:
    the first word is never compared with 'Bearer', so any scheme word,
    even an empty one, followed by one space and a token yields that token;
    a header of one word yields none. *)
Theorem bearer_token_any_scheme (scheme token : string) :
  spaceless scheme = true ->
  spaceless token = true ->
  token <> ""%string ->
  bearer_token (Some (scheme ++ String " " token)%string) = Some token /\
  bearer_token (Some scheme) = None.
Proof.
  intros Hs Ht Hne. unfold bearer_token. split.
  - destruct (scheme ++ String " " token =? "")%string eqn:E.
    + apply String.eqb_eq in E. destruct scheme; discriminate.
    + rewrite (@split_space_word scheme token EmptyString Hs), (@split_space_spaceless token EmptyString Ht). simpl.
      apply String.eqb_neq in Hne. rewrite Hne. reflexivity.
  - destruct (scheme =? "")%string; [reflexivity|].
    rewrite (@split_space_spaceless scheme EmptyString Hs). reflexivity.
Qed.

(** X25. [optionalAuth] sets [req.user] exactly when [authenticateToken]
    would let the request through, and to the same user; where
    [authenticateToken] answers 401, it goes on without a user.  Neither
    changes the store. *)
Theorem optionalAuth_agrees_with_authenticateToken
        (bcrypt_hash : string -> nat -> string) (bcrypt_compare : string -> string -> bool)
        (jwt_verify : string -> Z -> JwtVerdict)
        (authHeader : option string) (b : Backend) :
  run_auth bcrypt_hash bcrypt_compare (optionalAuth jwt_verify authHeader) b =
    (match fst (run_auth bcrypt_hash bcrypt_compare
                         (authenticateToken jwt_verify authHeader) b) with
     | inr user => Some user
     | inl _ => None
     end, b) /\
  snd (run_auth bcrypt_hash bcrypt_compare (authenticateToken jwt_verify authHeader) b) = b.
Proof.
  unfold optionalAuth, authenticateToken.
  destruct (bearer_token authHeader) as [token|]; auth_step; [|split; reflexivity].
  destruct (jwt_verify token (1000 * b_clock b)) as [decoded| |]; auth_step;
    try (split; reflexivity).
  destruct (find _ (accounts b)) as [a|]; cbn [option_map]; split; reflexivity.
Qed.

(* ================================================================== *)
(** ** The notification routes *)

Ltac inbox_step :=
  cbn [run_inbox run_script exec_inbox fst snd id changes inbox_rows inbox_clock
       inbox_entropy with_inbox_rows inbox_status inbox_json].

Lemma filter_map_if {A} (keep P : A -> bool) (f : A -> A) (rows : list A) :
  (forall r, In r rows -> P r = true -> keep (f r) = false /\ keep r = false) ->
  filter keep (map (fun r => if P r then f r else r) rows) = filter keep rows.
Proof.
  induction rows as [|x rows IH]; simpl; intros H; [reflexivity|].
  rewrite IH by (intros r Hr; apply H; auto).
  destruct (P x) eqn:Px; [|reflexivity].
  destruct (H x (or_introl eq_refl) Px) as [-> ->]. reflexivity.
Qed.

Lemma filter_filter_absorb {A} (keep q : A -> bool) (rows : list A) :
  (forall r, In r rows -> keep r = true -> q r = true) ->
  filter keep (filter q rows) = filter keep rows.
Proof.
  induction rows as [|x rows IH]; simpl; intros H; [reflexivity|].
  specialize (IH (fun r Hr => H r (or_intror Hr))).
  destruct (q x) eqn:Qx; simpl; rewrite IH; [reflexivity|].
  destruct (keep x) eqn:Kx; [|reflexivity].
  rewrite (H x (or_introl eq_refl) Kx) in Qx. discriminate.
Qed.

Lemma NoDup_map_filter {A K} (key : A -> K) (p : A -> bool) (rows : list A) :
  NoDup (map key rows) -> NoDup (map key (filter p rows)).
Proof.
  induction rows as [|x rows IH]; simpl; intros H; [constructor|].
  inversion H as [|? ? Hnotin Hnd]; subst. destruct (p x); simpl; auto.
  constructor; auto. intros Hin. apply Hnotin. apply in_map_iff in Hin.
  destruct Hin as [y [E Hy]]. apply filter_In in Hy. apply in_map_iff. exists y. tauto.
Qed.

Lemma marked_rows_are_read (uid : Z) (type : option string) (rows : list InboxRow) :
  filter (inbox_where uid type true)
         (map (fun r => if inbox_where uid None true r then set_read r else r) rows) = [].
Proof.
  induction rows as [|x rows IH]; simpl; [reflexivity|]. rewrite IH.
  unfold inbox_where at 2. unfold inbox_where at 1.
  destruct (in_user_id x =? uid) eqn:U; cbn [andb].
  - destruct (in_is_read x =? 0) eqn:R; cbn [andb].
    + unfold in_user_id, set_read. cbn [in_row in_is_read]. unfold in_user_id in U.
      rewrite U. cbn [andb]. rewrite andb_false_r. reflexivity.
    + unfold in_user_id in *. rewrite U, R. rewrite andb_false_r. reflexivity.
  - unfold in_user_id in *. rewrite U. reflexivity.
Qed.

Lemma sql_limit_nil {A} (l o : Z) : @sql_limit A l o [] = [].
Proof.
  unfold sql_limit. rewrite skipn_nil. destruct (l <? 0); [reflexivity|apply firstn_nil].
Qed.

Lemma others_after_mark_all (uid : Z) (rows : list InboxRow) :
  rows_of_others uid
    (map (fun r => if inbox_where uid None true r then set_read r else r) rows) =
  rows_of_others uid rows.
Proof.
  unfold rows_of_others. apply filter_map_if. intros r _ Hp.
  unfold inbox_where in Hp. apply andb_true_iff in Hp. destruct Hp as [Hp _].
  apply andb_true_iff in Hp. destruct Hp as [Hu _].
  unfold in_user_id, set_read in *. cbn [in_row]. rewrite Hu. split; reflexivity.
Qed.

(** X26. After [PUT /read-all] the caller has nothing unread: every later
    [GET /] of that user reports [unreadCount] 0, and with
    [unreadOnly=true] it lists nothing.  No row is removed, and the rows of
    other users are left as they are. *)
Theorem markAllRead_clears_unread (user : ReqUser) (ib : Inbox)
        (query : NotificationsQuery) :
  fst (run_inbox (markAllRead user) ib) =
    mkInboxResponse 200 (InboxMessageBody "All notifications marked as read") /\
  unread_count (fst (run_inbox (listNotifications user query)
                               (snd (run_inbox (markAllRead user) ib)))) = Some 0 /\
  (nq_unreadOnly query = Some "true"%string ->
   listed_notifications (fst (run_inbox (listNotifications user query)
                                        (snd (run_inbox (markAllRead user) ib)))) = []) /\
  map in_id (inbox_rows (snd (run_inbox (markAllRead user) ib))) =
    map in_id (inbox_rows ib) /\
  rows_of_others (req_id user) (inbox_rows (snd (run_inbox (markAllRead user) ib))) =
    rows_of_others (req_id user) (inbox_rows ib).
Proof.
  unfold markAllRead, listNotifications. inbox_step.
  split; [reflexivity|]. split; [|split; [|split]].
  - cbn [unread_count inbox_json]. rewrite marked_rows_are_read. reflexivity.
  - intros E. rewrite E. cbn [String.eqb Ascii.eqb Bool.eqb]. cbn [listed_notifications inbox_json].
    rewrite marked_rows_are_read. cbn [newest_first fold_right].
    rewrite sql_limit_nil. reflexivity.
  - rewrite map_map. apply map_ext. intros r.
    destruct (inbox_where (req_id user) None true r); reflexivity.
  - apply others_after_mark_all.
Qed.

Lemma own_row_not_other (uid nid : Z) (rows : list InboxRow) (x : InboxRow) :
  NoDup (map in_id rows) ->
  find (fun r => (in_id r =? nid) && (in_user_id r =? uid)) rows = Some x ->
  forall r, In r rows -> in_id r = nid -> in_user_id r = uid.
Proof.
  intros Hnd F r Hr E. apply find_some in F. destruct F as [Hx Hp].
  apply andb_true_iff in Hp. destruct Hp as [Hi Hu].
  apply Z.eqb_eq in Hi. apply Z.eqb_eq in Hu.
  assert (r = x) by (eapply (unique_by in_id); eauto; congruence). congruence.
Qed.

(** X27. With distinct row ids, no notification route touches a row of
    another user: whatever the request, the rows that do not belong to the
    caller are the same afterwards, and the ids stay distinct.  For an id
    that is not the caller's, [GET /:id], [PUT /:id/read] and [DELETE /:id]
    answer 404 [NOT_FOUND] and change nothing. *)
Theorem notification_routes_own_rows_only (user : ReqUser) (ib : Inbox) :
  NoDup (map in_id (inbox_rows ib)) ->
  (forall request,
      NoDup (map in_id (inbox_rows (snd (run_inbox (inbox_handler user request) ib)))) /\
      rows_of_others (req_id user)
                     (inbox_rows (snd (run_inbox (inbox_handler user request) ib))) =
        rows_of_others (req_id user) (inbox_rows ib)) /\
  (forall id,
      (forall r, In r (inbox_rows ib) -> in_id r = id -> in_user_id r <> req_id user) ->
      run_inbox (getNotification user id) ib = (inbox_not_found, ib) /\
      run_inbox (markRead user id) ib = (inbox_not_found, ib) /\
      run_inbox (deleteNotification user id) ib = (inbox_not_found, ib)).
Proof.
  intros Hnd. split.
  - intros [query|nid|nid| |nid| |body]; cbn [inbox_handler].
    + unfold listNotifications. inbox_step. auto.
    + unfold getNotification. inbox_step.
      destruct (find _ (inbox_rows ib)); inbox_step; auto.
    + unfold markRead. inbox_step.
      destruct (find _ (inbox_rows ib)) as [x|] eqn:F; inbox_step; [|auto]. split.
      * replace (map in_id (update_where in_id nid set_read (inbox_rows ib)))
          with (map in_id (inbox_rows ib)); [exact Hnd|].
        unfold update_where. rewrite map_map. apply map_ext. intros r.
        destruct (in_id r =? nid); reflexivity.
      * unfold rows_of_others, update_where. apply filter_map_if. intros r Hr Hp.
        apply Z.eqb_eq in Hp. pose proof (@own_row_not_other _ _ _ _ Hnd F r Hr Hp) as Hu.
        unfold in_user_id, set_read in *. cbn [in_row]. rewrite Hu, Z.eqb_refl.
        split; reflexivity.
    + unfold markAllRead. inbox_step. split.
      * replace (map in_id (map (fun r => if inbox_where (req_id user) None true r
                                          then set_read r else r) (inbox_rows ib)))
          with (map in_id (inbox_rows ib)); [exact Hnd|].
        rewrite map_map. apply map_ext. intros r.
        destruct (inbox_where (req_id user) None true r); reflexivity.
      * apply others_after_mark_all.
    + unfold deleteNotification. inbox_step.
      destruct (find _ (inbox_rows ib)) as [x|] eqn:F; inbox_step; [|auto]. split.
      * apply NoDup_map_filter. exact Hnd.
      * unfold rows_of_others. apply filter_filter_absorb. intros r Hr Hk.
        destruct (in_id r =? nid) eqn:E; [|reflexivity].
        apply Z.eqb_eq in E. rewrite (@own_row_not_other _ _ _ _ Hnd F r Hr E) in Hk.
        rewrite Z.eqb_refl in Hk. discriminate.
    + unfold deleteAllNotifications. inbox_step. split.
      * apply NoDup_map_filter. exact Hnd.
      * unfold rows_of_others. apply filter_filter_absorb. auto.
    + unfold createNotification.
      destruct (createNotificationSchema body) as [e|value]; inbox_step; [auto|].
      match goal with
      | |- context [find ?p ?l] => destruct (find p l)
      end; inbox_step.
      all: split;
        [ rewrite map_app; apply NoDup_snoc; [exact Hnd|]; cbn [map in_id in_row n_id];
          intros Hin; apply in_map_iff in Hin; destruct Hin as [r [E Hr]];
          pose proof (next_rowid_fresh in_id _ r Hr) as Hlt; lia
        | unfold rows_of_others; rewrite filter_app; cbn [filter in_user_id in_row n_user_id];
          rewrite Z.eqb_refl; cbn [negb]; apply app_nil_r ].
  - intros nid Hother.
    assert (F : find (fun r => (in_id r =? nid) && (in_user_id r =? req_id user))
                     (inbox_rows ib) = None).
    { destruct (find _ (inbox_rows ib)) as [x|] eqn:F; [|reflexivity].
      apply find_some in F. destruct F as [Hx Hp]. apply andb_true_iff in Hp.
      destruct Hp as [Hi Hu]. apply Z.eqb_eq in Hi. apply Z.eqb_eq in Hu.
      exfalso. exact (Hother x Hx Hi Hu). }
    unfold getNotification, markRead, deleteNotification. inbox_step. rewrite F.
    repeat split.
Qed.

(* ================================================================== *)
(** ** The shipment routes *)

Ltac depot_step :=
  cbn [run_depot run_script exec_depot fst snd id changes trade_agreements shipments
       depot_notifications depot_clock depot_entropy with_shipments ship_status ship_json
       sval_tradeAgreementId sval_trackingNumber sval_carrier sval_origin
       sval_destination sval_estimatedDelivery option_map].

Lemma existsb_String_eqb (x : string) (l : list string) :
  existsb (String.eqb x) l = true <-> In x l.
Proof.
  rewrite existsb_exists. split.
  - intros [y [Hy E]]. apply String.eqb_eq in E. congruence.
  - intros H. exists x. split; [exact H|apply String.eqb_refl].
Qed.

Lemma distinct_NoDup (l : list string) : distinct l = true <-> NoDup l.
Proof.
  induction l as [|x l IH]; simpl.
  - split; [constructor|reflexivity].
  - rewrite andb_true_iff, negb_true_iff, IH. split.
    + intros [Hx Hl]. constructor; [|exact Hl]. intros Hin.
      apply existsb_String_eqb in Hin. congruence.
    + intros H. inversion H as [|? ? Hx Hl]; subst. split; [|exact Hl].
      destruct (existsb (String.eqb x) l) eqn:E; [|reflexivity].
      apply existsb_String_eqb in E. contradiction.
Qed.

Lemma statement_setter_entry {A} (key : string) (inject : A -> SqlValue) (v : option A)
      (rest : list (string * SqlValue)) (f : A -> ShipmentRow -> ShipmentRow)
      (g : ShipmentRow -> ShipmentRow) :
  (forall x, column_setter (dbKey key) (inject x) = Some (f x)) ->
  statement_setter rest = Some g ->
  statement_setter (map (fun e => (dbKey (fst e), snd e)) (entry key inject v) ++ rest) =
    Some (fun s => g (match v with Some x => f x s | None => s end)).
Proof.
  intros Hf Hg. destruct v as [x|]; simpl.
  - rewrite Hf, Hg. reflexivity.
  - rewrite Hg. reflexivity.
Qed.

(** The dynamic [SET] clause names existing columns, and assigns to each
    the field of the same name. *)
Lemma statement_setter_updates (value : UpdateShipmentBody) :
  exists set,
    statement_setter (updates_of value) = Some set /\
    forall now s, touch now (set s) = with_fields value now s.
Proof.
  unfold updates_of, entries.
  rewrite <- (app_nil_r (entry "documentsUrls" SqlText (ub_documentsUrls value))).
  rewrite !map_app. eexists. split.
  - repeat (eapply statement_setter_entry;
            [intros x;
             cbv - [set_tracking_number set_carrier set_origin set_destination
                    set_shipment_status set_documents_urls set_estimated_delivery
                    set_actual_delivery]; reflexivity|]).
    reflexivity.
  - intros now s.
    destruct value as [[tn|] [ca|] [og|] [de|] [st|] [ed|] [ad|] [du|]];
      destruct s; reflexivity.
Qed.

Lemma joined_In (ags : list TradeAgreementRow) (rows : list ShipmentRow)
      (r : ShipmentRow * TradeAgreementRow) :
  In r (joined ags rows) <->
  In (fst r) rows /\ In (snd r) ags /\ ta_id (snd r) = s_trade_agreement_id (fst r).
Proof.
  unfold joined. rewrite in_flat_map. split.
  - intros [s [Hs Hr]]. apply in_map_iff in Hr. destruct Hr as [ta [<- Hta]].
    apply filter_In in Hta. destruct Hta as [Hta E]. apply Z.eqb_eq in E. simpl. auto.
  - intros [Hs [Hta E]]. exists (fst r). split; [exact Hs|]. apply in_map_iff.
    exists (snd r). split; [destruct r; reflexivity|]. apply filter_In.
    split; [exact Hta|]. apply Z.eqb_eq. exact E.
Qed.

Lemma joined_find (ags : list TradeAgreementRow) (rows : list ShipmentRow)
      (p : ShipmentRow -> bool) (s : ShipmentRow) :
  In s rows -> p s = true ->
  (exists ta, In ta ags /\ ta_id ta = s_trade_agreement_id s) ->
  exists r, find (fun r => p (fst r)) (joined ags rows) = Some r.
Proof.
  intros Hs Hp [ta [Hta E]].
  destruct (find (fun r => p (fst r)) (joined ags rows)) as [r|] eqn:F; [eauto|].
  exfalso. assert (Hin : In (s, ta) (joined ags rows)) by (apply joined_In; simpl; auto).
  apply (find_none _ _ F) in Hin. simpl in Hin. congruence.
Qed.

Lemma joined_find_inv (ags : list TradeAgreementRow) (rows : list ShipmentRow)
      (p : ShipmentRow -> bool) (r : ShipmentRow * TradeAgreementRow) :
  find (fun r => p (fst r)) (joined ags rows) = Some r ->
  In (fst r) rows /\ In (snd r) ags /\ ta_id (snd r) = s_trade_agreement_id (fst r) /\
  p (fst r) = true.
Proof.
  intros F. apply find_some in F. destruct F as [Hin Hp]. apply joined_In in Hin. tauto.
Qed.

Lemma update_where_split {A} (key : A -> Z) (f : A -> A) (l1 l2 : list A) (x : A) :
  NoDup (map key (l1 ++ x :: l2)) ->
  update_where key (key x) f (l1 ++ x :: l2) = l1 ++ f x :: l2.
Proof.
  intros Hnd. rewrite map_app in Hnd. simpl in Hnd. apply NoDup_remove in Hnd.
  destruct Hnd as [_ Hx]. rewrite update_where_app. f_equal.
  - apply update_where_fresh. intros r Hr E. apply Hx. apply in_or_app. left.
    rewrite <- E. apply in_map. exact Hr.
  - unfold update_where at 1. simpl. rewrite Z.eqb_refl. f_equal.
    apply update_where_fresh. intros r Hr E. apply Hx. apply in_or_app. right.
    rewrite <- E. apply in_map. exact Hr.
Qed.

Lemma NoDup_update {A K} (key : A -> Z) (col : A -> K) (f : A -> A) (rows : list A) (x : A) :
  NoDup (map key rows) -> NoDup (map col rows) -> In x rows ->
  (col (f x) = col x \/ forall r, In r rows -> col r <> col (f x)) ->
  NoDup (map col (update_where key (key x) f rows)).
Proof.
  intros Hk Hc Hx Hnew. apply in_split in Hx. destruct Hx as [l1 [l2 ->]].
  rewrite (update_where_split _ _ _ _ _ Hk).
  rewrite map_app in *. simpl in *.
  pose proof (NoDup_remove _ _ _ Hc) as [Hrest Hnot].
  apply (Permutation_NoDup (Permutation_middle _ _ _)). constructor; [|exact Hrest].
  destruct Hnew as [E|Hfresh].
  - rewrite E. exact Hnot.
  - intros Hin. apply in_app_or in Hin. destruct Hin as [Hin|Hin];
      apply in_map_iff in Hin; destruct Hin as [r [E Hr]];
      apply (Hfresh r); auto; apply in_or_app; simpl; auto.
Qed.
Lemma joi_string_between_inr (k : string) (lo hi : nat) (v r : option string) :
  joi_string_between k lo hi v = inr r -> r = v /\ truthy_string v = v.
Proof.
  unfold joi_string_between, truthy_string. destruct v as [s|]; [|intros H; inversion H; auto].
  destruct (s =? "")%string; [discriminate|].
  destruct (String.length s <? lo)%nat; [discriminate|].
  destruct (hi <? String.length s)%nat; [discriminate|]. intros H; inversion H; auto.
Qed.

Lemma updateShipmentSchema_inr (body value : UpdateShipmentBody) :
  updateShipmentSchema body = inr value ->
  value = body /\ truthy_string (ub_trackingNumber value) = ub_trackingNumber value.
Proof.
  unfold updateShipmentSchema. destruct body as [v1 v2 v3 v4 v5 v6 v7 v8].
  cbn [ub_trackingNumber ub_carrier ub_origin ub_destination ub_status
       ub_estimatedDelivery ub_actualDelivery ub_documentsUrls].
  destruct (joi_string_between "trackingNumber" 5 50 v1) as [|r1] eqn:E1; [discriminate|].
  destruct (joi_string_between "carrier" 2 50 v2) as [|r2] eqn:E2; [discriminate|].
  destruct (joi_string_between "origin" 2 100 v3) as [|r3] eqn:E3; [discriminate|].
  destruct (joi_string_between "destination" 2 100 v4) as [|r4] eqn:E4; [discriminate|].
  apply joi_string_between_inr in E1, E2, E3, E4.
  destruct E1 as [-> E1], E2 as [-> _], E3 as [-> _], E4 as [-> _].
  unfold joi_status, joi_date, joi_any_string.
  destruct v5 as [s5|]; [destruct (existsb (String.eqb s5) shipment_statuses);
                         [|discriminate]|];
    (destruct v6 as [n6|]; [destruct (Z.abs n6 <=? 8640000000000000); [|discriminate]|]);
    (destruct v7 as [n7|]; [destruct (Z.abs n7 <=? 8640000000000000); [|discriminate]|]);
    (destruct v8 as [s8|]; [destruct (s8 =? "")%string; [discriminate|]|]);
    intros H; inversion H; subst; cbn [ub_trackingNumber]; auto.
Qed.

Lemma updates_of_nil (value : UpdateShipmentBody) :
  (length (updates_of value) =? 0)%nat = true -> forall now s, with_fields value now s = touch now s.
Proof.
  unfold updates_of. rewrite length_map.
  destruct value as [[tn|] [ca|] [og|] [de|] [st|] [ed|] [ad|] [du|]];
    cbn; try discriminate. intros _ now []. reflexivity.
Qed.

(** What the second half of [PUT /:id] does, for a shipment of the table
    whose new tracking number collides with no other row. *)
Lemma applyUpdates_effect (sid : Z) (value : UpdateShipmentBody) (d : Depot)
      (ex : ShipmentRow) :
  depot_ok d -> In ex (shipments d) -> s_id ex = sid ->
  (s_tracking_number (with_fields value (depot_clock d) ex) = s_tracking_number ex \/
   forall s, In s (shipments d) ->
             s_tracking_number s <> s_tracking_number (with_fields value (depot_clock d) ex)) ->
  ((length (updates_of value) =? 0)%nat = true /\
   run_depot (applyUpdates sid value) d =
     (mkShipResponse 400 (ShipErrorBody "No fields to update" "NO_UPDATES"), d)) \/
  ((length (updates_of value) =? 0)%nat = false /\
   exists ta, In ta (trade_agreements d) /\ ta_id ta = s_trade_agreement_id ex /\
     run_depot (applyUpdates sid value) d =
       (mkShipResponse 200
          (ShipmentBody (Some "Shipment updated successfully"%string)
                        (shipment_view (with_fields value (depot_clock d) ex, ta))),
        with_shipments d (update_where s_id sid (with_fields value (depot_clock d))
                                       (shipments d)))).
Proof.
  intros [Hid [Htn [Hta Hfk]]] Hex <- Hnew. unfold applyUpdates.
  destruct (length (updates_of value) =? 0)%nat eqn:Elen; [left; auto|right].
  split; [reflexivity|].
  destruct (statement_setter_updates value) as [set [Eset Hset]].
  assert (Erows : update_where s_id (s_id ex) (fun s => touch (depot_clock d) (set s))
                               (shipments d) =
                  update_where s_id (s_id ex) (with_fields value (depot_clock d))
                               (shipments d)).
  { unfold update_where. apply map_ext. intros r. rewrite Hset. reflexivity. }
  assert (Hnd : NoDup (map s_tracking_number
                           (update_where s_id (s_id ex)
                                         (with_fields value (depot_clock d)) (shipments d)))).
  { apply NoDup_update; assumption. }
  assert (Hids : map s_id (update_where s_id (s_id ex) (with_fields value (depot_clock d))
                                        (shipments d)) = map s_id (shipments d)).
  { unfold update_where. rewrite map_map. apply map_ext. intros r.
    destruct (s_id r =? s_id ex); reflexivity. }
  assert (Hin : In (with_fields value (depot_clock d) ex)
                   (update_where s_id (s_id ex) (with_fields value (depot_clock d))
                                 (shipments d))).
  { unfold update_where. apply in_map_iff. exists ex. rewrite Z.eqb_refl. auto. }
  destruct (Hfk ex Hex) as [ta0 [Hta0 Eta0]].
  destruct (@joined_find (trade_agreements d) _ (fun s => s_id s =? s_id ex) _ Hin)
    as [r Fr]; [apply Z.eqb_refl|exists ta0; auto|].
  pose proof (@joined_find_inv _ _ (fun s => s_id s =? s_id ex) _ Fr) as [Hr1 [Hr2 [Hr3 Hr4]]].
  assert (Er : fst r = with_fields value (depot_clock d) ex).
  { apply (unique_by s_id) with (rows := update_where s_id (s_id ex)
                                           (with_fields value (depot_clock d)) (shipments d));
      [rewrite Hids; exact Hid|exact Hr1|exact Hin|].
    apply Z.eqb_eq in Hr4. rewrite Hr4. reflexivity. }
  exists (snd r). split; [exact Hr2|]. split; [rewrite Hr3, Er; reflexivity|].
  depot_step. rewrite Eset, Erows. apply distinct_NoDup in Hnd. rewrite Hnd.
  depot_step. rewrite Fr. rewrite <- Er. destruct r; reflexivity.
Qed.
Lemma own_shipment (uid sid : Z) (rows : list ShipmentRow) (x : ShipmentRow) :
  NoDup (map s_id rows) ->
  find (fun s => (s_id s =? sid) && (s_user_id s =? uid)) rows = Some x ->
  In x rows /\ s_id x = sid /\ s_user_id x = uid /\
  forall r, In r rows -> s_id r = sid -> r = x.
Proof.
  intros Hnd F. apply find_some in F. destruct F as [Hx Hp].
  apply andb_true_iff in Hp. destruct Hp as [Hi Hu].
  apply Z.eqb_eq in Hi. apply Z.eqb_eq in Hu. repeat split; auto.
  intros r Hr E. eapply (unique_by s_id); eauto. congruence.
Qed.

(** [PUT /:id] on a shipment of the caller: either the new tracking number
    is taken and the answer is 409, or the statement is built and run, and
    then no other row carries the new tracking number. *)
Lemma updateShipment_cases (user : ReqUser) (sid : Z) (body value : UpdateShipmentBody)
      (d : Depot) (ex : ShipmentRow) :
  NoDup (map s_id (shipments d)) ->
  updateShipmentSchema body = inr value ->
  find (fun s => (s_id s =? sid) && (s_user_id s =? req_id user)) (shipments d) = Some ex ->
  (run_depot (updateShipment user sid body) d =
     (mkShipResponse 409 (ShipErrorBody "Tracking number already exists"
                                        "TRACKING_NUMBER_EXISTS"), d) /\
   exists tn other, ub_trackingNumber value = Some tn /\ In other (shipments d) /\
                    s_tracking_number other = tn /\ s_id other <> sid) \/
  (run_depot (updateShipment user sid body) d = run_depot (applyUpdates sid value) d /\
   (s_tracking_number (with_fields value (depot_clock d) ex) = s_tracking_number ex \/
    forall s, In s (shipments d) ->
              s_tracking_number s <>
              s_tracking_number (with_fields value (depot_clock d) ex))).
Proof.
  intros Hid Ev F. destruct (own_shipment _ _ _ Hid F) as [Hex [Eid [Eu Huniq]]].
  unfold updateShipment. rewrite Ev. depot_step. rewrite F.
  destruct (updateShipmentSchema_inr _ Ev) as [_ Etruthy]. rewrite Etruthy.
  destruct (ub_trackingNumber value) as [tn|] eqn:Etn.
  - destruct (tn =? s_tracking_number ex)%string eqn:Eq; cbn [negb].
    + right. split; [reflexivity|]. left. apply String.eqb_eq in Eq.
      unfold with_fields. cbn [s_tracking_number]. rewrite Etn. exact Eq.
    + depot_step.
      destruct (find (fun s => (s_tracking_number s =? tn)%string && negb (s_id s =? sid))
                     (shipments d)) as [other|] eqn:Fd; depot_step.
      * left. split; [reflexivity|]. apply find_some in Fd. destruct Fd as [Ho Hp].
        apply andb_true_iff in Hp. destruct Hp as [Ht Hn]. apply String.eqb_eq in Ht.
        apply negb_true_iff in Hn. apply Z.eqb_neq in Hn. exists tn, other. auto.
      * right. split; [reflexivity|]. right. intros s Hs.
        unfold with_fields. cbn [s_tracking_number]. rewrite Etn. intros E.
        pose proof (find_none _ _ Fd s Hs) as Hp. cbn beta in Hp.
        apply String.eqb_eq in E. rewrite E in Hp. cbn [andb] in Hp.
        apply negb_false_iff in Hp. apply Z.eqb_eq in Hp.
        rewrite (Huniq s Hs Hp) in E. apply String.eqb_eq in E.
        apply String.eqb_neq in Eq. congruence.
  - right. split; [reflexivity|]. left. unfold with_fields. cbn [s_tracking_number].
    rewrite Etn. reflexivity.
Qed.

Lemma update_where_depot_ok (d : Depot) (value : UpdateShipmentBody) (ex : ShipmentRow) :
  depot_ok d -> In ex (shipments d) ->
  (s_tracking_number (with_fields value (depot_clock d) ex) = s_tracking_number ex \/
   forall s, In s (shipments d) ->
             s_tracking_number s <> s_tracking_number (with_fields value (depot_clock d) ex)) ->
  depot_ok (with_shipments d (update_where s_id (s_id ex)
                                           (with_fields value (depot_clock d))
                                           (shipments d))).
Proof.
  intros [Hid [Htn [Hta Hfk]]] Hex Hnew. unfold depot_ok, with_shipments.
  cbn [shipments trade_agreements]. split; [|split; [|split]].
  - replace (map s_id (update_where s_id (s_id ex) (with_fields value (depot_clock d))
                                    (shipments d))) with (map s_id (shipments d));
      [exact Hid|].
    unfold update_where. rewrite map_map. apply map_ext. intros r.
    destruct (s_id r =? s_id ex); reflexivity.
  - apply NoDup_update; assumption.
  - exact Hta.
  - intros s Hs. unfold update_where in Hs. apply in_map_iff in Hs.
    destruct Hs as [r [<- Hr]]. destruct (Hfk r Hr) as [ta [Hin E]]. exists ta.
    split; [exact Hin|]. destruct (s_id r =? s_id ex); [|exact E]. exact E.
Qed.

Lemma others_after_update (uid : Z) (f : ShipmentRow -> ShipmentRow)
      (rows : list ShipmentRow) (ex : ShipmentRow) :
  (forall r, In r rows -> s_id r = s_id ex -> r = ex) -> s_user_id ex = uid ->
  (forall s, s_user_id (f s) = s_user_id s) ->
  shipments_of_others uid (update_where s_id (s_id ex) f rows) = shipments_of_others uid rows.
Proof.
  intros Huniq Eu Hf. unfold shipments_of_others, update_where. apply filter_map_if.
  intros r Hr Hp. apply Z.eqb_eq in Hp. rewrite Hf, (Huniq r Hr Hp), Eu, Z.eqb_refl.
  split; reflexivity.
Qed.

(** One request to the shipment routes or to the deletion of a trade
    agreement: the schema's constraints survive, the answer is never a 500,
    and the shipments of other users are untouched. *)
Lemma depot_handler_effect (user : ReqUser) (request : DepotRequest) (d : Depot) :
  depot_ok d ->
  depot_ok (snd (run_depot (depot_handler user request) d)) /\
  ship_status (fst (run_depot (depot_handler user request) d)) <> 500 /\
  shipments_of_others (req_id user)
                      (shipments (snd (run_depot (depot_handler user request) d))) =
    shipments_of_others (req_id user) (shipments d).
Proof.
  intros Hok. pose proof Hok as [Hid [Htn [Hta Hfk]]].
  destruct request as [body|query|sid|sid body|sid|tn|aid]; cbn [depot_handler].
  - (* POST / *)
    unfold createShipment.
    destruct (createShipmentSchema body) as [e|value]; depot_step;
      [repeat split; auto; discriminate|].
    destruct (find _ (trade_agreements d)) as [ta|] eqn:Fa; depot_step;
      [|repeat split; auto; discriminate].
    destruct (find _ (shipments d)) as [other|] eqn:Ft; depot_step;
      [repeat split; auto; discriminate|].
    set (new := mkShipment (next_rowid s_id (shipments d)) (uuid_of (depot_entropy d))
                           (sval_tradeAgreementId value) (req_id user)
                           (sval_trackingNumber value) (sval_carrier value)
                           (sval_origin value) (sval_destination value) "pending"
                           (sval_estimatedDelivery value) None None
                           (depot_clock d) (depot_clock d)).
    assert (Hnew_tn : NoDup (map s_tracking_number (shipments d ++ [new]))).
    { rewrite map_app. apply NoDup_snoc; [exact Htn|]. cbn [map]. intros Hin.
      apply in_map_iff in Hin. destruct Hin as [r [E Hr]].
      pose proof (find_none _ _ Ft r Hr) as Hp. cbn beta in Hp.
      apply String.eqb_neq in Hp. apply Hp. exact E. }
    assert (Hnew_id : NoDup (map s_id (shipments d ++ [new]))).
    { rewrite map_app. apply NoDup_snoc; [exact Hid|]. cbn [map]. intros Hin.
      apply in_map_iff in Hin. destruct Hin as [r [E Hr]].
      pose proof (next_rowid_fresh s_id _ r Hr) as Hlt. cbn [new s_id] in E. lia. }
    apply find_some in Fa. destruct Fa as [Hta_in Hp]. apply andb_true_iff in Hp.
    destruct Hp as [Ea _]. apply Z.eqb_eq in Ea.
    assert (Hfk' : forall s, In s (shipments d ++ [new]) ->
                     exists ta, In ta (trade_agreements d) /\
                                ta_id ta = s_trade_agreement_id s).
    { intros s Hs. apply in_app_or in Hs. destruct Hs as [Hs|[<-|[]]]; [auto|].
      exists ta. auto. }
    pose proof (proj2 (distinct_NoDup _) Hnew_tn) as Hd. rewrite Hd. depot_step.
    destruct (@joined_find (trade_agreements d) (shipments d ++ [new])
                           (fun s => s_id s =? next_rowid s_id (shipments d)) new)
      as [r Fr]; [apply in_or_app; right; left; reflexivity|apply Z.eqb_refl|
                  apply Hfk'; apply in_or_app; right; left; reflexivity|].
    rewrite Fr. depot_step. split; [|split; [discriminate|]].
    + unfold depot_ok. cbn [shipments trade_agreements]. auto.
    + unfold shipments_of_others. rewrite filter_app. cbn [filter new s_user_id].
      rewrite Z.eqb_refl. cbn [negb]. apply app_nil_r.
  - (* GET / *)
    unfold listShipments. depot_step. repeat split; auto; discriminate.
  - (* GET /:id *)
    unfold getShipment. depot_step.
    destruct (find _ (joined _ _)); depot_step; repeat split; auto; discriminate.
  - (* PUT /:id *)
    destruct (updateShipmentSchema body) as [e|value] eqn:Ev.
    { unfold updateShipment. rewrite Ev. depot_step. repeat split; auto; discriminate. }
    destruct (find (fun s => (s_id s =? sid) && (s_user_id s =? req_id user)) (shipments d))
      as [ex|] eqn:F.
    2:{ unfold updateShipment. rewrite Ev. depot_step. rewrite F. depot_step.
        repeat split; auto; discriminate. }
    destruct (own_shipment _ _ _ Hid F) as [Hex [Eid [Eu Huniq]]].
    destruct (@updateShipment_cases user sid body value d ex Hid Ev F) as [[-> _]|[-> Hnew]].
    { depot_step. repeat split; auto; discriminate. }
    destruct (@applyUpdates_effect sid value d ex Hok Hex Eid Hnew)
      as [[_ ->]|[_ [ta [_ [_ ->]]]]]; depot_step.
    { repeat split; auto; discriminate. }
    subst sid. split; [|split; [discriminate|]].
    + apply update_where_depot_ok; assumption.
    + apply others_after_update; auto.
  - (* DELETE /:id *)
    unfold deleteShipment. depot_step.
    destruct (find _ (shipments d)) as [ex|] eqn:F; depot_step;
      [|repeat split; auto; discriminate].
    destruct (own_shipment _ _ _ Hid F) as [Hex [Eid [Eu Huniq]]].
    split; [|split; [discriminate|]].
    + unfold depot_ok. cbn [shipments trade_agreements].
      split; [apply NoDup_map_filter; exact Hid|].
      split; [apply NoDup_map_filter; exact Htn|]. split; [exact Hta|].
      intros s Hs. apply filter_In in Hs. apply Hfk. tauto.
    + unfold shipments_of_others. apply filter_filter_absorb. intros r Hr Hk.
      destruct (s_id r =? sid) eqn:E; [|reflexivity]. apply Z.eqb_eq in E.
      rewrite (Huniq r Hr E), Eu, Z.eqb_refl in Hk. discriminate.
  - (* GET /track/:trackingNumber *)
    unfold trackShipment. depot_step.
    destruct (find _ (joined _ _)); depot_step; repeat split; auto; discriminate.
  - (* DELETE /trade-agreements/:id *)
    unfold deleteTradeAgreement. depot_step.
    destruct (find _ (trade_agreements d)) as [ta|] eqn:Fa; depot_step;
      [|repeat split; auto; discriminate].
    destruct (0 <? Z.of_nat (length (filter (fun s => s_trade_agreement_id s =? aid)
                                            (shipments d)))) eqn:Ec; depot_step;
      [repeat split; auto; discriminate|].
    split; [|split; [discriminate|reflexivity]].
    unfold depot_ok. cbn [shipments trade_agreements].
    split; [exact Hid|]. split; [exact Htn|].
    split; [apply NoDup_map_filter; exact Hta|].
    intros s Hs. destruct (Hfk s Hs) as [ta' [Hin E]]. exists ta'.
    split; [|exact E]. apply filter_In. split; [exact Hin|].
    apply negb_true_iff. apply Z.eqb_neq. intros Eaid.
    assert (Hmem : In s (filter (fun s => s_trade_agreement_id s =? aid) (shipments d))).
    { apply filter_In. split; [exact Hs|]. apply Z.eqb_eq. congruence. }
    destruct (filter (fun s => s_trade_agreement_id s =? aid) (shipments d));
      [destruct Hmem|]. cbn [length] in Ec. apply Z.ltb_ge in Ec. lia.
Qed.

Lemma serve_depot_all_ok (calls : list (Z * ReqUser * DepotRequest)) (d : Depot) :
  depot_ok d ->
  Forall (fun served => ship_status (fst served) <> 500 /\ depot_ok (snd served))
         (serve_depot_all calls d).
Proof.
  revert d. induction calls as [|[[at_time user] request] calls IH]; intros d Hok;
    cbn [serve_depot_all]; [constructor|].
  assert (Hok0 : depot_ok (with_depot_clock d at_time)) by exact Hok.
  destruct (depot_handler_effect user request Hok0) as [Hok' [Hst _]].
  constructor; [split; assumption|]. apply IH. exact Hok'.
Qed.

(** X28. The shipment routes keep the constraints of the schema by their
    own checks.  From a store with distinct shipment ids, distinct tracking
    numbers and an agreement behind every shipment, any sequence of
    requests to the six shipment routes ([POST /], [GET /], [GET /:id],
    [PUT /:id], [DELETE /:id], [GET /track/:trackingNumber]) and to the
    deletion of trade agreements leaves every store in between the same
    way, and no request is answered with a 500: no statement runs into the
    [UNIQUE] constraint, names a missing column, or loses the row it has
    just written.  The [page] and [limit] of a [GET /] are integers that
    JavaScript holds exactly, and so is the offset computed from them. *)
Theorem shipment_constraints_never_fail (calls : list (Z * ReqUser * DepotRequest))
        (d : Depot) :
  depot_ok d ->
  Forall (fun call => exact_request (snd call) = true) calls ->
  Forall (fun served => ship_status (fst served) <> 500 /\ depot_ok (snd served))
         (serve_depot_all calls d).
Proof.
  intros Hok _. apply serve_depot_all_ok. exact Hok.
Qed.

(** X29. The dynamic [UPDATE] of [PUT /:id] writes each field of the body
    to the column it is named after.  For a shipment of the caller, a valid
    body with at least one field, and a tracking number that no other
    shipment carries, the answer is 200 with the row in which exactly the
    named fields are replaced and [updated_at] is stamped, and that row is
    what the table then holds under the id. *)
Theorem updateShipment_sets_named_columns (user : ReqUser) (sid : Z)
        (body value : UpdateShipmentBody) (d : Depot) (ex : ShipmentRow) :
  depot_ok d ->
  updateShipmentSchema body = inr value ->
  In ex (shipments d) -> s_id ex = sid -> s_user_id ex = req_id user ->
  entries value <> [] ->
  (forall tn other, ub_trackingNumber value = Some tn -> In other (shipments d) ->
                    s_tracking_number other = tn -> other = ex) ->
  value = body /\
  exists ta, In ta (trade_agreements d) /\ ta_id ta = s_trade_agreement_id ex /\
    run_depot (updateShipment user sid body) d =
      (mkShipResponse 200
         (ShipmentBody (Some "Shipment updated successfully"%string)
                       (shipment_view (with_fields value (depot_clock d) ex, ta))),
       with_shipments d (update_where s_id sid (with_fields value (depot_clock d))
                                      (shipments d))).
Proof.
  intros Hok Ev Hex Eid Eu Hne Hfree. pose proof Hok as [Hid _].
  split; [apply (updateShipmentSchema_inr _ Ev)|].
  assert (F : find (fun s => (s_id s =? sid) && (s_user_id s =? req_id user))
                   (shipments d) = Some ex).
  { destruct (find _ (shipments d)) as [x|] eqn:F.
    - destruct (own_shipment _ _ _ Hid F) as [_ [_ [_ Huniq]]].
      rewrite (Huniq ex Hex Eid). reflexivity.
    - pose proof (find_none _ _ F ex Hex) as Hp. cbn beta in Hp.
      rewrite Eid, Eu, !Z.eqb_refl in Hp. discriminate. }
  destruct (@updateShipment_cases user sid body value d ex Hid Ev F)
    as [[_ [tn [other [Etn [Ho [Et Hn]]]]]]|[-> Hnew]].
  { exfalso. apply Hn. rewrite (Hfree tn other Etn Ho Et). exact Eid. }
  destruct (@applyUpdates_effect sid value d ex Hok Hex Eid Hnew) as [[Elen _]|[_ H]];
    [|exact H].
  exfalso. apply Hne. unfold updates_of in Elen. rewrite length_map in Elen.
  destruct (entries value); [reflexivity|discriminate].
Qed.

Lemma latest_first_In (r : ShipmentRow * TradeAgreementRow)
      (rows : list (ShipmentRow * TradeAgreementRow)) :
  In r (latest_first rows) -> In r rows.
Proof.
  assert (Hins : forall x l, In r (insert_latest x l) -> r = x \/ In r l).
  { intros x l. induction l as [|y l IH]; simpl.
    - intros [<-|[]]. left. reflexivity.
    - destruct (s_created_at (fst y) <=? s_created_at (fst x)); simpl.
      + intros [<-|[<-|H]]; auto.
      + intros [<-|H]; [auto|]. destruct (IH H); auto. }
  unfold latest_first. induction rows as [|x rows IH]; simpl; [tauto|].
  intros H. destruct (Hins _ _ H) as [->|H']; auto.
Qed.

(** X30. A request to the shipment routes changes no shipment of another
    user.  For an id that is not a shipment of the caller, [GET /:id] and
    [DELETE /:id] answer 404 [NOT_FOUND], and [PUT /:id] answers 400
    [VALIDATION_ERROR] when the body is invalid and 404 [NOT_FOUND] when it
    is valid; none of them changes anything.  [GET /] lists only shipments
    of the caller.  [GET /track/:trackingNumber] is the exception among the
    reads: it answers with the shipment of whoever owns the tracking
    number. *)
Theorem shipment_routes_own_rows_only (user : ReqUser) (d : Depot) :
  depot_ok d ->
  (forall request,
      shipments_of_others (req_id user)
                          (shipments (snd (run_depot (depot_handler user request) d))) =
        shipments_of_others (req_id user) (shipments d)) /\
  (forall sid,
      (forall s, In s (shipments d) -> s_id s = sid -> s_user_id s <> req_id user) ->
      run_depot (getShipment user sid) d = (shipment_not_found, d) /\
      run_depot (deleteShipment user sid) d = (shipment_not_found, d) /\
      forall body,
        run_depot (updateShipment user sid body) d =
          (match updateShipmentSchema body with
           | inl error => mkShipResponse 400 (ShipValidationBody error "VALIDATION_ERROR")
           | inr _ => shipment_not_found
           end, d)) /\
  (forall query view,
      In view (listed_shipments (fst (run_depot (listShipments user query) d))) ->
      exists s ta,
        In s (shipments d) /\ s_user_id s = req_id user /\
        In ta (trade_agreements d) /\ ta_id ta = s_trade_agreement_id s /\
        view = shipment_view (s, ta)) /\
  (forall s, In s (shipments d) ->
             run_depot (trackShipment (s_tracking_number s)) d =
               (mkShipResponse 200 (TrackBody (track_view s)), d)).
Proof.
  intros Hok. pose proof Hok as [Hid [Htn [Hta Hfk]]]. split; [|split; [|split]].
  - intros request. apply (depot_handler_effect user request Hok).
  - intros sid Hother.
    assert (F : find (fun s => (s_id s =? sid) && (s_user_id s =? req_id user))
                     (shipments d) = None).
    { destruct (find _ (shipments d)) as [x|] eqn:F; [|reflexivity].
      destruct (own_shipment _ _ _ Hid F) as [Hx [Ei [Eu _]]].
      exfalso. exact (Hother x Hx Ei Eu). }
    assert (Fj : find (fun r => (s_id (fst r) =? sid) && (s_user_id (fst r) =? req_id user))
                      (joined (trade_agreements d) (shipments d)) = None).
    { destruct (find _ (joined _ _)) as [r|] eqn:Fj; [|reflexivity].
      destruct (@joined_find_inv _ _ (fun s => (s_id s =? sid) && (s_user_id s =? req_id user))
                                 _ Fj) as [Hr [_ [_ Hp]]].
      pose proof (find_none _ _ F _ Hr) as Hq. cbn beta in Hq. congruence. }
    split; [|split].
    + unfold getShipment. depot_step. rewrite Fj. reflexivity.
    + unfold deleteShipment. depot_step. rewrite F. reflexivity.
    + intros body. unfold updateShipment.
      destruct (updateShipmentSchema body) as [e|value]; [reflexivity|].
      depot_step. rewrite F. reflexivity.
  - intros query view. unfold listShipments. depot_step.
    cbn [listed_shipments ship_json]. intros Hin. apply in_map_iff in Hin.
    destruct Hin as [r [<- Hr]]. apply sql_limit_incl in Hr. apply latest_first_In in Hr.
    apply filter_In in Hr. destruct Hr as [Hj Hw]. apply joined_In in Hj.
    destruct Hj as [Hs [Hta' E]]. unfold shipment_where in Hw.
    apply andb_true_iff in Hw. destruct Hw as [Hw _].
    apply andb_true_iff in Hw. destruct Hw as [Hu _]. apply Z.eqb_eq in Hu.
    exists (fst r), (snd r). destruct r; simpl in *. auto.
  - intros s Hs. unfold trackShipment. depot_step.
    destruct (@joined_find (trade_agreements d) (shipments d)
                           (fun x => (s_tracking_number x =? s_tracking_number s)%string) s Hs)
      as [r Fr]; [apply String.eqb_refl|apply Hfk; exact Hs|].
    rewrite Fr. depot_step.
    destruct (@joined_find_inv _ _ (fun x => (s_tracking_number x =? s_tracking_number s)%string)
                               _ Fr) as [Hr [_ [_ Hp]]].
    apply String.eqb_eq in Hp.
    rewrite (unique_by s_tracking_number _ (fst r) s Htn Hr Hs Hp). reflexivity.
Qed.

(* ================================================================== *)
(** ** The further properties on the sample data *)

Lemma listTransactions_pages_witness :
  exists n : nat,
    flat_map (list_page alice (page_query None (Some 2)) history_db)
             (map Z.of_nat (seq 1 n)) =
      all_listed alice (page_query None (Some 2)) history_db /\
    (forall p, Z.of_nat n < p -> list_page alice (page_query None (Some 2)) history_db p = []).
Proof.
  assert (Hlimit : 1 <= limit_of (page_query None (Some 2))) by (vm_compute; discriminate).
  destruct (listTransactions_pages alice (page_query None (Some 2)) history_db Hlimit)
    as [n [_ [_ [Hall Hpast]]]].
  exists n. split; [exact Hall|exact Hpast].
Defined.

Lemma listTransactions_limit_zero_witness :
  listed (fst (run_read (listTransactions alice (page_query (Some 1) (Some 0))) history_db))
    = [] /\
  pagination_of (fst (run_read (listTransactions alice (page_query (Some 1) (Some 0)))
                               history_db)) =
    Some (mkPagination 1 0 3 None).
Proof.
  exact (listTransactions_limit_zero alice (page_query (Some 1) (Some 0)) history_db eq_refl).
Defined.

Lemma listTransactions_negative_limit_witness :
  length (listed (fst (run_read (listTransactions alice (page_query (Some 2) (Some (-1))))
                                history_db))) = 3%nat.
Proof.
  assert (Hlimit : limit_of (page_query (Some 2) (Some (-1))) < 0) by (vm_compute; reflexivity).
  assert (Hpage : 1 <= page_of (page_query (Some 2) (Some (-1)))) by (vm_compute; discriminate).
  rewrite (listTransactions_negative_limit alice (page_query (Some 2) (Some (-1)))
                                           history_db Hlimit Hpage).
  reflexivity.
Defined.

Lemma listTransactions_page_below_one_witness :
  list_page alice (page_query None (Some 2)) history_db (-3) =
  list_page alice (page_query None (Some 2)) history_db 1.
Proof.
  assert (Hlimit : 1 <= limit_of (page_query None (Some 2))) by (vm_compute; discriminate).
  assert (Hpage : -3 <= 0) by lia.
  exact (@listTransactions_page_below_one alice (page_query None (Some 2)) history_db (-3)
           Hlimit Hpage).
Defined.

(** Bob asks for a transaction of Alice. *)
Lemma getTransaction_owner_only_witness :
  fst (run_read (getTransaction bob 1) history_db) =
    mkReadResponse 404 (ReadErrorBody "Transaction not found" "NOT_FOUND").
Proof.
  apply (proj2 (proj2 (getTransaction_owner_only bob 1 history_db))).
  intros t Hin Eid. simpl in Hin.
  destruct Hin as [<-|[<-|[<-|[<-|[]]]]]; simpl in *; lia.
Defined.

Lemma recordTransaction_then_getTransaction_witness :
  exists view newBalance,
    fst (run (recordTransaction alice (debit_body 600)) sample_db) =
      mkResponse 201 (TransactionCreatedBody "Transaction created successfully"
                                            view newBalance) /\
    fst (run_read (getTransaction alice (tv_id view))
                  (snd (run (recordTransaction alice (debit_body 600)) sample_db))) =
      mkReadResponse 200 (TransactionItemBody view).
Proof.
  assert (Hok : is_debit_type (type (debit_value 600)) = true ->
                amount (debit_value 600) <= availableBalance alice_wallet)
    by (intros _; vm_compute; discriminate).
  exact (@recordTransaction_then_getTransaction alice (debit_body 600) sample_db
           (debit_value 600) alice_wallet eq_refl eq_refl Hok).
Defined.

Lemma recordTransaction_then_getBalance_witness :
  exists wallet,
    fst (run (getBalance alice) (snd (run (recordTransaction alice (debit_body 600))
                                          sample_db))) =
      mkResponse 200 (BalanceBody wallet) /\
    bv_availableBalance wallet = 400.
Proof.
  assert (Hok : is_debit_type (type (debit_value 600)) = true ->
                amount (debit_value 600) <= availableBalance alice_wallet)
    by (intros _; vm_compute; discriminate).
  destruct (@recordTransaction_then_getBalance alice (debit_body 600) sample_db
              (debit_value 600) alice_wallet eq_refl eq_refl Hok)
    as [view [newBalance [wallet [Hcreated [Hbalance [_ [_ Havailable]]]]]]].
  exists wallet. split; [exact Hbalance|]. rewrite Havailable.
  vm_compute in Hcreated. inversion Hcreated. reflexivity.
Defined.

Lemma recordTransaction_grows_listing_witness :
  length (all_listed alice (page_query None None)
                     (snd (run (recordTransaction alice (debit_body 600)) sample_db))) =
  1%nat.
Proof.
  assert (Hpk : wallets_primary_key sample_db).
  { unfold wallets_primary_key. simpl. repeat constructor; simpl; intuition lia. }
  assert (Hok : is_debit_type (type (debit_value 600)) = true ->
                amount (debit_value 600) <= availableBalance alice_wallet)
    by (intros _; vm_compute; discriminate).
  rewrite (@recordTransaction_grows_listing alice (debit_body 600) sample_db
             (debit_value 600) alice_wallet (page_query None None) Hpk eq_refl eq_refl Hok).
  reflexivity.
Defined.
Lemma sample_backend_emails :
  NoDup (map (fun a => u_email (fst a)) (accounts sample_backend)).
Proof. simpl. repeat constructor; simpl; intuition discriminate. Qed.

Lemma sample_backend_healthy : healthy sample_backend.
Proof.
  unfold healthy. split; [|split; [|split; [|split]]].
  - simpl. repeat constructor; simpl; intuition lia.
  - simpl. repeat constructor; simpl; intuition lia.
  - exact sample_backend_emails.
  - intros a Hin. simpl in Hin. destruct Hin as [<-|[<-|[<-|[]]]]; vm_compute; discriminate.
  - intros w Hin. simpl in Hin.
    destruct Hin as [<-|[<-|[<-|[]]]];
      first [ eexists; split; [left; reflexivity|reflexivity]
            | eexists; split; [right; left; reflexivity|reflexivity]
            | eexists; split; [right; right; left; reflexivity|reflexivity] ].
Qed.

Lemma dora_is_new :
  forall a, In a (accounts sample_backend) -> u_email (fst a) <> rv_email dora_value.
Proof.
  intros a Hin. simpl in Hin. destruct Hin as [<-|[<-|[<-|[]]]]; vm_compute; discriminate.
Qed.

Lemma register_creates_user_and_wallet_witness :
  exists view token refreshToken,
    fst (run_auth sample_hash sample_compare (register has_at sample_sign dora_body)
                  sample_backend) =
      mkAuthResponse 201
        (AuthSuccessBody "User registered successfully" view token refreshToken) /\
    av_id view = 4 /\
    length (b_wallets (snd (run_auth sample_hash sample_compare
                                     (register has_at sample_sign dora_body)
                                     sample_backend))) = 4%nat.
Proof.
  destruct (@register_creates_user_and_wallet has_at sample_hash sample_compare sample_sign
              dora_body dora_value sample_backend eq_refl dora_is_new)
    as [view [token [refreshToken [extra [wallet_uuid [session
         [Hresponse [_ [_ [_ [Hwallets _]]]]]]]]]]].
  exists view, token, refreshToken. split; [exact Hresponse|]. split.
  - vm_compute in Hresponse. inversion Hresponse. reflexivity.
  - rewrite Hwallets. reflexivity.
Defined.

Lemma register_existing_email_witness :
  run_auth sample_hash sample_compare (register has_at sample_sign alice_again)
           sample_backend =
    (mkAuthResponse 409
       (AuthErrorBody "User with this email already exists" "USER_EXISTS"),
     sample_backend).
Proof.
  assert (Hin : In alice_account (accounts sample_backend)) by (simpl; auto).
  exact (@register_existing_email has_at sample_hash sample_compare sample_sign
           alice_again
           (mkRegisterValue "alice@trade.io" "another" "Alice" "Abara" None None "Nigeria")
           sample_backend alice_account eq_refl Hin eq_refl).
Defined.

Lemma backend_stays_healthy_witness :
  Forall healthy
         (serve_backend_all has_at sample_hash sample_compare sample_sign sample_day
                            sample_backend).
Proof.
  exact (proj2 (backend_stays_healthy has_at sample_hash sample_compare sample_sign)
               sample_day sample_backend sample_backend_healthy).
Defined.

Lemma register_then_getBalance_witness :
  exists wallet,
    fst (run_ledger (getBalance (mkReqUser 4 "uuid-1" "dora@trade.io" "Dora" "Dike"))
           (snd (run_auth sample_hash sample_compare (register has_at sample_sign dora_body)
                          sample_backend))) =
      mkResponse 200 (BalanceBody wallet) /\
    bv_balance wallet = 0 /\ bv_currency wallet = "USD"%string.
Proof.
  destruct (@register_then_getBalance has_at sample_hash sample_compare sample_sign
              dora_body dora_value sample_backend
              (mkReqUser 4 "uuid-1" "dora@trade.io" "Dora" "Dike") eq_refl dora_is_new
              (proj2 (proj2 (proj2 (proj2 sample_backend_healthy)))))
    as [view [token [refreshToken [wallet [Hresponse Hbalance]]]]].
  assert (Eid : req_id (mkReqUser 4 "uuid-1" "dora@trade.io" "Dora" "Dike") = av_id view).
  { vm_compute in Hresponse. inversion Hresponse. reflexivity. }
  destruct (Hbalance Eid) as [Hget [Hzero [_ [_ Hcurrency]]]].
  exists wallet. auto.
Defined.

Lemma provisioned_wallets_are_found_witness :
  error_code (fst (run_ledger (transferFunds has_at alice (transfer_body "carol@trade.io" 10))
                              sample_backend)) <>
    Some "RECIPIENT_WALLET_NOT_FOUND"%string /\
  status (fst (run_ledger (getBalance bob) sample_backend)) = 200.
Proof.
  destruct (@provisioned_wallets_are_found has_at sample_hash sample_compare sample_verify
              sample_backend bob
              (proj1 (proj2 (proj2 (proj2 sample_backend_healthy)))))
    as [_ Hown].
  destruct (@provisioned_wallets_are_found has_at sample_hash sample_compare sample_verify
              sample_backend alice
              (proj1 (proj2 (proj2 (proj2 sample_backend_healthy)))))
    as [Hrecipient _].
  split; [apply Hrecipient|]. apply Hown.
  eexists. split; [right; left; reflexivity|reflexivity].
Defined.

(** Carol's account is deactivated; the demo login hands out tokens for it. *)
Lemma demoLogin_existing_account_witness :
  run_auth sample_hash sample_compare (demoLogin sample_sign "carol@trade.io")
           sample_backend =
    (mkAuthResponse 200
       (AuthSuccessBody "Demo login successful" (auth_view carol_account)
                        "jwt.3" "jwt.3.refresh"),
     sample_backend).
Proof.
  assert (Hin : In carol_account (accounts sample_backend)) by (simpl; auto).
  exact (@demoLogin_existing_account sample_hash sample_compare sample_sign
           "carol@trade.io" sample_backend carol_account sample_backend_emails Hin eq_refl).
Defined.

Lemma demoLogin_new_account_witness :
  exists wallet,
    fst (run_ledger (getBalance (mkReqUser 4 "uuid-0" "demo@trade.io" "Demo" "User"))
           (snd (run_auth sample_hash sample_compare (demoLogin sample_sign "demo@trade.io")
                          sample_backend))) =
      mkResponse 200 (BalanceBody wallet) /\
    bv_availableBalance wallet = 10000.
Proof.
  assert (Hnew : forall a, In a (accounts sample_backend) ->
                           u_email (fst a) <> "demo@trade.io"%string).
  { intros a Hin. simpl in Hin.
    destruct Hin as [<-|[<-|[<-|[]]]]; vm_compute; discriminate. }
  destruct (@demoLogin_new_account sample_hash sample_compare sample_sign "demo@trade.io"
              sample_backend (mkReqUser 4 "uuid-0" "demo@trade.io" "Demo" "User") Hnew
              (proj2 (proj2 (proj2 (proj2 sample_backend_healthy)))))
    as [view [token [refreshToken [extra [wallet [Hresponse [_ [_ [_ [_ Hbalance]]]]]]]]]].
  assert (Eid : req_id (mkReqUser 4 "uuid-0" "demo@trade.io" "Demo" "User") = av_id view).
  { vm_compute in Hresponse. inversion Hresponse. reflexivity. }
  destruct (Hbalance Eid) as [Hget [_ [_ [Havailable _]]]].
  exists wallet. auto.
Defined.

Lemma login_invalid_credentials_witness :
  run_auth sample_hash sample_compare
           (login has_at sample_sign (login_body "alice@trade.io" "guess"))
           sample_backend =
  run_auth sample_hash sample_compare
           (login has_at sample_sign (login_body "nobody@trade.io" "guess"))
           sample_backend.
Proof.
  rewrite (@login_invalid_credentials has_at sample_hash sample_compare sample_sign
             (login_body "alice@trade.io" "guess") "alice@trade.io" "guess" sample_backend
             eq_refl sample_backend_emails).
  - rewrite (@login_invalid_credentials has_at sample_hash sample_compare sample_sign
               (login_body "nobody@trade.io" "guess") "nobody@trade.io" "guess"
               sample_backend eq_refl sample_backend_emails).
    + reflexivity.
    + left. intros a Hin. simpl in Hin.
      destruct Hin as [<-|[<-|[<-|[]]]]; vm_compute; discriminate.
  - right. exists alice_account. simpl. auto.
Defined.

Lemma login_deactivated_witness :
  run_auth sample_hash sample_compare
           (login has_at sample_sign (login_body "carol@trade.io" "closed1"))
           sample_backend =
    (mkAuthResponse 401 (AuthErrorBody "Account is deactivated" "ACCOUNT_DEACTIVATED"),
     sample_backend).
Proof.
  assert (Hin : In carol_account (accounts sample_backend)) by (simpl; auto).
  exact (@login_deactivated has_at sample_hash sample_compare sample_sign
           (login_body "carol@trade.io" "closed1") "carol@trade.io" "closed1"
           sample_backend carol_account eq_refl sample_backend_emails Hin eq_refl eq_refl).
Defined.

Lemma login_success_witness :
  b_sessions (snd (run_auth sample_hash sample_compare
                            (login has_at sample_sign (login_body "alice@trade.io" "wonder1"))
                            sample_backend)) =
    [mkSession 1 1 "jwt.1.refresh" (1000 * 50 + 7 * 24 * 60 * 60 * 1000)] /\
  b_wallets (snd (run_auth sample_hash sample_compare
                           (login has_at sample_sign (login_body "alice@trade.io" "wonder1"))
                           sample_backend)) = b_wallets sample_backend.
Proof.
  assert (Hin : In alice_account (accounts sample_backend)) by (simpl; auto).
  destruct (@login_success has_at sample_hash sample_compare sample_sign
              (login_body "alice@trade.io" "wonder1") "alice@trade.io" "wonder1"
              sample_backend alice_account eq_refl sample_backend_emails Hin
              eq_refl eq_refl eq_refl)
    as [_ [_ [_ [Hsessions [Hwallets _]]]]].
  split; [exact Hsessions|exact Hwallets].
Defined.

(** Carol holds a token that still verifies; her account is deactivated. *)
Lemma authenticateToken_admits_active_rows_witness :
  run_auth sample_hash sample_compare
           (authenticateToken sample_verify (Some "Bearer jwt.3"%string)) sample_backend =
    (inl (mkAuthResponse 401 (AuthErrorBody "Invalid or expired token" "INVALID_TOKEN")),
     sample_backend).
Proof.
  apply (proj2 (authenticateToken_admits_active_rows has_at sample_hash sample_compare
                  sample_sign sample_verify (Some "Bearer jwt.3"%string) sample_backend)
               "jwt.3"%string
               (mkJwtClaims 3 (Some "carol@trade.io"%string) None 50 (24 * 60 * 60))
               eq_refl eq_refl).
  intros a Hin Eid. simpl in Hin.
  destruct Hin as [<-|[<-|[<-|[]]]]; simpl in *; try reflexivity; lia.
Defined.

(** A refresh token in the header does what an access token does. *)
Lemma authenticateToken_reads_userId_only_witness :
  run_auth sample_hash sample_compare
           (authenticateToken sample_verify (Some "Bearer jwt.1.refresh"%string))
           sample_backend =
  run_auth sample_hash sample_compare
           (authenticateToken sample_verify (Some "Bearer jwt.1"%string)) sample_backend.
Proof.
  exact (@authenticateToken_reads_userId_only sample_hash sample_compare sample_verify
           (Some "Bearer jwt.1.refresh"%string) (Some "Bearer jwt.1"%string)
           "jwt.1.refresh" "jwt.1"
           (mkJwtClaims 1 None (Some "refresh"%string) 50 (7 * 24 * 60 * 60))
           (mkJwtClaims 1 (Some "alice@trade.io"%string) None 50 (24 * 60 * 60))
           sample_backend eq_refl eq_refl eq_refl eq_refl eq_refl).
Defined.

Lemma bearer_token_any_scheme_witness :
  bearer_token (Some "Basic jwt.1"%string) = Some "jwt.1"%string /\
  bearer_token (Some "Basic"%string) = None.
Proof.
  assert (Hne : "jwt.1"%string <> ""%string) by discriminate.
  exact (@bearer_token_any_scheme "Basic" "jwt.1" eq_refl eq_refl Hne).
Defined.

Lemma markAllRead_clears_unread_witness :
  listed_notifications
    (fst (run_inbox (listNotifications alice unread_query)
                    (snd (run_inbox (markAllRead alice) sample_inbox)))) = [] /\
  rows_of_others (req_id alice) (inbox_rows (snd (run_inbox (markAllRead alice) sample_inbox))) =
    rows_of_others (req_id alice) (inbox_rows sample_inbox).
Proof.
  destruct (markAllRead_clears_unread alice sample_inbox unread_query)
    as [_ [_ [Hlisted [_ Hothers]]]].
  split; [exact (Hlisted eq_refl)|exact Hothers].
Defined.

Lemma sample_inbox_ids : NoDup (map in_id (inbox_rows sample_inbox)).
Proof. unfold in_id. simpl. repeat constructor; simpl; intuition lia. Qed.

(** Alice tries to delete Bob's notification, then deletes all of hers. *)
Lemma notification_routes_own_rows_only_witness :
  run_inbox (deleteNotification alice 2) sample_inbox = (inbox_not_found, sample_inbox) /\
  rows_of_others (req_id alice)
                 (inbox_rows (snd (run_inbox (inbox_handler alice IDeleteAll) sample_inbox))) =
    rows_of_others (req_id alice) (inbox_rows sample_inbox).
Proof.
  destruct (@notification_routes_own_rows_only alice sample_inbox sample_inbox_ids) as [Hall Hother].
  split.
  - apply Hother. intros r Hin Eid. simpl in Hin.
    destruct Hin as [<-|[<-|[<-|[]]]]; vm_compute in Eid |- *; try discriminate; lia.
  - apply Hall.
Defined.

Lemma sample_depot_ok : depot_ok sample_depot.
Proof.
  unfold depot_ok. split; [|split; [|split]].
  - simpl. repeat constructor; simpl; intuition lia.
  - simpl. repeat constructor; simpl; intuition discriminate.
  - simpl. repeat constructor; simpl; intuition lia.
  - intros s Hin. simpl in Hin.
    destruct Hin as [<-|[<-|[]]];
      first [ eexists; split; [left; reflexivity|reflexivity]
            | eexists; split; [right; left; reflexivity|reflexivity] ].
Qed.

Lemma shipment_constraints_never_fail_witness :
  Forall (fun call => exact_request (snd call) = true) sample_shipping /\
  Forall (fun served => ship_status (fst served) <> 500 /\ depot_ok (snd served))
         (serve_depot_all sample_shipping sample_depot) /\
  map (fun served => ship_status (fst served)) (serve_depot_all sample_shipping sample_depot) =
    [409; 201; 404; 200; 409; 400; 200; 200; 200; 404; 200].
Proof.
  assert (Hexact : Forall (fun call => exact_request (snd call) = true) sample_shipping).
  { repeat constructor. }
  split; [exact Hexact|]. split; [|vm_compute; reflexivity].
  exact (@shipment_constraints_never_fail sample_shipping sample_depot sample_depot_ok Hexact).
Defined.

Lemma updateShipment_sets_named_columns_witness :
  shipments (snd (run_depot (updateShipment alice 1 reroute_body) sample_depot)) =
    [mkShipment 1 "s-1" 1 1 "TRK-0009" "DHL" "Lagos" "Kumasi" "in_transit" None (Some 1200)
                None 10 50;
     bob_shipment].
Proof.
  assert (Hin : In alice_shipment (shipments sample_depot)) by (simpl; auto).
  assert (Hne : entries reroute_body <> []) by (vm_compute; discriminate).
  assert (Hfree : forall tn other, ub_trackingNumber reroute_body = Some tn ->
                                   In other (shipments sample_depot) ->
                                   s_tracking_number other = tn -> other = alice_shipment).
  { intros tn other Etn Hother Etracking. simpl in Hother.
    destruct Hother as [<-|[<-|[]]]; [reflexivity|]. exfalso.
    vm_compute in Etn, Etracking. congruence. }
  destruct (@updateShipment_sets_named_columns alice 1 reroute_body reroute_body
              sample_depot alice_shipment sample_depot_ok eq_refl Hin eq_refl eq_refl
              Hne Hfree) as [_ [ta [_ [_ Hrun]]]].
  rewrite Hrun. reflexivity.
Defined.

(** Bob's shipment is out of Alice's reach, but not out of her sight. *)
Lemma shipment_routes_own_rows_only_witness :
  run_depot (deleteShipment alice 2) sample_depot = (shipment_not_found, sample_depot) /\
  run_depot (updateShipment alice 2 reroute_body) sample_depot =
    (shipment_not_found, sample_depot) /\
  run_depot (updateShipment alice 2
               (mkUpdateShipmentBody (Some "T-1"%string) None None None None None None None))
            sample_depot =
    (mkShipResponse 400 (ShipValidationBody (mkJoiError "trackingNumber" "string.min")
                                            "VALIDATION_ERROR"), sample_depot) /\
  run_depot (trackShipment "TRK-0002") sample_depot =
    (mkShipResponse 200 (TrackBody (track_view bob_shipment)), sample_depot).
Proof.
  destruct (@shipment_routes_own_rows_only alice sample_depot sample_depot_ok)
    as [_ [Hother [_ Htrack]]].
  assert (Hforeign : forall s, In s (shipments sample_depot) -> s_id s = 2 ->
                               s_user_id s <> req_id alice).
  { intros s Hin Eid. simpl in Hin.
    destruct Hin as [<-|[<-|[]]]; vm_compute in Eid |- *; try discriminate; lia. }
  destruct (Hother 2 Hforeign) as [_ [Hdelete Hput]].
  split; [exact Hdelete|]. split; [exact (Hput reroute_body)|].
  split; [exact (Hput (mkUpdateShipmentBody (Some "T-1"%string) None None None None None
                                            None None))|].
  apply (Htrack bob_shipment). simpl. auto.
Defined.
